(** * GtkRange: pointer and keyboard interaction, slider geometry

    A shallow embedding of the interaction core of [gtk/gtkrange.c]:
    effective inversion, the coordinate-to-value mapping, the
    change-value funnel, mark snapping, the autoscroll driver, the
    keyboard scroll actions and the grab life cycle.

    [gdouble] is IEEE 754 binary64 and is modelled by Rocq's primitive
    floats, which are the same format with the same rounding
    (round to nearest, ties to even).  [gint] values are pixel
    coordinates and sizes, modelled in [Z].  Sums and differences of
    sizes of the widgets stay small and are computed in [Z]; where an
    operand comes from a pointer coordinate or from the conversion of a
    double, which can be [G_MININT], the sum or difference wraps
    around as 32-bit two's complement arithmetic does ([gint_add],
    [gint_sub]).  The widget state is threaded through a
    small state monad that also records, in order, the signals the
    range emits and the calls it makes into the rest of the toolkit. *)

From Stdlib Require Import ZArith Bool List Lia.
From Stdlib Require Import Floats Uint63.
Import ListNotations.

(** Decimal constants denote the nearest binary64 value, as they do in C. *)
#[local] Set Warnings "-inexact-float".

(** ** Doubles *)

Module GDouble.

Local Open Scope float_scope.

Definition gdouble := float.

(** [(gdouble) i] for a [gint] (exact: 32-bit integers fit in 53 bits). *)
Definition of_gint (i : Z) : gdouble :=
  if (i <? 0)%Z then - of_uint63 (Uint63.of_Z (- i)) else of_uint63 (Uint63.of_Z i).

Definition G_MININT : Z := - 2 ^ 31.
Definition G_MAXINT : Z := 2 ^ 31 - 1.
Definition G_MAXDOUBLE : gdouble := 0x1.fffffffffffffp+1023.

(** The integer part of a finite double, rounded toward zero. *)
Definition truncate (x : gdouble) : option Z :=
  match Prim2SF x with
  | S754_zero _ => Some 0%Z
  | S754_finite s m e =>
      let a := if (0 <=? e)%Z then Z.shiftl (Zpos m) e else Z.shiftr (Zpos m) (- e) in
      Some (if s then (- a)%Z else a)
  | S754_infinity _ | S754_nan => None
  end.

(** [(gint) x]: C truncates toward zero.  The conversion is undefined
    when the integer part does not fit; the model then yields
    [G_MININT], the value SSE2 conversion instructions produce. *)
Definition to_gint (x : gdouble) : Z :=
  match truncate x with
  | Some z => if ((G_MININT <=? z) && (z <=? G_MAXINT))%Z then z else G_MININT
  | None => G_MININT
  end.

(** [floor] of the C library: the largest integral double not above
    [x]; integral values, zeros, infinities and NaN are returned as
    they are.  A double with a non-negative exponent is integral. *)
Definition floor (x : gdouble) : gdouble :=
  match Prim2SF x with
  | S754_finite s m e =>
      if (0 <=? e)%Z then x
      else
        let q := Z.shiftr (Zpos m) (- e) in
        let integral := (Z.shiftl q (- e) =? Zpos m)%Z in
        if integral then x
        else if s then - of_uint63 (Uint63.of_Z (q + 1))
        else of_uint63 (Uint63.of_Z q)
  | _ => x
  end.

Definition fabs (x : gdouble) : gdouble := abs x.

(** GLib's comparison macros, with C's [<] and [>] on doubles
    ([a > b] is [b <? a]; any comparison with NaN is false). *)
Definition MAX (a b : gdouble) : gdouble := if b <? a then a else b.
Definition MIN (a b : gdouble) : gdouble := if a <? b then a else b.
Definition CLAMP (x low high : gdouble) : gdouble :=
  if high <? x then high else if x <? low then low else x.

(** C's [==] and [!=] on doubles. *)
Definition feq (a b : gdouble) : bool := a =? b.
Definition fne (a b : gdouble) : bool := negb (a =? b).

Definition is_finite (x : gdouble) : bool :=
  match Prim2SF x with
  | S754_zero _ | S754_finite _ _ _ => true
  | S754_infinity _ | S754_nan => false
  end.

End GDouble.
Import GDouble.


Local Open Scope Z_scope.

(** ** 32-bit integers *)

(** The value of a [gint] computation whose mathematical result is
    [z]: on overflow the 32-bit result wraps around. *)
Definition gint_wrap (z : Z) : Z := (z + 2 ^ 31) mod 2 ^ 32 - 2 ^ 31.

Definition gint_add (a b : Z) : Z := gint_wrap (a + b).
Definition gint_sub (a b : Z) : Z := gint_wrap (a - b).

Definition gboolean := bool.
Definition TRUE : gboolean := true.
Definition FALSE : gboolean := false.

(** ** Enumerations of the toolkit (gtkenums.h) *)

Inductive GtkOrientation : Set :=
| GTK_ORIENTATION_HORIZONTAL
| GTK_ORIENTATION_VERTICAL.

Inductive GtkTextDirection : Set :=
| GTK_TEXT_DIR_NONE
| GTK_TEXT_DIR_LTR
| GTK_TEXT_DIR_RTL.

Inductive GtkScrollType : Set :=
| GTK_SCROLL_NONE
| GTK_SCROLL_JUMP
| GTK_SCROLL_STEP_BACKWARD
| GTK_SCROLL_STEP_FORWARD
| GTK_SCROLL_PAGE_BACKWARD
| GTK_SCROLL_PAGE_FORWARD
| GTK_SCROLL_STEP_UP
| GTK_SCROLL_STEP_DOWN
| GTK_SCROLL_PAGE_UP
| GTK_SCROLL_PAGE_DOWN
| GTK_SCROLL_STEP_LEFT
| GTK_SCROLL_STEP_RIGHT
| GTK_SCROLL_PAGE_LEFT
| GTK_SCROLL_PAGE_RIGHT
| GTK_SCROLL_START
| GTK_SCROLL_END.

Scheme Equality for GtkScrollType.

(** The widgets a [GtkWidget *] of the range can point to: the slider
    gizmo, the trough gizmo, or the range itself.  [NULL] is [None]. *)
Inductive RangePart : Set :=
| SLIDER_WIDGET
| TROUGH_WIDGET
| RANGE_WIDGET.

Definition is_part (l : option RangePart) (w : RangePart) : bool :=
  match l, w with
  | Some SLIDER_WIDGET, SLIDER_WIDGET
  | Some TROUGH_WIDGET, TROUGH_WIDGET
  | Some RANGE_WIDGET, RANGE_WIDGET => true
  | _, _ => false
  end.

Definition is_null {A : Type} (l : option A) : bool :=
  match l with
  | None => true
  | Some _ => false
  end.

Inductive GdkKey : Set :=
| GDK_KEY_Escape
| GDK_KEY_Shift_L
| GDK_KEY_Shift_R
| GDK_KEY_other (keyval : Z).

Definition TIMEOUT_INITIAL : Z := 500.
Definition TIMEOUT_REPEAT : Z := 250.
Definition AUTOSCROLL_FACTOR : gdouble := 20%float.
Definition SCROLL_EDGE_SIZE : Z := 15.
Definition MARK_SNAP_LENGTH : gdouble := 12%float.

Definition GDK_EVENT_STOP : gboolean := TRUE.
Definition GDK_EVENT_PROPAGATE : gboolean := FALSE.
Definition G_SOURCE_CONTINUE : gboolean := TRUE.
Definition G_SOURCE_REMOVE : gboolean := FALSE.

(** ** Data *)

Record GtkAllocation : Set := {
  alloc_x : Z;
  alloc_y : Z;
  alloc_width : Z;
  alloc_height : Z
}.

(** The adjustment is the external model object; the range reads it
    through these getters. *)
Record GtkAdjustment : Set := {
  gtk_adjustment_get_value : gdouble;
  gtk_adjustment_get_lower : gdouble;
  gtk_adjustment_get_upper : gdouble;
  gtk_adjustment_get_step_increment : gdouble;
  gtk_adjustment_get_page_increment : gdouble;
  gtk_adjustment_get_page_size : gdouble
}.

Record GtkRangeStepTimer : Set := {
  timeout_id : Z;
  step : GtkScrollType
}.

(** What the range asks of its drag gesture: the device driving it,
    the start point and the current offset. *)
Record GtkGestureDrag : Set := {
  drag_device : Z;
  drag_start_x : gdouble;
  drag_start_y : gdouble;
  drag_offset_x : gdouble;
  drag_offset_y : gdouble
}.

Record GdkEventKey : Set := {
  event_keyval : option GdkKey;
  event_device : Z
}.

Inductive GdkInputSource : Set :=
| GDK_SOURCE_MOUSE
| GDK_SOURCE_TOUCHSCREEN
| GDK_SOURCE_OTHER.

(** What the press handler asks of the event behind a press. *)
Record GdkEventButton : Set := {
  event_button : Z;
  event_shift_pressed : bool;
  event_source : GdkInputSource;
  event_triggers_context_menu : bool
}.

Definition GDK_BUTTON_PRIMARY : Z := 1.
Definition GDK_BUTTON_MIDDLE : Z := 2.
Definition GDK_BUTTON_SECONDARY : Z := 3.

(** [struct _GtkRangePrivate].  Widget pointers that never change
    ([trough_widget], [slider_widget], the gestures) are left out;
    [marks] together with [n_marks] is a list; [mark_pos] is a cache for
    drawing and is not modelled. *)
Record GtkRangePrivate : Set := {
  mouse_location : option RangePart;
  mouse_x : Z;
  mouse_y : Z;
  grab_location : option RangePart;
  timer : option GtkRangeStepTimer;
  adjustment : GtkAdjustment;
  orientation : GtkOrientation;
  fill_level : gdouble;
  marks : list gdouble;
  round_digits : Z;
  slide_initial_slider_position : Z;
  slide_initial_coordinate_delta : Z;
  flippable : bool;
  inverted : bool;
  slider_size_fixed : bool;
  trough_click_forward : bool;
  has_origin : bool;
  zoom : bool;
  show_fill_level : bool;
  restrict_to_fill_level : bool;
  in_drag : bool;
  autoscroll_mode : GtkScrollType;
  autoscroll_id : Z
}.

(** The range widget: its private data and the widget-level state the
    modelled functions read or write: text direction, the size of the
    range, the outer allocations of slider and trough, the measured
    minimum size of the slider, the content size of the trough, whether
    the range is a [GtkScale], the [gtk-primary-button-warps-slider]
    setting, the drag gesture while it is active, state flags and style
    classes, and the counter from which the host hands out source ids. *)
Record GtkRange : Set := {
  priv : GtkRangePrivate;
  direction : GtkTextDirection;
  widget_width : Z;
  widget_height : Z;
  slider_alloc : GtkAllocation;
  trough_alloc : GtkAllocation;
  slider_min_width : Z;
  slider_min_height : Z;
  trough_width : Z;
  trough_height : Z;
  is_scale : bool;
  primary_button_warps_slider : bool;
  drag_gesture : option GtkGestureDrag;
  slider_active : bool;
  trough_active : bool;
  class_dragging : bool;
  class_fine_tune : bool;
  next_source_id : Z
}.

(** ** Field updates *)

Definition set_mouse_location (v : option RangePart) (p : GtkRangePrivate) : GtkRangePrivate :=
  {| mouse_location := v; mouse_x := mouse_x p; mouse_y := mouse_y p;
     grab_location := grab_location p; timer := timer p; adjustment := adjustment p;
     orientation := orientation p; fill_level := fill_level p; marks := marks p;
     round_digits := round_digits p;
     slide_initial_slider_position := slide_initial_slider_position p;
     slide_initial_coordinate_delta := slide_initial_coordinate_delta p;
     flippable := flippable p; inverted := inverted p;
     slider_size_fixed := slider_size_fixed p;
     trough_click_forward := trough_click_forward p; has_origin := has_origin p;
     zoom := zoom p; show_fill_level := show_fill_level p;
     restrict_to_fill_level := restrict_to_fill_level p; in_drag := in_drag p;
     autoscroll_mode := autoscroll_mode p; autoscroll_id := autoscroll_id p |}.

Definition set_mouse_x (v : Z) (p : GtkRangePrivate) : GtkRangePrivate :=
  {| mouse_location := mouse_location p; mouse_x := v; mouse_y := mouse_y p;
     grab_location := grab_location p; timer := timer p; adjustment := adjustment p;
     orientation := orientation p; fill_level := fill_level p; marks := marks p;
     round_digits := round_digits p;
     slide_initial_slider_position := slide_initial_slider_position p;
     slide_initial_coordinate_delta := slide_initial_coordinate_delta p;
     flippable := flippable p; inverted := inverted p;
     slider_size_fixed := slider_size_fixed p;
     trough_click_forward := trough_click_forward p; has_origin := has_origin p;
     zoom := zoom p; show_fill_level := show_fill_level p;
     restrict_to_fill_level := restrict_to_fill_level p; in_drag := in_drag p;
     autoscroll_mode := autoscroll_mode p; autoscroll_id := autoscroll_id p |}.

Definition set_mouse_y (v : Z) (p : GtkRangePrivate) : GtkRangePrivate :=
  {| mouse_location := mouse_location p; mouse_x := mouse_x p; mouse_y := v;
     grab_location := grab_location p; timer := timer p; adjustment := adjustment p;
     orientation := orientation p; fill_level := fill_level p; marks := marks p;
     round_digits := round_digits p;
     slide_initial_slider_position := slide_initial_slider_position p;
     slide_initial_coordinate_delta := slide_initial_coordinate_delta p;
     flippable := flippable p; inverted := inverted p;
     slider_size_fixed := slider_size_fixed p;
     trough_click_forward := trough_click_forward p; has_origin := has_origin p;
     zoom := zoom p; show_fill_level := show_fill_level p;
     restrict_to_fill_level := restrict_to_fill_level p; in_drag := in_drag p;
     autoscroll_mode := autoscroll_mode p; autoscroll_id := autoscroll_id p |}.

Definition set_grab_location (v : option RangePart) (p : GtkRangePrivate) : GtkRangePrivate :=
  {| mouse_location := mouse_location p; mouse_x := mouse_x p; mouse_y := mouse_y p;
     grab_location := v; timer := timer p; adjustment := adjustment p;
     orientation := orientation p; fill_level := fill_level p; marks := marks p;
     round_digits := round_digits p;
     slide_initial_slider_position := slide_initial_slider_position p;
     slide_initial_coordinate_delta := slide_initial_coordinate_delta p;
     flippable := flippable p; inverted := inverted p;
     slider_size_fixed := slider_size_fixed p;
     trough_click_forward := trough_click_forward p; has_origin := has_origin p;
     zoom := zoom p; show_fill_level := show_fill_level p;
     restrict_to_fill_level := restrict_to_fill_level p; in_drag := in_drag p;
     autoscroll_mode := autoscroll_mode p; autoscroll_id := autoscroll_id p |}.

Definition set_timer (v : option GtkRangeStepTimer) (p : GtkRangePrivate) : GtkRangePrivate :=
  {| mouse_location := mouse_location p; mouse_x := mouse_x p; mouse_y := mouse_y p;
     grab_location := grab_location p; timer := v; adjustment := adjustment p;
     orientation := orientation p; fill_level := fill_level p; marks := marks p;
     round_digits := round_digits p;
     slide_initial_slider_position := slide_initial_slider_position p;
     slide_initial_coordinate_delta := slide_initial_coordinate_delta p;
     flippable := flippable p; inverted := inverted p;
     slider_size_fixed := slider_size_fixed p;
     trough_click_forward := trough_click_forward p; has_origin := has_origin p;
     zoom := zoom p; show_fill_level := show_fill_level p;
     restrict_to_fill_level := restrict_to_fill_level p; in_drag := in_drag p;
     autoscroll_mode := autoscroll_mode p; autoscroll_id := autoscroll_id p |}.

Definition set_adjustment (v : GtkAdjustment) (p : GtkRangePrivate) : GtkRangePrivate :=
  {| mouse_location := mouse_location p; mouse_x := mouse_x p; mouse_y := mouse_y p;
     grab_location := grab_location p; timer := timer p; adjustment := v;
     orientation := orientation p; fill_level := fill_level p; marks := marks p;
     round_digits := round_digits p;
     slide_initial_slider_position := slide_initial_slider_position p;
     slide_initial_coordinate_delta := slide_initial_coordinate_delta p;
     flippable := flippable p; inverted := inverted p;
     slider_size_fixed := slider_size_fixed p;
     trough_click_forward := trough_click_forward p; has_origin := has_origin p;
     zoom := zoom p; show_fill_level := show_fill_level p;
     restrict_to_fill_level := restrict_to_fill_level p; in_drag := in_drag p;
     autoscroll_mode := autoscroll_mode p; autoscroll_id := autoscroll_id p |}.

Definition set_fill_level (v : gdouble) (p : GtkRangePrivate) : GtkRangePrivate :=
  {| mouse_location := mouse_location p; mouse_x := mouse_x p; mouse_y := mouse_y p;
     grab_location := grab_location p; timer := timer p; adjustment := adjustment p;
     orientation := orientation p; fill_level := v; marks := marks p;
     round_digits := round_digits p;
     slide_initial_slider_position := slide_initial_slider_position p;
     slide_initial_coordinate_delta := slide_initial_coordinate_delta p;
     flippable := flippable p; inverted := inverted p;
     slider_size_fixed := slider_size_fixed p;
     trough_click_forward := trough_click_forward p; has_origin := has_origin p;
     zoom := zoom p; show_fill_level := show_fill_level p;
     restrict_to_fill_level := restrict_to_fill_level p; in_drag := in_drag p;
     autoscroll_mode := autoscroll_mode p; autoscroll_id := autoscroll_id p |}.

Definition set_slide_initial_slider_position (v : Z) (p : GtkRangePrivate) : GtkRangePrivate :=
  {| mouse_location := mouse_location p; mouse_x := mouse_x p; mouse_y := mouse_y p;
     grab_location := grab_location p; timer := timer p; adjustment := adjustment p;
     orientation := orientation p; fill_level := fill_level p; marks := marks p;
     round_digits := round_digits p; slide_initial_slider_position := v;
     slide_initial_coordinate_delta := slide_initial_coordinate_delta p;
     flippable := flippable p; inverted := inverted p;
     slider_size_fixed := slider_size_fixed p;
     trough_click_forward := trough_click_forward p; has_origin := has_origin p;
     zoom := zoom p; show_fill_level := show_fill_level p;
     restrict_to_fill_level := restrict_to_fill_level p; in_drag := in_drag p;
     autoscroll_mode := autoscroll_mode p; autoscroll_id := autoscroll_id p |}.

Definition set_slide_initial_coordinate_delta (v : Z) (p : GtkRangePrivate) : GtkRangePrivate :=
  {| mouse_location := mouse_location p; mouse_x := mouse_x p; mouse_y := mouse_y p;
     grab_location := grab_location p; timer := timer p; adjustment := adjustment p;
     orientation := orientation p; fill_level := fill_level p; marks := marks p;
     round_digits := round_digits p;
     slide_initial_slider_position := slide_initial_slider_position p;
     slide_initial_coordinate_delta := v; flippable := flippable p; inverted := inverted p;
     slider_size_fixed := slider_size_fixed p;
     trough_click_forward := trough_click_forward p; has_origin := has_origin p;
     zoom := zoom p; show_fill_level := show_fill_level p;
     restrict_to_fill_level := restrict_to_fill_level p; in_drag := in_drag p;
     autoscroll_mode := autoscroll_mode p; autoscroll_id := autoscroll_id p |}.

Definition set_trough_click_forward (v : bool) (p : GtkRangePrivate) : GtkRangePrivate :=
  {| mouse_location := mouse_location p; mouse_x := mouse_x p; mouse_y := mouse_y p;
     grab_location := grab_location p; timer := timer p; adjustment := adjustment p;
     orientation := orientation p; fill_level := fill_level p; marks := marks p;
     round_digits := round_digits p;
     slide_initial_slider_position := slide_initial_slider_position p;
     slide_initial_coordinate_delta := slide_initial_coordinate_delta p;
     flippable := flippable p; inverted := inverted p;
     slider_size_fixed := slider_size_fixed p; trough_click_forward := v;
     has_origin := has_origin p; zoom := zoom p; show_fill_level := show_fill_level p;
     restrict_to_fill_level := restrict_to_fill_level p; in_drag := in_drag p;
     autoscroll_mode := autoscroll_mode p; autoscroll_id := autoscroll_id p |}.

Definition set_zoom (v : bool) (p : GtkRangePrivate) : GtkRangePrivate :=
  {| mouse_location := mouse_location p; mouse_x := mouse_x p; mouse_y := mouse_y p;
     grab_location := grab_location p; timer := timer p; adjustment := adjustment p;
     orientation := orientation p; fill_level := fill_level p; marks := marks p;
     round_digits := round_digits p;
     slide_initial_slider_position := slide_initial_slider_position p;
     slide_initial_coordinate_delta := slide_initial_coordinate_delta p;
     flippable := flippable p; inverted := inverted p;
     slider_size_fixed := slider_size_fixed p;
     trough_click_forward := trough_click_forward p; has_origin := has_origin p; zoom := v;
     show_fill_level := show_fill_level p;
     restrict_to_fill_level := restrict_to_fill_level p; in_drag := in_drag p;
     autoscroll_mode := autoscroll_mode p; autoscroll_id := autoscroll_id p |}.

Definition set_in_drag (v : bool) (p : GtkRangePrivate) : GtkRangePrivate :=
  {| mouse_location := mouse_location p; mouse_x := mouse_x p; mouse_y := mouse_y p;
     grab_location := grab_location p; timer := timer p; adjustment := adjustment p;
     orientation := orientation p; fill_level := fill_level p; marks := marks p;
     round_digits := round_digits p;
     slide_initial_slider_position := slide_initial_slider_position p;
     slide_initial_coordinate_delta := slide_initial_coordinate_delta p;
     flippable := flippable p; inverted := inverted p;
     slider_size_fixed := slider_size_fixed p;
     trough_click_forward := trough_click_forward p; has_origin := has_origin p;
     zoom := zoom p; show_fill_level := show_fill_level p;
     restrict_to_fill_level := restrict_to_fill_level p; in_drag := v;
     autoscroll_mode := autoscroll_mode p; autoscroll_id := autoscroll_id p |}.

Definition set_autoscroll_mode (v : GtkScrollType) (p : GtkRangePrivate) : GtkRangePrivate :=
  {| mouse_location := mouse_location p; mouse_x := mouse_x p; mouse_y := mouse_y p;
     grab_location := grab_location p; timer := timer p; adjustment := adjustment p;
     orientation := orientation p; fill_level := fill_level p; marks := marks p;
     round_digits := round_digits p;
     slide_initial_slider_position := slide_initial_slider_position p;
     slide_initial_coordinate_delta := slide_initial_coordinate_delta p;
     flippable := flippable p; inverted := inverted p;
     slider_size_fixed := slider_size_fixed p;
     trough_click_forward := trough_click_forward p; has_origin := has_origin p;
     zoom := zoom p; show_fill_level := show_fill_level p;
     restrict_to_fill_level := restrict_to_fill_level p; in_drag := in_drag p;
     autoscroll_mode := v; autoscroll_id := autoscroll_id p |}.

Definition set_autoscroll_id (v : Z) (p : GtkRangePrivate) : GtkRangePrivate :=
  {| mouse_location := mouse_location p; mouse_x := mouse_x p; mouse_y := mouse_y p;
     grab_location := grab_location p; timer := timer p; adjustment := adjustment p;
     orientation := orientation p; fill_level := fill_level p; marks := marks p;
     round_digits := round_digits p;
     slide_initial_slider_position := slide_initial_slider_position p;
     slide_initial_coordinate_delta := slide_initial_coordinate_delta p;
     flippable := flippable p; inverted := inverted p;
     slider_size_fixed := slider_size_fixed p;
     trough_click_forward := trough_click_forward p; has_origin := has_origin p;
     zoom := zoom p; show_fill_level := show_fill_level p;
     restrict_to_fill_level := restrict_to_fill_level p; in_drag := in_drag p;
     autoscroll_mode := autoscroll_mode p; autoscroll_id := v |}.

Definition set_priv (v : GtkRangePrivate) (r : GtkRange) : GtkRange :=
  {| priv := v; direction := direction r; widget_width := widget_width r;
     widget_height := widget_height r; slider_alloc := slider_alloc r;
     trough_alloc := trough_alloc r; slider_min_width := slider_min_width r;
     slider_min_height := slider_min_height r; trough_width := trough_width r;
     trough_height := trough_height r; is_scale := is_scale r;
     primary_button_warps_slider := primary_button_warps_slider r;
     drag_gesture := drag_gesture r; slider_active := slider_active r;
     trough_active := trough_active r; class_dragging := class_dragging r;
     class_fine_tune := class_fine_tune r; next_source_id := next_source_id r |}.

Definition set_drag_gesture (v : option GtkGestureDrag) (r : GtkRange) : GtkRange :=
  {| priv := priv r; direction := direction r; widget_width := widget_width r;
     widget_height := widget_height r; slider_alloc := slider_alloc r;
     trough_alloc := trough_alloc r; slider_min_width := slider_min_width r;
     slider_min_height := slider_min_height r; trough_width := trough_width r;
     trough_height := trough_height r; is_scale := is_scale r;
     primary_button_warps_slider := primary_button_warps_slider r; drag_gesture := v;
     slider_active := slider_active r; trough_active := trough_active r;
     class_dragging := class_dragging r; class_fine_tune := class_fine_tune r;
     next_source_id := next_source_id r |}.

Definition set_slider_active (v : bool) (r : GtkRange) : GtkRange :=
  {| priv := priv r; direction := direction r; widget_width := widget_width r;
     widget_height := widget_height r; slider_alloc := slider_alloc r;
     trough_alloc := trough_alloc r; slider_min_width := slider_min_width r;
     slider_min_height := slider_min_height r; trough_width := trough_width r;
     trough_height := trough_height r; is_scale := is_scale r;
     primary_button_warps_slider := primary_button_warps_slider r;
     drag_gesture := drag_gesture r; slider_active := v; trough_active := trough_active r;
     class_dragging := class_dragging r; class_fine_tune := class_fine_tune r;
     next_source_id := next_source_id r |}.

Definition set_trough_active (v : bool) (r : GtkRange) : GtkRange :=
  {| priv := priv r; direction := direction r; widget_width := widget_width r;
     widget_height := widget_height r; slider_alloc := slider_alloc r;
     trough_alloc := trough_alloc r; slider_min_width := slider_min_width r;
     slider_min_height := slider_min_height r; trough_width := trough_width r;
     trough_height := trough_height r; is_scale := is_scale r;
     primary_button_warps_slider := primary_button_warps_slider r;
     drag_gesture := drag_gesture r; slider_active := slider_active r; trough_active := v;
     class_dragging := class_dragging r; class_fine_tune := class_fine_tune r;
     next_source_id := next_source_id r |}.

Definition set_class_dragging (v : bool) (r : GtkRange) : GtkRange :=
  {| priv := priv r; direction := direction r; widget_width := widget_width r;
     widget_height := widget_height r; slider_alloc := slider_alloc r;
     trough_alloc := trough_alloc r; slider_min_width := slider_min_width r;
     slider_min_height := slider_min_height r; trough_width := trough_width r;
     trough_height := trough_height r; is_scale := is_scale r;
     primary_button_warps_slider := primary_button_warps_slider r;
     drag_gesture := drag_gesture r; slider_active := slider_active r;
     trough_active := trough_active r; class_dragging := v;
     class_fine_tune := class_fine_tune r; next_source_id := next_source_id r |}.

Definition set_class_fine_tune (v : bool) (r : GtkRange) : GtkRange :=
  {| priv := priv r; direction := direction r; widget_width := widget_width r;
     widget_height := widget_height r; slider_alloc := slider_alloc r;
     trough_alloc := trough_alloc r; slider_min_width := slider_min_width r;
     slider_min_height := slider_min_height r; trough_width := trough_width r;
     trough_height := trough_height r; is_scale := is_scale r;
     primary_button_warps_slider := primary_button_warps_slider r;
     drag_gesture := drag_gesture r; slider_active := slider_active r;
     trough_active := trough_active r; class_dragging := class_dragging r;
     class_fine_tune := v; next_source_id := next_source_id r |}.

Definition set_next_source_id (v : Z) (r : GtkRange) : GtkRange :=
  {| priv := priv r; direction := direction r; widget_width := widget_width r;
     widget_height := widget_height r; slider_alloc := slider_alloc r;
     trough_alloc := trough_alloc r; slider_min_width := slider_min_width r;
     slider_min_height := slider_min_height r; trough_width := trough_width r;
     trough_height := trough_height r; is_scale := is_scale r;
     primary_button_warps_slider := primary_button_warps_slider r;
     drag_gesture := drag_gesture r; slider_active := slider_active r;
     trough_active := trough_active r; class_dragging := class_dragging r;
     class_fine_tune := class_fine_tune r; next_source_id := v |}.

(** ** Effects *)

(** Signal emissions and calls into the host that the range performs. *)
Inductive Event : Set :=
| SIGNAL_VALUE_CHANGED
| SIGNAL_ADJUST_BOUNDS (value : gdouble)
| SIGNAL_CHANGE_VALUE (scroll : GtkScrollType) (value : gdouble)
| ADJUSTMENT_SET_VALUE (value : gdouble)
| ADJUSTMENT_ANIMATE_TO_VALUE (value : gdouble)
| WIDGET_ERROR_BELL
| ADD_TICK_CALLBACK (id : Z)
| REMOVE_TICK_CALLBACK (id : Z)
| ADD_TIMEOUT (interval : Z) (id : Z)
| SOURCE_REMOVE (id : Z)
| RETURN_IF_FAIL
| SIGNAL_POPUP_MENU
| SEQUENCE_CLAIMED
| PARENT_UNMAP.

(** A computation on the range: it returns a result, the new state of
    the widget and the events it performed, oldest first. *)
Definition M (A : Type) : Type := GtkRange -> A * GtkRange * list Event.

Definition ret {A : Type} (a : A) : M A := fun r => (a, r, []).

Definition bind {A B : Type} (m : M A) (f : A -> M B) : M B :=
  fun r =>
    let '(a, r1, t1) := m r in
    let '(b, r2, t2) := f a r1 in
    (b, r2, t1 ++ t2).

Declare Scope range_scope.
Delimit Scope range_scope with range.
Notation "x <- c1 ;; c2" := (bind c1 (fun x => c2))
  (at level 61, c1 at next level, right associativity) : range_scope.
Notation "c1 ;; c2" := (bind c1 (fun _ => c2))
  (at level 61, right associativity) : range_scope.
Local Open Scope range_scope.

Definition get : M GtkRange := fun r => (r, r, []).
Definition modify (f : GtkRange -> GtkRange) : M unit := fun r => (tt, f r, []).
Definition modify_priv (f : GtkRangePrivate -> GtkRangePrivate) : M unit :=
  modify (fun r => set_priv (f (priv r)) r).
Definition perform (e : Event) : M unit := fun r => (tt, r, [e]).
Definition when (b : bool) (m : M unit) : M unit := if b then m else ret tt.

Definition result {A : Type} (x : A * GtkRange * list Event) : A := fst (fst x).
Definition state {A : Type} (x : A * GtkRange * list Event) : GtkRange := snd (fst x).
Definition trace {A : Type} (x : A * GtkRange * list Event) : list Event := snd x.

(** ** The host

    Everything the range calls that lives outside [gtkrange.c]: the
    handlers that subclasses and applications connect to the range's
    signals, the adjustment's setters, hit testing in the widget tree
    and the parent class.  The signals are [G_SIGNAL_RUN_LAST]:
    connected handlers run before the class handler (handlers connected
    to run after it are not modelled).  A handler may change any part
    of the widget. *)
Class Host : Type := {
  (** handlers of [adjust-bounds] (they may widen the bounds) *)
  adjust_bounds_handlers : gdouble -> GtkRange -> GtkRange;
  (** handlers of [change-value]; the accumulator stops the emission,
      before the class handler, when one returns [TRUE] *)
  change_value_handlers : GtkScrollType -> gdouble -> GtkRange -> gboolean * GtkRange;
  (** handlers of [value-changed] *)
  value_changed_handlers : GtkRange -> GtkRange;
  gtk_adjustment_set_value : GtkAdjustment -> gdouble -> GtkAdjustment;
  gtk_adjustment_animate_to_value : GtkAdjustment -> gdouble -> GtkAdjustment;
  (** [gtk_widget_pick] followed by the walk up to the nearest of
      slider, trough and range *)
  gtk_widget_pick : GtkRange -> Z -> Z -> option RangePart;
  parent_key_press_event : GdkEventKey -> GtkRange -> gboolean * GtkRange
}.

Bind Scope float_scope with gdouble.
Scheme Equality for GtkTextDirection.

(** ** The range *)

Section Range.

Context {host : Host}.

Local Open Scope float_scope.

(** *** Effective inversion *)

Definition gtk_widget_get_direction (range : GtkRange) : GtkTextDirection :=
  direction range.

Definition should_invert (range : GtkRange) : gboolean :=
  let p := priv range in
  match orientation p with
  | GTK_ORIENTATION_HORIZONTAL =>
      (inverted p && negb (flippable p))
      || (inverted p && flippable p
          && GtkTextDirection_beq (gtk_widget_get_direction range) GTK_TEXT_DIR_LTR)
      || (negb (inverted p) && flippable p
          && GtkTextDirection_beq (gtk_widget_get_direction range) GTK_TEXT_DIR_RTL)
  | GTK_ORIENTATION_VERTICAL => inverted p
  end.

(** *** Grab *)

Definition update_slider_state : M unit :=
  modify (fun r => set_slider_active (is_part (grab_location (priv r)) SLIDER_WIDGET) r).

Definition update_trough_state : M unit :=
  modify (fun r => set_trough_active (is_part (grab_location (priv r)) TROUGH_WIDGET) r).

Definition update_zoom_state (enabled : gboolean) : M unit :=
  modify (set_class_fine_tune enabled);;
  modify_priv (set_zoom enabled).

Definition gtk_range_update_mouse_location : M unit :=
  modify (fun r =>
    let p := priv r in
    let x := mouse_x p in
    let y := mouse_y p in
    if negb (is_null (grab_location p))
    then set_priv (set_mouse_location (grab_location p) p) r
    else set_priv (set_mouse_location (gtk_widget_pick r x y) p) r).

Definition range_grab_add (location : RangePart) : M unit :=
  modify_priv (set_grab_location (Some location));;
  update_trough_state;;
  update_slider_state;;
  modify (set_class_dragging true).

Definition range_grab_remove : M unit :=
  r <- get;;
  if is_null (grab_location (priv r)) then ret tt
  else
    modify_priv (set_grab_location None);;
    gtk_range_update_mouse_location;;
    update_trough_state;;
    update_slider_state;;
    update_zoom_state FALSE;;
    modify (set_class_dragging false).

(** *** Geometry: from a coordinate to a value *)

Definition coord_to_value (range : GtkRange) (coord : gdouble) : gdouble :=
  let p := priv range in
  let slider := slider_alloc range in
  let trough := trough_alloc range in
  let vertical :=
    match orientation p with
    | GTK_ORIENTATION_VERTICAL => true
    | GTK_ORIENTATION_HORIZONTAL => false
    end in
  let trough_length := if vertical then alloc_height trough else alloc_width trough in
  let trough_start := if vertical then alloc_y trough else alloc_x trough in
  let slider_length := if vertical then alloc_height slider else alloc_width slider in
  let frac :=
    if (trough_length =? slider_length)%Z then 1
    else MAX 0 (coord - of_gint trough_start)
         / of_gint (trough_length - slider_length) in
  let frac := if should_invert range then 1 - frac else frac in
  gtk_adjustment_get_lower (adjustment p)
  + frac * (gtk_adjustment_get_upper (adjustment p)
            - gtk_adjustment_get_lower (adjustment p)
            - gtk_adjustment_get_page_size (adjustment p)).

(** *** The change-value funnel *)

Definition emit_adjust_bounds (value : gdouble) : M unit :=
  perform (SIGNAL_ADJUST_BOUNDS value);;
  modify (adjust_bounds_handlers value).

Definition emit_value_changed : M unit :=
  perform SIGNAL_VALUE_CHANGED;;
  modify value_changed_handlers.

(** Slider visibility and the queued allocation are left to the host. *)
Definition gtk_range_calc_slider : M unit :=
  gtk_range_update_mouse_location.

Definition gtk_range_adjustment_value_changed : M unit :=
  gtk_range_calc_slider;;
  emit_value_changed.

(** Modelled from the spec: the adjustment (gtkadjustment.c is not part
    of the sources) "exposes get/set operations and a value-changed
    notification"; the range's handler of that notification runs when
    a setter has changed the stored value. *)
Definition adjustment_call (setter : GtkAdjustment -> gdouble -> GtkAdjustment)
    (value : gdouble) : M unit :=
  r <- get;;
  let adj := adjustment (priv r) in
  let adj' := setter adj value in
  modify_priv (set_adjustment adj');;
  when (fne (gtk_adjustment_get_value adj') (gtk_adjustment_get_value adj))
    gtk_range_adjustment_value_changed.

(** [while (i--) power *= 10;] started at a count [i >= 0]. *)
Fixpoint power_loop (i : nat) (power : gdouble) : gdouble :=
  match i with
  | O => power
  | S i' => power_loop i' (power * 10)
  end.

Definition gtk_range_real_change_value (scroll : GtkScrollType) (value : gdouble)
  : M gboolean :=
  (* potentially adjust the bounds _before_ we clamp *)
  emit_adjust_bounds value;;
  r <- get;;
  let p := priv r in
  let value :=
    if restrict_to_fill_level p
    then MIN value (MAX (gtk_adjustment_get_lower (adjustment p)) (fill_level p))
    else value in
  let value :=
    CLAMP value (gtk_adjustment_get_lower (adjustment p))
      (gtk_adjustment_get_upper (adjustment p)
       - gtk_adjustment_get_page_size (adjustment p)) in
  let value :=
    if (0 <=? round_digits p)%Z then
      let power := power_loop (Z.to_nat (round_digits p)) 1 in
      floor (value * power + 0.5) / power
    else value in
  (if in_drag p || negb (autoscroll_id p =? 0)%Z
   then perform (ADJUSTMENT_SET_VALUE value);;
        adjustment_call gtk_adjustment_set_value value
   else perform (ADJUSTMENT_ANIMATE_TO_VALUE value);;
        adjustment_call gtk_adjustment_animate_to_value value);;
  ret FALSE.

(** [g_signal_emit (range, signals[CHANGE_VALUE], 0, scroll, value, &handled)] *)
Definition emit_change_value (scroll : GtkScrollType) (value : gdouble) : M gboolean :=
  perform (SIGNAL_CHANGE_VALUE scroll value);;
  handled <- (fun r => let '(h, r') := change_value_handlers scroll value r in (h, r', []));;
  if handled : bool then ret TRUE
  else gtk_range_real_change_value scroll value.

(** *** Marks and the scroll actions *)

Fixpoint apply_marks_loop (marks : list gdouble) (oldval newval : gdouble) : gdouble :=
  match marks with
  | [] => newval
  | mark :: rest =>
      if ((oldval <? mark) && (mark <? newval)) || ((mark <? oldval) && (newval <? mark))
      then mark
      else apply_marks_loop rest oldval newval
  end.

Definition apply_marks (range : GtkRange) (oldval newval : gdouble) : gdouble :=
  apply_marks_loop (marks (priv range)) oldval newval.

Definition step_back : M unit :=
  r <- get;;
  let adj := adjustment (priv r) in
  let newval := gtk_adjustment_get_value adj - gtk_adjustment_get_step_increment adj in
  let newval := apply_marks r (gtk_adjustment_get_value adj) newval in
  _ <- emit_change_value GTK_SCROLL_STEP_BACKWARD newval;;
  ret tt.

Definition step_forward : M unit :=
  r <- get;;
  let adj := adjustment (priv r) in
  let newval := gtk_adjustment_get_value adj + gtk_adjustment_get_step_increment adj in
  let newval := apply_marks r (gtk_adjustment_get_value adj) newval in
  _ <- emit_change_value GTK_SCROLL_STEP_FORWARD newval;;
  ret tt.

Definition page_back : M unit :=
  r <- get;;
  let adj := adjustment (priv r) in
  let newval := gtk_adjustment_get_value adj - gtk_adjustment_get_page_increment adj in
  let newval := apply_marks r (gtk_adjustment_get_value adj) newval in
  _ <- emit_change_value GTK_SCROLL_PAGE_BACKWARD newval;;
  ret tt.

Definition page_forward : M unit :=
  r <- get;;
  let adj := adjustment (priv r) in
  let newval := gtk_adjustment_get_value adj + gtk_adjustment_get_page_increment adj in
  let newval := apply_marks r (gtk_adjustment_get_value adj) newval in
  _ <- emit_change_value GTK_SCROLL_PAGE_FORWARD newval;;
  ret tt.

Definition scroll_begin : M unit :=
  r <- get;;
  _ <- emit_change_value GTK_SCROLL_START (gtk_adjustment_get_lower (adjustment (priv r)));;
  ret tt.

Definition scroll_end : M unit :=
  r <- get;;
  let adj := adjustment (priv r) in
  let newval := gtk_adjustment_get_upper adj - gtk_adjustment_get_page_size adj in
  _ <- emit_change_value GTK_SCROLL_END newval;;
  ret tt.

Definition gtk_range_scroll (scroll : GtkScrollType) : M gboolean :=
  r <- get;;
  let old_value := gtk_adjustment_get_value (adjustment (priv r)) in
  match scroll with
  | GTK_SCROLL_STEP_LEFT => if should_invert r then step_forward else step_back
  | GTK_SCROLL_STEP_UP => if should_invert r then step_forward else step_back
  | GTK_SCROLL_STEP_RIGHT => if should_invert r then step_back else step_forward
  | GTK_SCROLL_STEP_DOWN => if should_invert r then step_back else step_forward
  | GTK_SCROLL_STEP_BACKWARD => step_back
  | GTK_SCROLL_STEP_FORWARD => step_forward
  | GTK_SCROLL_PAGE_LEFT => if should_invert r then page_forward else page_back
  | GTK_SCROLL_PAGE_UP => if should_invert r then page_forward else page_back
  | GTK_SCROLL_PAGE_RIGHT => if should_invert r then page_back else page_forward
  | GTK_SCROLL_PAGE_DOWN => if should_invert r then page_back else page_forward
  | GTK_SCROLL_PAGE_BACKWARD => page_back
  | GTK_SCROLL_PAGE_FORWARD => page_forward
  | GTK_SCROLL_START => scroll_begin
  | GTK_SCROLL_END => scroll_end
  | GTK_SCROLL_JUMP => ret tt (* Used by CList, range doesn't use it. *)
  | GTK_SCROLL_NONE => ret tt
  end;;
  r' <- get;;
  ret (fne (gtk_adjustment_get_value (adjustment (priv r'))) old_value).

Definition gtk_range_move_slider (scroll : GtkScrollType) : M unit :=
  changed <- gtk_range_scroll scroll;;
  if negb changed then perform WIDGET_ERROR_BELL else ret tt.

(** *** Geometry: from a value to the slider rectangle *)

Definition gtk_range_compute_slider_position (range : GtkRange)
    (adjustment_value : gdouble) : GtkAllocation :=
  let p := priv range in
  let lower := gtk_adjustment_get_lower (adjustment p) in
  let upper := gtk_adjustment_get_upper (adjustment p) in
  let page_size := gtk_adjustment_get_page_size (adjustment p) in
  let slider_width := slider_min_width range in
  let slider_height := slider_min_height range in
  let trough_width := trough_width range in
  let trough_height := trough_height range in
  match orientation p with
  | GTK_ORIENTATION_VERTICAL =>
      (* Slider fits into the trough, with stepper_spacing on either side,
         and the size/position based on the adjustment or fixed, depending. *)
      let rect_x := to_gint (floor (of_gint ((trough_width - slider_width) ÷ 2))) in
      let min_slider_size := slider_height in
      (* Compute slider position/length *)
      let top := 0%Z in
      let bottom := (top + trough_height)%Z in
      (* Scale slider half extends over the trough edge *)
      let top := if is_scale range then (top - min_slider_size ÷ 2)%Z else top in
      let bottom := if is_scale range then (bottom + min_slider_size ÷ 2)%Z else bottom in
      (* slider height is the fraction (page_size / total_adjustment_range)
         times the trough height in pixels *)
      let height :=
        if fne (upper - lower) 0
        then to_gint (of_gint (bottom - top) * (page_size / (upper - lower)))
        else min_slider_size in
      let height :=
        if (height <? min_slider_size)%Z || slider_size_fixed p
        then min_slider_size else height in
      let height := Z.min height trough_height in
      let y := top in
      let y :=
        if fne (upper - lower - page_size) 0
        then to_gint (of_gint y
                      + of_gint (bottom - top - height)
                        * ((adjustment_value - lower) / (upper - lower - page_size)))
        else y in
      let y := if (bottom <? y)%Z then bottom else if (y <? top)%Z then top else y in
      let y := if should_invert range then (bottom - (y - top + height))%Z else y in
      {| alloc_x := rect_x; alloc_y := y;
         alloc_width := slider_width; alloc_height := height |}
  | GTK_ORIENTATION_HORIZONTAL =>
      let rect_y := to_gint (floor (of_gint ((trough_height - slider_height) ÷ 2))) in
      let min_slider_size := slider_width in
      let left := 0%Z in
      let right := (left + trough_width)%Z in
      let left := if is_scale range then (left - min_slider_size ÷ 2)%Z else left in
      let right := if is_scale range then (right + min_slider_size ÷ 2)%Z else right in
      let width :=
        if fne (upper - lower) 0
        then to_gint (of_gint (right - left) * (page_size / (upper - lower)))
        else min_slider_size in
      let width :=
        if (width <? min_slider_size)%Z || slider_size_fixed p
        then min_slider_size else width in
      let width := Z.min width trough_width in
      let x := left in
      let x :=
        if fne (upper - lower - page_size) 0
        then to_gint (of_gint x
                      + of_gint (right - left - width)
                        * ((adjustment_value - lower) / (upper - lower - page_size)))
        else x in
      let x := if (right <? x)%Z then right else if (x <? left)%Z then left else x in
      let x := if should_invert range then (right - (x - left + width))%Z else x in
      {| alloc_x := x; alloc_y := rect_y;
         alloc_width := width; alloc_height := slider_height |}
  end.

(** *** Dragging the slider *)

Definition update_initial_slider_position (x y : gdouble) (slider : GtkAllocation)
  : M unit :=
  r <- get;;
  match orientation (priv r) with
  | GTK_ORIENTATION_VERTICAL =>
      let position := Z.max 0 (alloc_y slider) in
      modify_priv (set_slide_initial_slider_position position);;
      modify_priv (set_slide_initial_coordinate_delta (to_gint (y - of_gint position)))
  | GTK_ORIENTATION_HORIZONTAL =>
      let position := Z.max 0 (alloc_x slider) in
      modify_priv (set_slide_initial_slider_position position);;
      modify_priv (set_slide_initial_coordinate_delta (to_gint (x - of_gint position)))
  end.

(** The zoom factor of a drag update (the first block of
    [update_slider_position]). *)
Definition drag_zoom (range : GtkRange) : gdouble :=
  let p := priv range in
  let adj := adjustment p in
  if zoom p then
    let trough := trough_alloc range in
    let zoom :=
      MIN 1
        (of_gint (match orientation p with
                  | GTK_ORIENTATION_VERTICAL => alloc_height trough
                  | GTK_ORIENTATION_HORIZONTAL => alloc_width trough
                  end)
         / (gtk_adjustment_get_upper adj
            - gtk_adjustment_get_lower adj
            - gtk_adjustment_get_page_size adj)) in
    (* the above is ineffective for scales, so just set a zoom factor *)
    if feq zoom 1 then 0.25 else zoom
  else 1.

(** recalculate the initial position from the current position *)
Definition recalculate_initial_position (zoom : gdouble) (mouse_x mouse_y : Z)
  : M unit :=
  r <- get;;
  let p := priv r in
  when (slide_initial_slider_position p =? -1)%Z
    (let slider := slider_alloc r in
     match orientation p with
     | GTK_ORIENTATION_VERTICAL =>
         modify_priv (set_slide_initial_slider_position
           (to_gint ((zoom * of_gint (gint_sub mouse_y (slide_initial_coordinate_delta p))
                      - of_gint (alloc_y slider)) / (zoom - 1))))
     | GTK_ORIENTATION_HORIZONTAL =>
         modify_priv (set_slide_initial_slider_position
           (to_gint ((zoom * of_gint (gint_sub mouse_x (slide_initial_coordinate_delta p))
                      - of_gint (alloc_x slider)) / (zoom - 1))))
     end).

(** The synthetic slider coordinate [c] of a drag update. *)
Definition slide_coordinate (range : GtkRange) (zoom : gdouble) (mouse_x mouse_y : Z)
  : gdouble :=
  let p := priv range in
  let delta :=
    match orientation p with
    | GTK_ORIENTATION_VERTICAL =>
        of_gint (gint_sub mouse_y
                   (gint_add (slide_initial_coordinate_delta p)
                      (slide_initial_slider_position p)))
    | GTK_ORIENTATION_HORIZONTAL =>
        of_gint (gint_sub mouse_x
                   (gint_add (slide_initial_coordinate_delta p)
                      (slide_initial_slider_position p)))
    end in
  of_gint (slide_initial_slider_position p) + zoom * delta.

(** The loop over the marks of [update_slider_position]; it stops at
    the first mark taken. *)
Fixpoint snap_to_mark_loop (marks : list gdouble) (value new_value mark_delta : gdouble)
  : gdouble :=
  match marks with
  | [] => new_value
  | mark_value :: rest =>
      if fabs (value - mark_value) <? 3 * mark_delta then
        if fabs (new_value - mark_value) <? MARK_SNAP_LENGTH * mark_delta
        then mark_value
        else snap_to_mark_loop rest value new_value mark_delta
      else snap_to_mark_loop rest value new_value mark_delta
  end.

(** During a slide, move the slider as required given new mouse position *)
Definition update_slider_position (mouse_x mouse_y : Z) : M unit :=
  r <- get;;
  let zoom := drag_zoom r in
  recalculate_initial_position zoom mouse_x mouse_y;;
  r <- get;;
  let p := priv r in
  let c := slide_coordinate r zoom mouse_x mouse_y in
  let new_value := coord_to_value r c in
  let next_value := coord_to_value r (c + 1) in
  let mark_delta := fabs (next_value - new_value) in
  let new_value :=
    snap_to_mark_loop (marks p) (gtk_adjustment_get_value (adjustment p))
      new_value mark_delta in
  _ <- emit_change_value GTK_SCROLL_JUMP new_value;;
  ret tt.

(** *** Autoscroll *)

(** The host hands out non-zero source ids. *)
Definition new_source_id : M Z :=
  r <- get;;
  modify (set_next_source_id (next_source_id r + 1)%Z);;
  ret (next_source_id r).

Definition remove_autoscroll : M unit :=
  r <- get;;
  when (negb (autoscroll_id (priv r) =? 0)%Z)
    (perform (REMOVE_TICK_CALLBACK (autoscroll_id (priv r)));;
     modify_priv (set_autoscroll_id 0%Z));;
  (* unset initial position so it can be calculated *)
  modify_priv (set_slide_initial_slider_position (-1)%Z);;
  modify_priv (set_autoscroll_mode GTK_SCROLL_NONE).

(** The increment of one tick; [None] is [g_assert_not_reached ()]. *)
Definition autoscroll_increment (range : GtkRange) : option gdouble :=
  let p := priv range in
  let adj := adjustment p in
  let step := gtk_adjustment_get_step_increment adj in
  let page := gtk_adjustment_get_page_increment adj in
  match autoscroll_mode p with
  | GTK_SCROLL_STEP_FORWARD => Some (step / AUTOSCROLL_FACTOR)
  | GTK_SCROLL_PAGE_FORWARD => Some (page / AUTOSCROLL_FACTOR)
  | GTK_SCROLL_STEP_BACKWARD => Some ((- step) / AUTOSCROLL_FACTOR)
  | GTK_SCROLL_PAGE_BACKWARD => Some ((- page) / AUTOSCROLL_FACTOR)
  | GTK_SCROLL_START
  | GTK_SCROLL_END =>
      (* Vary scrolling speed from slow (ie step) to fast (2 * page),
         based on the distance of the pointer from the widget. We start
         speeding up if the pointer moves at least 20 pixels away, and
         we reach maximum speed when it is 220 pixels away. *)
      let '(x, y) :=
        match drag_gesture range with
        | Some gesture => (drag_offset_x gesture, drag_offset_y gesture)
        | None => (0, 0)
        end in
      let distance :=
        match orientation p with
        | GTK_ORIENTATION_HORIZONTAL => fabs y
        | GTK_ORIENTATION_VERTICAL => fabs x
        end in
      let distance := CLAMP (distance - 20) 0 200 in
      let t := distance / 100 in
      let step := (1 - t) * step + t * page in
      if GtkScrollType_beq (autoscroll_mode p) GTK_SCROLL_END
      then Some (step / AUTOSCROLL_FACTOR)
      else Some ((- step) / AUTOSCROLL_FACTOR)
  | _ => None
  end.

Definition autoscroll_cb (range : GtkRange) : option (gboolean * GtkRange * list Event) :=
  match autoscroll_increment range with
  | None => None
  | Some increment =>
      let value := gtk_adjustment_get_value (adjustment (priv range)) in
      let value := value + increment in
      Some ((_ <- emit_change_value GTK_SCROLL_JUMP value;;
             ret G_SOURCE_CONTINUE) range)
  end.

Definition add_autoscroll : M unit :=
  r <- get;;
  if negb (autoscroll_id (priv r) =? 0)%Z
     || GtkScrollType_beq (autoscroll_mode (priv r)) GTK_SCROLL_NONE
  then ret tt
  else
    id <- new_source_id;;
    perform (ADD_TICK_CALLBACK id);;
    modify_priv (set_autoscroll_id id).

Definition gtk_range_remove_step_timer : M unit :=
  r <- get;;
  match timer (priv r) with
  | Some t =>
      when (negb (timeout_id t =? 0)%Z) (perform (SOURCE_REMOVE (timeout_id t)));;
      modify_priv (set_timer None)
  | None => ret tt
  end.

Definition gtk_range_add_step_timer (step : GtkScrollType) : M unit :=
  r <- get;;
  if negb (is_null (timer (priv r))) then perform RETURN_IF_FAIL
  else if GtkScrollType_beq step GTK_SCROLL_NONE then perform RETURN_IF_FAIL
  else
    id <- new_source_id;;
    perform (ADD_TIMEOUT TIMEOUT_INITIAL id);;
    modify_priv (set_timer (Some {| timeout_id := id; step := step |}));;
    _ <- gtk_range_scroll step;;
    ret tt.

Definition stop_scrolling : M unit :=
  range_grab_remove;;
  gtk_range_remove_step_timer;;
  remove_autoscroll.

Definition update_autoscroll_mode : M unit :=
  r <- get;;
  let p := priv r in
  let mode :=
    if zoom p then
      let width := widget_width r in
      let height := widget_height r in
      let '(size, pos) :=
        match orientation p with
        | GTK_ORIENTATION_VERTICAL => (height, mouse_y p)
        | GTK_ORIENTATION_HORIZONTAL => (width, mouse_x p)
        end in
      if (pos <? SCROLL_EDGE_SIZE)%Z
      then if inverted p then GTK_SCROLL_STEP_FORWARD else GTK_SCROLL_STEP_BACKWARD
      else if (size - SCROLL_EDGE_SIZE <? pos)%Z
      then if inverted p then GTK_SCROLL_STEP_BACKWARD else GTK_SCROLL_STEP_FORWARD
      else GTK_SCROLL_NONE
    else GTK_SCROLL_NONE in
  when (negb (GtkScrollType_beq mode (autoscroll_mode p)))
    (remove_autoscroll;;
     modify_priv (set_autoscroll_mode mode);;
     add_autoscroll).

Definition gtk_range_start_autoscroll (scroll_type : GtkScrollType) : M unit :=
  remove_autoscroll;;
  modify_priv (set_autoscroll_mode scroll_type);;
  add_autoscroll.

Definition gtk_range_stop_autoscroll : M unit :=
  remove_autoscroll.

(** *** Event handlers *)

Definition range_get_scroll_for_grab (range : GtkRange) : GtkScrollType :=
  let p := priv range in
  if is_null (grab_location p) then GTK_SCROLL_NONE
  else if is_part (grab_location p) TROUGH_WIDGET then
    (* In the trough *)
    if trough_click_forward p then GTK_SCROLL_PAGE_FORWARD else GTK_SCROLL_PAGE_BACKWARD
  else GTK_SCROLL_NONE.

Definition gtk_range_long_press_gesture_pressed (x y : gdouble) : M unit :=
  gtk_range_update_mouse_location;;
  r <- get;;
  when (is_part (mouse_location (priv r)) SLIDER_WIDGET && negb (zoom (priv r)))
    (update_initial_slider_position x y (slider_alloc r);;
     update_zoom_state TRUE).

Definition is_touchscreen (source : GdkInputSource) : bool :=
  match source with
  | GDK_SOURCE_TOUCHSCREEN => true
  | _ => false
  end.

(** Taking the keyboard focus and queueing a redraw are left to the
    host. *)
Definition gtk_range_multipress_gesture_pressed (event : GdkEventButton)
    (x y : gdouble) : M unit :=
  let button := event_button event in
  let shift_pressed := event_shift_pressed event in
  let source := event_source event in
  modify_priv (set_mouse_x (to_gint x));;
  modify_priv (set_mouse_y (to_gint y));;
  gtk_range_update_mouse_location;;
  r <- get;;
  let p := priv r in
  let slider := slider_alloc r in
  let primary_warps := primary_button_warps_slider r in
  let vertical :=
    match orientation p with
    | GTK_ORIENTATION_VERTICAL => true
    | GTK_ORIENTATION_HORIZONTAL => false
    end in
  if is_part (mouse_location p) SLIDER_WIDGET && event_triggers_context_menu event
  then
    perform SEQUENCE_CLAIMED;;
    perform SIGNAL_POPUP_MENU
  else
    (if is_part (mouse_location p) SLIDER_WIDGET then
       (* Shift-click in the slider = fine adjustment *)
       when shift_pressed (update_zoom_state TRUE);;
       update_initial_slider_position x y slider;;
       range_grab_add SLIDER_WIDGET
     else if is_part (mouse_location p) TROUGH_WIDGET
             && (is_touchscreen source
                 || (primary_warps && negb shift_pressed
                     && (button =? GDK_BUTTON_PRIMARY)%Z)
                 || (negb primary_warps && shift_pressed
                     && (button =? GDK_BUTTON_PRIMARY)%Z)
                 || (negb primary_warps && (button =? GDK_BUTTON_MIDDLE)%Z))
     then
       (* warp to location *)
       let slider_high_value := coord_to_value r (if vertical then y else x) in
       let slider_low_value :=
         coord_to_value r
           (if vertical then y - of_gint (alloc_height slider)
            else x - of_gint (alloc_width slider)) in
       (* compute new value for warped slider *)
       let new_value := (slider_low_value + slider_high_value) / 2 in
       let slider := gtk_range_compute_slider_position r new_value in
       update_initial_slider_position x y slider;;
       range_grab_add SLIDER_WIDGET;;
       update_slider_position (to_gint x) (to_gint y)
     else if is_part (mouse_location p) TROUGH_WIDGET
             && ((primary_warps && shift_pressed
                  && (button =? GDK_BUTTON_PRIMARY)%Z)
                 || (negb primary_warps && negb shift_pressed
                     && (button =? GDK_BUTTON_PRIMARY)%Z)
                 || (primary_warps && (button =? GDK_BUTTON_MIDDLE)%Z))
     then
       (* jump by pages *)
       let click_value := coord_to_value r (if vertical then y else x) in
       modify_priv (set_trough_click_forward
                      (gtk_adjustment_get_value (adjustment p) <? click_value));;
       range_grab_add TROUGH_WIDGET;;
       r <- get;;
       gtk_range_add_step_timer (range_get_scroll_for_grab r)
     else if is_part (mouse_location p) TROUGH_WIDGET
             && (button =? GDK_BUTTON_SECONDARY)%Z
     then
       (* autoscroll *)
       let click_value := coord_to_value r (if vertical then y else x) in
       let forward := gtk_adjustment_get_value (adjustment p) <? click_value in
       modify_priv (set_trough_click_forward forward);;
       range_grab_add TROUGH_WIDGET;;
       remove_autoscroll;;
       modify_priv (set_autoscroll_mode
                      (if forward then GTK_SCROLL_END else GTK_SCROLL_START));;
       add_autoscroll
     else ret tt);;
    r <- get;;
    if is_part (grab_location (priv r)) SLIDER_WIDGET
    then ret tt (* leave it to ::drag-begin to claim the sequence *)
    else if negb (is_null (grab_location (priv r))) then perform SEQUENCE_CLAIMED
    else ret tt.

Definition gtk_range_drag_gesture_begin : M unit :=
  r <- get;;
  when (is_part (grab_location (priv r)) SLIDER_WIDGET) (perform SEQUENCE_CLAIMED).

Definition gtk_range_drag_gesture_update (gesture : GtkGestureDrag)
    (offset_x offset_y : gdouble) : M unit :=
  r <- get;;
  when (is_part (grab_location (priv r)) SLIDER_WIDGET)
    (modify_priv (set_mouse_x (to_gint (drag_start_x gesture + offset_x)));;
     modify_priv (set_mouse_y (to_gint (drag_start_y gesture + offset_y)));;
     modify_priv (set_in_drag TRUE);;
     update_autoscroll_mode;;
     r <- get;;
     when (GtkScrollType_beq (autoscroll_mode (priv r)) GTK_SCROLL_NONE)
       (update_slider_position (mouse_x (priv r)) (mouse_y (priv r)))).

Definition gtk_range_multipress_gesture_released (x y : gdouble) : M unit :=
  modify_priv (set_mouse_x (to_gint x));;
  modify_priv (set_mouse_y (to_gint y));;
  modify_priv (set_in_drag FALSE);;
  stop_scrolling.

Definition is_shift (keyval : GdkKey) : bool :=
  match keyval with
  | GDK_KEY_Shift_L | GDK_KEY_Shift_R => true
  | _ => false
  end.

Definition is_escape (keyval : GdkKey) : bool :=
  match keyval with
  | GDK_KEY_Escape => true
  | _ => false
  end.

Definition drag_gesture_device_is (range : GtkRange) (device : Z) : bool :=
  match drag_gesture range with
  | Some gesture => (device =? drag_device gesture)%Z
  | None => false
  end.

Definition gtk_range_key_press (event : GdkEventKey) : M gboolean :=
  r <- get;;
  let p := priv r in
  match event_keyval event with
  | None => ret GDK_EVENT_PROPAGATE
  | Some keyval =>
      if negb (is_null (drag_gesture r))
         && drag_gesture_device_is r (event_device event)
         && is_escape keyval
         && negb (is_null (grab_location p))
      then
        stop_scrolling;;
        ret GDK_EVENT_STOP
      else if in_drag p && is_shift keyval
      then
        let slider := slider_alloc r in
        match orientation p with
        | GTK_ORIENTATION_VERTICAL =>
            modify_priv (set_slide_initial_slider_position (alloc_y slider))
        | GTK_ORIENTATION_HORIZONTAL =>
            modify_priv (set_slide_initial_slider_position (alloc_x slider))
        end;;
        update_zoom_state (negb (zoom p));;
        ret GDK_EVENT_STOP
      else
        fun r => let '(b, r') := parent_key_press_event event r in (b, r', [])
  end.

Definition gtk_range_unmap : M unit :=
  stop_scrolling;;
  perform PARENT_UNMAP.

End Range.

(** ** What a run shows *)

(** The values handed to the adjustment, through either setter. *)
Fixpoint committed_values (t : list Event) : list gdouble :=
  match t with
  | [] => []
  | ADJUSTMENT_SET_VALUE v :: t' => v :: committed_values t'
  | ADJUSTMENT_ANIMATE_TO_VALUE v :: t' => v :: committed_values t'
  | _ :: t' => committed_values t'
  end.

(** The emissions of [change-value]: scroll reason and candidate value. *)
Fixpoint change_values (t : list Event) : list (GtkScrollType * gdouble) :=
  match t with
  | [] => []
  | SIGNAL_CHANGE_VALUE s v :: t' => (s, v) :: change_values t'
  | _ :: t' => change_values t'
  end.

Fixpoint error_bells (t : list Event) : nat :=
  match t with
  | [] => O
  | WIDGET_ERROR_BELL :: t' => S (error_bells t')
  | _ :: t' => error_bells t'
  end.

(** ** The specification's formulas *)

Module Spec.

Local Open Scope float_scope.

(** Effective inversion of a horizontal range, as a truth table. *)
Definition horizontal_inversion (inverted flippable : bool) (dir : GtkTextDirection)
  : bool :=
  match inverted, flippable, dir with
  | true, false, _ => true
  | true, true, GTK_TEXT_DIR_LTR => true
  | false, true, GTK_TEXT_DIR_RTL => true
  | _, _, _ => false
  end.

(** [10^digits], built by repeated multiplication. *)
Fixpoint ten_to (digits : nat) : gdouble :=
  match digits with
  | O => 1
  | S d => ten_to d * 10
  end.

(** [5^digits * 2^digits]: the exact power of ten while [5^digits]
    fits the 53-bit significand, that is up to [10^22]. *)
Definition exact_ten_to (digits : Z) : gdouble :=
  Z.ldexp (of_uint63 (Uint63.of_Z (5 ^ digits))) digits.

Definition cap_at_fill_level (restrict : bool) (lower fill_level v : gdouble) : gdouble :=
  if restrict then MIN v (MAX lower fill_level) else v.

Definition round_half_up (digits : Z) (v : gdouble) : gdouble :=
  if (0 <=? digits)%Z
  then floor (v * ten_to (Z.to_nat digits) + 0.5) / ten_to (Z.to_nat digits)
  else v.

(** The value the funnel commits for candidate [v]: cap, clamp, round. *)
Definition committed_value (range : GtkRange) (v : gdouble) : gdouble :=
  let p := priv range in
  let adj := adjustment p in
  let lower := gtk_adjustment_get_lower adj in
  let top := gtk_adjustment_get_upper adj - gtk_adjustment_get_page_size adj in
  round_half_up (round_digits p)
    (CLAMP (cap_at_fill_level (restrict_to_fill_level p) lower (fill_level p) v)
       lower top).

(** Trough and slider along the orientation of the range. *)
Definition trough_start (range : GtkRange) : Z :=
  match orientation (priv range) with
  | GTK_ORIENTATION_VERTICAL => alloc_y (trough_alloc range)
  | GTK_ORIENTATION_HORIZONTAL => alloc_x (trough_alloc range)
  end.

Definition trough_length (range : GtkRange) : Z :=
  match orientation (priv range) with
  | GTK_ORIENTATION_VERTICAL => alloc_height (trough_alloc range)
  | GTK_ORIENTATION_HORIZONTAL => alloc_width (trough_alloc range)
  end.

Definition slider_length (range : GtkRange) : Z :=
  match orientation (priv range) with
  | GTK_ORIENTATION_VERTICAL => alloc_height (slider_alloc range)
  | GTK_ORIENTATION_HORIZONTAL => alloc_width (slider_alloc range)
  end.

(** The inverse geometry mapping on plain numbers.  The only division
    is by the travel [trough_length - slider_length], and only when
    there is one. *)
Definition divisor (trough_length slider_length : Z) : option Z :=
  if (trough_length =? slider_length)%Z then None
  else Some (trough_length - slider_length)%Z.

Definition fraction (coord : gdouble) (trough_start trough_length slider_length : Z)
    (invert : bool) : gdouble :=
  let frac :=
    match divisor trough_length slider_length with
    | None => 1
    | Some travel => MAX 0 (coord - of_gint trough_start) / of_gint travel
    end in
  if invert then 1 - frac else frac.

Definition coord_to_value (coord : gdouble) (trough_start trough_length slider_length : Z)
    (invert : bool) (lower upper page_size : gdouble) : gdouble :=
  lower
  + fraction coord trough_start trough_length slider_length invert
    * (upper - lower - page_size).

(** A mark strictly between the old and the new value, either way. *)
Definition strictly_between (oldval newval mark : gdouble) : bool :=
  ((oldval <? mark) && (mark <? newval)) || ((newval <? mark) && (mark <? oldval)).

(** Pass-through: land on the first listed mark that lies between. *)
Definition pass_through (marks : list gdouble) (oldval newval : gdouble) : gdouble :=
  match find (strictly_between oldval newval) marks with
  | Some mark => mark
  | None => newval
  end.

(** The window in which a drag snaps to a mark. *)
Definition in_snap_window (value candidate mark_delta mark : gdouble) : bool :=
  (fabs (value - mark) <? 3 * mark_delta)
  && (fabs (candidate - mark) <? 12 * mark_delta).

Definition snap_to (marks : list gdouble) (value candidate mark_delta : gdouble)
  : gdouble :=
  match find (in_snap_window value candidate mark_delta) marks with
  | Some mark => mark
  | None => candidate
  end.

(** The four actions a step or page scroll resolves to. *)
Inductive Action : Set := StepBackward | StepForward | PageBackward | PageForward.

Definition action_of (invert : bool) (scroll : GtkScrollType) : option Action :=
  match scroll with
  | GTK_SCROLL_STEP_BACKWARD => Some StepBackward
  | GTK_SCROLL_STEP_FORWARD => Some StepForward
  | GTK_SCROLL_PAGE_BACKWARD => Some PageBackward
  | GTK_SCROLL_PAGE_FORWARD => Some PageForward
  | GTK_SCROLL_STEP_LEFT | GTK_SCROLL_STEP_UP =>
      Some (if invert then StepForward else StepBackward)
  | GTK_SCROLL_STEP_RIGHT | GTK_SCROLL_STEP_DOWN =>
      Some (if invert then StepBackward else StepForward)
  | GTK_SCROLL_PAGE_LEFT | GTK_SCROLL_PAGE_UP =>
      Some (if invert then PageForward else PageBackward)
  | GTK_SCROLL_PAGE_RIGHT | GTK_SCROLL_PAGE_DOWN =>
      Some (if invert then PageBackward else PageForward)
  | _ => None
  end.

Definition reason (a : Action) : GtkScrollType :=
  match a with
  | StepBackward => GTK_SCROLL_STEP_BACKWARD
  | StepForward => GTK_SCROLL_STEP_FORWARD
  | PageBackward => GTK_SCROLL_PAGE_BACKWARD
  | PageForward => GTK_SCROLL_PAGE_FORWARD
  end.

(** The value an action aims at before marks are applied. *)
Definition target (adj : GtkAdjustment) (a : Action) : gdouble :=
  match a with
  | StepBackward => gtk_adjustment_get_value adj - gtk_adjustment_get_step_increment adj
  | StepForward => gtk_adjustment_get_value adj + gtk_adjustment_get_step_increment adj
  | PageBackward => gtk_adjustment_get_value adj - gtk_adjustment_get_page_increment adj
  | PageForward => gtk_adjustment_get_value adj + gtk_adjustment_get_page_increment adj
  end.

(** Autoscroll in start/end mode: the drag offset across the
    orientation (0 without a drag), the interpolation parameter for
    that offset, and the interpolated step. *)
Definition off_axis_offset (range : GtkRange) : gdouble :=
  match drag_gesture range with
  | Some gesture =>
      match orientation (priv range) with
      | GTK_ORIENTATION_HORIZONTAL => drag_offset_y gesture
      | GTK_ORIENTATION_VERTICAL => drag_offset_x gesture
      end
  | None => 0
  end.

Definition autoscroll_t (offset : gdouble) : gdouble :=
  CLAMP (fabs offset - 20) 0 200 / 100.

Definition interpolate (t step page : gdouble) : gdouble :=
  (1 - t) * step + t * page.


(** What stopping does between the state [before] and the state
    [after], performing the events [t]: no grab, no timer (its timeout
    removed), no autoscroll (its tick callback removed); zoom is
    cleared with the grab. *)
Definition scrolling_stopped (before after : GtkRange) (t : list Event) : Prop :=
  grab_location (priv after) = None
  /\ timer (priv after) = None
  /\ autoscroll_id (priv after) = 0%Z
  /\ autoscroll_mode (priv after) = GTK_SCROLL_NONE
  /\ zoom (priv after)
     = (if is_null (grab_location (priv before)) then zoom (priv before) else false)
  /\ (forall tm,
         timer (priv before) = Some tm -> timeout_id tm <> 0%Z ->
         In (SOURCE_REMOVE (timeout_id tm)) t)
  /\ (autoscroll_id (priv before) <> 0%Z ->
      In (REMOVE_TICK_CALLBACK (autoscroll_id (priv before))) t).

End Spec.

(** ** Concrete ranges *)

Module Examples.

Local Open Scope float_scope.

(** Modelled from the spec: the adjustment's setter, for which the
    spec only says that [lower <= value <= upper - page_size] is the
    target after clamping. *)
Definition clamping_set_value (adj : GtkAdjustment) (value : gdouble) : GtkAdjustment :=
  {| gtk_adjustment_get_value :=
       CLAMP value (gtk_adjustment_get_lower adj)
         (gtk_adjustment_get_upper adj - gtk_adjustment_get_page_size adj);
     gtk_adjustment_get_lower := gtk_adjustment_get_lower adj;
     gtk_adjustment_get_upper := gtk_adjustment_get_upper adj;
     gtk_adjustment_get_step_increment := gtk_adjustment_get_step_increment adj;
     gtk_adjustment_get_page_increment := gtk_adjustment_get_page_increment adj;
     gtk_adjustment_get_page_size := gtk_adjustment_get_page_size adj |}.

Definition inside (x y x0 y0 width height : Z) : bool :=
  ((x0 <=? x) && (x <? x0 + width) && (y0 <=? y) && (y <? y0 + height))%Z.

(** Hit testing by the allocations: the slider lies in the trough, the
    trough in the range. *)
Definition pick_by_allocation (r : GtkRange) (x y : Z) : option RangePart :=
  let t := trough_alloc r in
  let s := slider_alloc r in
  if inside x y (alloc_x t + alloc_x s) (alloc_y t + alloc_y s)
       (alloc_width s) (alloc_height s)
  then Some SLIDER_WIDGET
  else if inside x y (alloc_x t) (alloc_y t) (alloc_width t) (alloc_height t)
  then Some TROUGH_WIDGET
  else if inside x y 0 0 (widget_width r) (widget_height r)
  then Some RANGE_WIDGET
  else None.

(** A host with no handler connected and no animation. *)
Definition plain_host : Host :=
  {| adjust_bounds_handlers := fun _ r => r;
     change_value_handlers := fun _ _ r => (FALSE, r);
     value_changed_handlers := fun r => r;
     gtk_adjustment_set_value := clamping_set_value;
     gtk_adjustment_animate_to_value := clamping_set_value;
     gtk_widget_pick := pick_by_allocation;
     parent_key_press_event := fun _ r => (GDK_EVENT_PROPAGATE, r) |}.

Definition new_adjustment (value lower upper step page page_size : gdouble)
  : GtkAdjustment :=
  {| gtk_adjustment_get_value := value;
     gtk_adjustment_get_lower := lower;
     gtk_adjustment_get_upper := upper;
     gtk_adjustment_get_step_increment := step;
     gtk_adjustment_get_page_increment := page;
     gtk_adjustment_get_page_size := page_size |}.

(** A range as [gtk_range_init] leaves it, idle, with the given
    configuration, a trough of 100 by 20 pixels and a slider of 10 by
    20 pixels at offset 45. *)
Definition new_range (o : GtkOrientation) (dir : GtkTextDirection)
    (inv flip : bool) (digits : Z) (stops : list gdouble) (adj : GtkAdjustment)
  : GtkRange :=
  {| priv :=
       {| mouse_location := None; mouse_x := G_MININT; mouse_y := G_MININT;
          grab_location := None; timer := None; adjustment := adj;
          orientation := o; fill_level := G_MAXDOUBLE; marks := stops;
          round_digits := digits;
          slide_initial_slider_position := 0;
          slide_initial_coordinate_delta := 0;
          flippable := flip; inverted := inv; slider_size_fixed := false;
          trough_click_forward := false; has_origin := false; zoom := false;
          show_fill_level := false; restrict_to_fill_level := true;
          in_drag := false; autoscroll_mode := GTK_SCROLL_NONE;
          autoscroll_id := 0 |};
     direction := dir;
     widget_width := match o with GTK_ORIENTATION_HORIZONTAL => 100 | _ => 20 end;
     widget_height := match o with GTK_ORIENTATION_HORIZONTAL => 20 | _ => 100 end;
     slider_alloc :=
       match o with
       | GTK_ORIENTATION_HORIZONTAL =>
           {| alloc_x := 45; alloc_y := 0; alloc_width := 10; alloc_height := 20 |}
       | GTK_ORIENTATION_VERTICAL =>
           {| alloc_x := 0; alloc_y := 45; alloc_width := 20; alloc_height := 10 |}
       end;
     trough_alloc :=
       match o with
       | GTK_ORIENTATION_HORIZONTAL =>
           {| alloc_x := 0; alloc_y := 0; alloc_width := 100; alloc_height := 20 |}
       | GTK_ORIENTATION_VERTICAL =>
           {| alloc_x := 0; alloc_y := 0; alloc_width := 20; alloc_height := 100 |}
       end;
     slider_min_width := match o with GTK_ORIENTATION_HORIZONTAL => 10 | _ => 20 end;
     slider_min_height := match o with GTK_ORIENTATION_HORIZONTAL => 20 | _ => 10 end;
     trough_width := match o with GTK_ORIENTATION_HORIZONTAL => 100 | _ => 20 end;
     trough_height := match o with GTK_ORIENTATION_HORIZONTAL => 20 | _ => 100 end;
     is_scale := false;
     primary_button_warps_slider := true;
     drag_gesture := None;
     slider_active := false; trough_active := false;
     class_dragging := false; class_fine_tune := false;
     next_source_id := 1 |}.

Definition horizontal_range (digits : Z) (stops : list gdouble) (adj : GtkAdjustment)
  : GtkRange :=
  new_range GTK_ORIENTATION_HORIZONTAL GTK_TEXT_DIR_LTR false false digits stops adj.

(** Two decimal digits, value bounds [0, 10]. *)
Definition two_digit_range : GtkRange :=
  horizontal_range 2 [] (new_adjustment 0 0 10 1 5 0).

(** Two decimal digits, value bounds [0, 0.996]. *)
Definition tight_range : GtkRange :=
  horizontal_range 2 [] (new_adjustment 0 0 0.996 1 5 0).

(** Fill level 5 on value bounds [0, 10], no rounding. *)
Definition filled_range : GtkRange :=
  let r := horizontal_range (-1) [] (new_adjustment 0 0 10 1 5 0) in
  set_priv (set_fill_level 5 (priv r)) r.

(** The adjustment of a range created without one: all zero. *)
Definition degenerate_range (inv : bool) : GtkRange :=
  new_range GTK_ORIENTATION_HORIZONTAL GTK_TEXT_DIR_LTR inv false (-1) []
    (new_adjustment 0 0 0 0 0 0).

(** [lower = upper = 0] with a page size of 1. *)
Definition empty_paged_range : GtkRange :=
  horizontal_range (-1) [] (new_adjustment 0 0 0 0 0 1).

(** Value bounds [0, 10]; the second is inverted. *)
Definition plain_range : GtkRange :=
  horizontal_range (-1) [] (new_adjustment 3 0 10 1 5 0).

Definition inverted_range : GtkRange :=
  new_range GTK_ORIENTATION_HORIZONTAL GTK_TEXT_DIR_LTR true false (-1) []
    (new_adjustment 3 0 10 1 5 0).


(** Presses, and the drag gesture they start: device 1, at (50, 10),
    which is on the slider, and at (80, 10), on the trough ahead of it. *)
Definition primary_press : GdkEventButton :=
  {| event_button := GDK_BUTTON_PRIMARY; event_shift_pressed := false;
     event_source := GDK_SOURCE_MOUSE; event_triggers_context_menu := false |}.

Definition shift_press : GdkEventButton :=
  {| event_button := GDK_BUTTON_PRIMARY; event_shift_pressed := true;
     event_source := GDK_SOURCE_MOUSE; event_triggers_context_menu := false |}.

Definition secondary_press : GdkEventButton :=
  {| event_button := GDK_BUTTON_SECONDARY; event_shift_pressed := false;
     event_source := GDK_SOURCE_MOUSE; event_triggers_context_menu := true |}.

Definition gesture_at (x y offset_x offset_y : gdouble) : GtkGestureDrag :=
  {| drag_device := 1; drag_start_x := x; drag_start_y := y;
     drag_offset_x := offset_x; drag_offset_y := offset_y |}.

Definition the_gesture : GtkGestureDrag := gesture_at 50 10 0 0.

Definition press_at (event : GdkEventButton) (x y : gdouble) (r : GtkRange) : GtkRange :=
  set_drag_gesture (Some (gesture_at x y 0 0))
    (state (gtk_range_multipress_gesture_pressed (host := plain_host) event x y r)).

(** The slider of a range with marks [5] and value 4.9, pressed: one
    pixel is worth 10/90. *)
Definition grabbed_range : GtkRange :=
  press_at primary_press 50 10 (horizontal_range (-1) [5] (new_adjustment 4.9 0 10 1 5 0)).

(** Autoscroll toward the end with step increment 1 and page
    increment 10, started by a secondary press on the trough; the
    pointer is then dragged [offset] pixels off the axis. *)
Definition autoscrolling_range (offset : gdouble) : GtkRange :=
  set_drag_gesture (Some (gesture_at 80 10 0 offset))
    (press_at secondary_press 80 10
       (horizontal_range (-1) [] (new_adjustment 3 0 100 1 10 0))).

(** The value at its upper bound. *)
Definition range_at_upper_bound : GtkRange :=
  horizontal_range (-1) [] (new_adjustment 10 0 10 1 5 0).

(** A horizontal, flippable range in a right-to-left locale, not
    inverted; its slider is shift-pressed, which starts zoom mode. *)
Definition flipped_rtl_range : GtkRange :=
  press_at shift_press 50 10
    (new_range GTK_ORIENTATION_HORIZONTAL GTK_TEXT_DIR_RTL false true (-1) []
       (new_adjustment 5 0 10 1 5 0)).

(** A slider pressed, then dragged 5 pixels. *)
Definition pressed_range : GtkRange :=
  press_at primary_press 50 10 (horizontal_range (-1) [] (new_adjustment 5 0 10 1 5 0)).

Definition dragging_range : GtkRange :=
  state (gtk_range_drag_gesture_update (host := plain_host) the_gesture 5 0
           pressed_range).



(** A slider shift-pressed at 50 and dragged to 5, where autoscroll
    takes over; zoom mode is then left with the Shift key. *)
Definition zoom_left_at_edge_range : GtkRange :=
  state (gtk_range_key_press (host := plain_host)
           {| event_keyval := Some GDK_KEY_Shift_L; event_device := 1 |}
           (state (gtk_range_drag_gesture_update (host := plain_host) the_gesture (-45) 0
                     (press_at shift_press 50 10
                        (horizontal_range (-1) [] (new_adjustment 5 0 10 1 5 0)))))).

(** As [grabbed_range], with marks [5; 5.05]. *)
Definition two_marks_grabbed_range : GtkRange :=
  press_at primary_press 50 10
    (horizontal_range (-1) [5; 5.05] (new_adjustment 4.9 0 10 1 5 0)).

End Examples.

(** ** More of the range

    The functions of [gtkrange.c] around the ones above: the layout of
    the trough in the range and of the fill level and the highlight in
    the trough, the value set by the program, the scroll wheel, pointer
    events and the callbacks of the repeat timer. *)

(** *** Layout *)


(** The rectangles [gtk_range_allocate_trough] hands to the slider, to
    the fill level and to the highlight; the last two only when these
    are allocated. *)
Record TroughLayout : Set := {
  slider_allocation : GtkAllocation;
  fill_allocation : option GtkAllocation;
  highlight_allocation : option GtkAllocation
}.

Section Layout.

(** The conversion of an [int] to the type of the fields of
    [GtkBorder], which takes place when a field is assigned. *)
Variable to_border : Z -> Z.




End Layout.


Section Trough.

Context {host : Host}.

Local Open Scope float_scope.

(** The allocation of the trough's children; [highlight_min] is the
    measured minimum of the highlight along the orientation.  The
    positions of the marks, computed first, are a cache for drawing and
    are not modelled. *)
Definition gtk_range_allocate_trough (range : GtkRange) (allocation : GtkAllocation)
    (highlight_min : Z) : TroughLayout :=
  let p := priv range in
  let adj := adjustment p in
  let lower := gtk_adjustment_get_lower adj in
  let upper := gtk_adjustment_get_upper adj in
  let page_size := gtk_adjustment_get_page_size adj in
  (* Slider *)
  let slider_alloc :=
    gtk_range_compute_slider_position range (gtk_adjustment_get_value adj) in
  let value :=
    if feq lower upper then 0
    else (gtk_adjustment_get_value adj - lower) / (upper - lower) in
  let fill_alloc :=
    if show_fill_level p && fne (upper - page_size - lower) 0 then
      let level := CLAMP (fill_level p) lower (upper - page_size) in
      let fill := (level - lower) / (upper - lower - page_size) in
      match orientation p with
      | GTK_ORIENTATION_HORIZONTAL =>
          let width := to_gint (of_gint (alloc_width allocation) * fill) in
          let x :=
            if should_invert range
            then gint_add (alloc_x allocation) (gint_sub (alloc_width allocation) width)
            else alloc_x allocation in
          Some {| alloc_x := x; alloc_y := alloc_y allocation;
                  alloc_width := width; alloc_height := alloc_height allocation |}
      | GTK_ORIENTATION_VERTICAL =>
          let height := to_gint (of_gint (alloc_height allocation) * fill) in
          let y :=
            if should_invert range
            then gint_add (alloc_y allocation) (gint_sub (alloc_height allocation) height)
            else alloc_y allocation in
          Some {| alloc_x := alloc_x allocation; alloc_y := y;
                  alloc_width := alloc_width allocation; alloc_height := height |}
      end
    else None in
  let highlight_alloc :=
    if has_origin p then
      match orientation p with
      | GTK_ORIENTATION_HORIZONTAL =>
          let x :=
            if negb (should_invert range) then alloc_x allocation
            else to_gint (of_gint (alloc_x allocation)
                          + of_gint (alloc_width allocation) * (1 - value)) in
          let width :=
            to_gint (MAX (of_gint highlight_min) (of_gint (alloc_width allocation) * value)) in
          Some {| alloc_x := x; alloc_y := alloc_y allocation;
                  alloc_width := width; alloc_height := alloc_height allocation |}
      | GTK_ORIENTATION_VERTICAL =>
          let y :=
            if negb (should_invert range) then alloc_y allocation
            else to_gint (of_gint (alloc_y allocation)
                          + of_gint (alloc_height allocation) * (1 - value)) in
          let height :=
            to_gint (MAX (of_gint highlight_min) (of_gint (alloc_height allocation) * value)) in
          Some {| alloc_x := alloc_x allocation; alloc_y := y;
                  alloc_width := alloc_width allocation; alloc_height := height |}
      end
    else None in
  {| slider_allocation := slider_alloc;
     fill_allocation := fill_alloc;
     highlight_allocation := highlight_alloc |}.

(** *** The value, set by the program *)

Definition gtk_range_set_value (value : gdouble) : M unit :=
  r <- get;;
  let p := priv r in
  let value :=
    if restrict_to_fill_level p
    then MIN value (MAX (gtk_adjustment_get_lower (adjustment p)) (fill_level p))
    else value in
  perform (ADJUSTMENT_SET_VALUE value);;
  adjustment_call gtk_adjustment_set_value value.

(** *** Pointer events *)

(** What [gtk_range_event] asks of an event: whether it is a
    [GDK_LEAVE_NOTIFY], and its coordinates when it has some. *)
Record GdkEvent : Set := {
  event_is_leave_notify : bool;
  event_coords : option (gdouble * gdouble)
}.

Definition gtk_range_event (event : GdkEvent) : M gboolean :=
  (if event_is_leave_notify event then
     modify_priv (set_mouse_x G_MININT);;
     modify_priv (set_mouse_y G_MININT)
   else
     match event_coords event with
     | Some (x, y) =>
         modify_priv (set_mouse_x (to_gint x));;
         modify_priv (set_mouse_y (to_gint y))
     | None => ret tt
     end);;
  gtk_range_update_mouse_location;;
  ret GDK_EVENT_PROPAGATE.

(** The scroll wheel.  The unit is the page increment (on Quartz,
    which is not modelled, it is 1); [dx ? dx : -dy] takes [dx] unless
    it compares equal to zero. *)
Definition gtk_range_scroll_controller_scroll (dx dy : gdouble) : M unit :=
  r <- get;;
  let p := priv r in
  let scroll_unit := gtk_adjustment_get_page_increment (adjustment p) in
  let delta :=
    match orientation p with
    | GTK_ORIENTATION_HORIZONTAL => (if fne dx 0 then dx else - dy) * scroll_unit
    | GTK_ORIENTATION_VERTICAL => dy * scroll_unit
    end in
  let delta := if inverted p then - delta else delta in
  _ <- emit_change_value GTK_SCROLL_JUMP
         (gtk_adjustment_get_value (adjustment p) + delta);;
  ret tt.

(** The part of the range under the pointer at [(x, y)], as the
    first three statements of [gtk_range_multipress_gesture_pressed]
    find it. *)
Definition pointer_location (x y : gdouble) (range : GtkRange) : option RangePart :=
  mouse_location
    (priv (state ((modify_priv (set_mouse_x (to_gint x));;
                   modify_priv (set_mouse_y (to_gint y));;
                   gtk_range_update_mouse_location) range))).

(** The conditions under which a press on the trough warps the slider
    to the pointer, and under which it pages toward it. *)
Definition press_warps (event : GdkEventButton) (primary_warps : bool) : bool :=
  is_touchscreen (event_source event)
  || (primary_warps && negb (event_shift_pressed event)
      && (event_button event =? GDK_BUTTON_PRIMARY)%Z)
  || (negb primary_warps && event_shift_pressed event
      && (event_button event =? GDK_BUTTON_PRIMARY)%Z)
  || (negb primary_warps && (event_button event =? GDK_BUTTON_MIDDLE)%Z).

Definition press_pages (event : GdkEventButton) (primary_warps : bool) : bool :=
  (primary_warps && event_shift_pressed event
   && (event_button event =? GDK_BUTTON_PRIMARY)%Z)
  || (negb primary_warps && negb (event_shift_pressed event)
      && (event_button event =? GDK_BUTTON_PRIMARY)%Z)
  || (primary_warps && (event_button event =? GDK_BUTTON_MIDDLE)%Z).

(** *** The callbacks of the repeat timer

    Both read [priv->timer]; [None] is the null pointer dereferenced
    when there is no timer. *)

Definition second_timeout (range : GtkRange)
  : option (gboolean * GtkRange * list Event) :=
  match timer (priv range) with
  | None => None
  | Some t =>
      Some ((_ <- gtk_range_scroll (step t);;
             ret G_SOURCE_CONTINUE) range)
  end.

Definition initial_timeout (range : GtkRange)
  : option (gboolean * GtkRange * list Event) :=
  match timer (priv range) with
  | None => None
  | Some t =>
      Some ((id <- new_source_id;;
             perform (ADD_TIMEOUT TIMEOUT_REPEAT id);;
             modify_priv (set_timer (Some {| timeout_id := id; step := step t |}));;
             ret G_SOURCE_REMOVE) range)
  end.

End Trough.

(** *** Changes of the configuration *)

(** [priv->inverted = setting] and [priv->flippable = flippable], as
    [gtk_range_set_inverted] and [gtk_range_set_flippable] assign them,
    and the text direction, which the host changes. *)
Definition set_inverted (v : gboolean) (p : GtkRangePrivate) : GtkRangePrivate :=
  {| mouse_location := mouse_location p; mouse_x := mouse_x p; mouse_y := mouse_y p;
     grab_location := grab_location p; timer := timer p; adjustment := adjustment p;
     orientation := orientation p; fill_level := fill_level p; marks := marks p;
     round_digits := round_digits p;
     slide_initial_slider_position := slide_initial_slider_position p;
     slide_initial_coordinate_delta := slide_initial_coordinate_delta p;
     flippable := flippable p; inverted := v;
     slider_size_fixed := slider_size_fixed p;
     trough_click_forward := trough_click_forward p; has_origin := has_origin p;
     zoom := zoom p; show_fill_level := show_fill_level p;
     restrict_to_fill_level := restrict_to_fill_level p; in_drag := in_drag p;
     autoscroll_mode := autoscroll_mode p; autoscroll_id := autoscroll_id p |}.

Definition set_direction (v : GtkTextDirection) (r : GtkRange) : GtkRange :=
  {| priv := priv r; direction := v;
     widget_width := widget_width r; widget_height := widget_height r;
     slider_alloc := slider_alloc r; trough_alloc := trough_alloc r;
     slider_min_width := slider_min_width r; slider_min_height := slider_min_height r;
     trough_width := trough_width r; trough_height := trough_height r;
     is_scale := is_scale r;
     primary_button_warps_slider := primary_button_warps_slider r;
     drag_gesture := drag_gesture r;
     slider_active := slider_active r; trough_active := trough_active r;
     class_dragging := class_dragging r; class_fine_tune := class_fine_tune r;
     next_source_id := next_source_id r |}.

(** *** What a run shows, continued *)

(** The values handed to [gtk_adjustment_animate_to_value]. *)
Fixpoint animated_values (t : list Event) : list gdouble :=
  match t with
  | [] => []
  | ADJUSTMENT_ANIMATE_TO_VALUE v :: t' => v :: animated_values t'
  | _ :: t' => animated_values t'
  end.

(** A host to whose [adjust-bounds] and [change-value] signals no
    handler is connected. *)
Definition no_handler_connected (host : Host) : Prop :=
  (forall value range, adjust_bounds_handlers value range = range)
  /\ (forall scroll value range,
         change_value_handlers scroll value range = (FALSE, range)).

(** The scroll types a tick of the autoscroll has a case for. *)
Definition autoscroll_handles (mode : GtkScrollType) : bool :=
  match mode with
  | GTK_SCROLL_STEP_FORWARD | GTK_SCROLL_PAGE_FORWARD
  | GTK_SCROLL_STEP_BACKWARD | GTK_SCROLL_PAGE_BACKWARD
  | GTK_SCROLL_START | GTK_SCROLL_END => true
  | _ => false
  end.

(** The minimum size of the slider and the size of the trough along
    the orientation, and the ends of the slider's travel in the trough:
    the trough, extended by half the slider on either side for a scale. *)
Definition min_slider_size (range : GtkRange) : Z :=
  match orientation (priv range) with
  | GTK_ORIENTATION_VERTICAL => slider_min_height range
  | GTK_ORIENTATION_HORIZONTAL => slider_min_width range
  end.

Definition trough_extent (range : GtkRange) : Z :=
  match orientation (priv range) with
  | GTK_ORIENTATION_VERTICAL => trough_height range
  | GTK_ORIENTATION_HORIZONTAL => trough_width range
  end.

Definition travel_start (range : GtkRange) : Z :=
  if is_scale range then 0 - min_slider_size range ÷ 2 else 0.

Definition travel_end (range : GtkRange) : Z :=
  if is_scale range
  then 0 + trough_extent range + min_slider_size range ÷ 2
  else 0 + trough_extent range.

(** Position and length of a rectangle along the orientation. *)
Definition along_position (range : GtkRange) (rect : GtkAllocation) : Z :=
  match orientation (priv range) with
  | GTK_ORIENTATION_VERTICAL => alloc_y rect
  | GTK_ORIENTATION_HORIZONTAL => alloc_x rect
  end.

Definition along_length (range : GtkRange) (rect : GtkAllocation) : Z :=
  match orientation (priv range) with
  | GTK_ORIENTATION_VERTICAL => alloc_height rect
  | GTK_ORIENTATION_HORIZONTAL => alloc_width rect
  end.

(** *** More concrete cases *)

Module Cases.

Import Examples.

Local Open Scope float_scope.


(** An allocation of 200 by 30 pixels and a border of 4 pixels on each
    side. *)
Definition wide_allocation : GtkAllocation :=
  {| alloc_x := 0; alloc_y := 0; alloc_width := 200; alloc_height := 30 |}.


(** A press on the trough behind the slider of [plain_range], with the
    primary button while it does not warp: it pages, and starts the
    repeat timer. *)
Definition paging_range : GtkRange :=
  press_at primary_press 20 10
    (set_drag_gesture None
       {| priv := priv plain_range; direction := direction plain_range;
          widget_width := widget_width plain_range;
          widget_height := widget_height plain_range;
          slider_alloc := slider_alloc plain_range;
          trough_alloc := trough_alloc plain_range;
          slider_min_width := slider_min_width plain_range;
          slider_min_height := slider_min_height plain_range;
          trough_width := trough_width plain_range;
          trough_height := trough_height plain_range;
          is_scale := is_scale plain_range;
          primary_button_warps_slider := false;
          drag_gesture := None;
          slider_active := false; trough_active := false;
          class_dragging := false; class_fine_tune := false;
          next_source_id := next_source_id plain_range |}).

(** An inverted horizontal range that shows its fill level. *)
Definition fill_shown (level : gdouble) (adj : GtkAdjustment) : GtkRange :=
  set_priv
    {| mouse_location := None; mouse_x := G_MININT; mouse_y := G_MININT;
       grab_location := None; timer := None; adjustment := adj;
       orientation := GTK_ORIENTATION_HORIZONTAL; fill_level := level; marks := [];
       round_digits := (-1);
       slide_initial_slider_position := 0;
       slide_initial_coordinate_delta := 0;
       flippable := false; inverted := true; slider_size_fixed := false;
       trough_click_forward := false; has_origin := false; zoom := false;
       show_fill_level := true; restrict_to_fill_level := true;
       in_drag := false; autoscroll_mode := GTK_SCROLL_NONE;
       autoscroll_id := 0 |}
    inverted_range.

(** Fill level 5 on the bounds [0, 10]. *)
Definition half_filled_range : GtkRange := fill_shown 5 (new_adjustment 3 0 10 1 5 0).

(** Bounds [0.1, 1.0] with a page size of 0.9: in binary64
    [upper - page_size - lower] is not zero, and
    [upper - lower - page_size] is. *)
Definition cancelling_range : GtkRange :=
  fill_shown 0.5 (new_adjustment 0.1 0.1 1.0 0.1 0.1 0.9).

Definition shift_key : GdkEventKey :=
  {| event_keyval := Some GDK_KEY_Shift_L; event_device := 1 |}.

End Cases.

(** * Properties *)

Local Open Scope range_scope.

(** ** Runs of composed computations *)

Lemma run_bind {A B : Type} (m : M A) (f : A -> M B) (r : GtkRange) :
  bind m f r
  = (result (f (result (m r)) (state (m r))),
     state (f (result (m r)) (state (m r))),
     trace (m r) ++ trace (f (result (m r)) (state (m r)))).
Proof.
  unfold bind, result, state, trace.
  destruct (m r) as [[a r1] t1]. simpl.
  destruct (f a r1) as [[b r2] t2]. reflexivity.
Qed.

Lemma trace_bind {A B : Type} (m : M A) (f : A -> M B) (r : GtkRange) :
  trace (bind m f r) = trace (m r) ++ trace (f (result (m r)) (state (m r))).
Proof. rewrite run_bind. reflexivity. Qed.

Lemma state_bind {A B : Type} (m : M A) (f : A -> M B) (r : GtkRange) :
  state (bind m f r) = state (f (result (m r)) (state (m r))).
Proof. rewrite run_bind. reflexivity. Qed.

Lemma result_bind {A B : Type} (m : M A) (f : A -> M B) (r : GtkRange) :
  result (bind m f r) = result (f (result (m r)) (state (m r))).
Proof. rewrite run_bind. reflexivity. Qed.

Lemma committed_values_app (t1 t2 : list Event) :
  committed_values (t1 ++ t2) = committed_values t1 ++ committed_values t2.
Proof.
  induction t1 as [| e t1 IH]; simpl; [reflexivity |].
  destruct e; simpl; rewrite IH; reflexivity.
Qed.

Lemma change_values_app (t1 t2 : list Event) :
  change_values (t1 ++ t2) = change_values t1 ++ change_values t2.
Proof.
  induction t1 as [| e t1 IH]; simpl; [reflexivity |].
  destruct e; simpl; rewrite IH; reflexivity.
Qed.

Lemma error_bells_app (t1 t2 : list Event) :
  error_bells (t1 ++ t2) = (error_bells t1 + error_bells t2)%nat.
Proof.
  induction t1 as [| e t1 IH]; simpl; [reflexivity |].
  destruct e; simpl; rewrite IH; reflexivity.
Qed.

Create Rewrite HintDb run.
#[local] Hint Rewrite @trace_bind @state_bind @result_bind : run.
#[local] Hint Rewrite committed_values_app change_values_app error_bells_app : run.

Lemma result_get (r : GtkRange) : result (get r) = r.
Proof. reflexivity. Qed.

Lemma state_get (r : GtkRange) : state (get r) = r.
Proof. reflexivity. Qed.

Lemma trace_get (r : GtkRange) : trace (get r) = [].
Proof. reflexivity. Qed.

Lemma result_ret {A : Type} (a : A) (r : GtkRange) : result (ret a r) = a.
Proof. reflexivity. Qed.

Lemma state_ret {A : Type} (a : A) (r : GtkRange) : state (ret a r) = r.
Proof. reflexivity. Qed.

Lemma trace_ret {A : Type} (a : A) (r : GtkRange) : trace (ret a r) = [].
Proof. reflexivity. Qed.

Create Rewrite HintDb prims.
#[local] Hint Rewrite result_get state_get trace_get @result_ret @state_ret @trace_ret
  : prims.

(** ** Doubles *)

Lemma float_neq (a b : gdouble) : Leibniz.eqb a b = false -> a <> b.
Proof.
  intros H E. apply Leibniz.eqb_spec in E. rewrite E in H. discriminate.
Qed.

(** The order on doubles that are numbers is total: what is not below
    is at or above. *)
Lemma SFcompare_antisym (x y : spec_float) :
  SFcompare y x = option_map CompOpp (SFcompare x y).
Proof.
  destruct x as [sx | sx | | sx mx ex], y as [sy | sy | | sy my ey]; simpl;
    try reflexivity;
    try (destruct sx; reflexivity); try (destruct sy; reflexivity);
    try (destruct sx, sy; reflexivity).
  destruct sx, sy; try reflexivity;
    rewrite (Z.compare_antisym ex ey); destruct (ex ?= ey)%Z; simpl; try reflexivity;
    fold (Pos.compare mx my); fold (Pos.compare my mx);
    rewrite (Pos.compare_antisym mx my); destruct (mx ?= my)%positive; reflexivity.
Qed.

Lemma SFcompare_refl (x : spec_float) :
  x <> S754_nan -> SFcompare x x = Some Eq.
Proof.
  destruct x as [s | s | | s m e]; simpl; intro H; try reflexivity.
  - destruct s; reflexivity.
  - contradiction.
  - destruct s; rewrite Z.compare_refl; fold (Pos.compare m m);
      rewrite Pos.compare_refl; reflexivity.
Qed.

Lemma is_nan_spec (x : gdouble) : is_nan x = false -> Prim2SF x <> S754_nan.
Proof.
  unfold is_nan. rewrite FloatAxioms.eqb_spec. unfold SFeqb.
  intros H E. rewrite E in H. discriminate.
Qed.

Lemma leb_refl (x : gdouble) : is_nan x = false -> (x <=? x)%float = true.
Proof.
  intro N. rewrite FloatAxioms.leb_spec. unfold SFleb.
  rewrite SFcompare_refl by (apply is_nan_spec; exact N). reflexivity.
Qed.

Lemma ltb_false_leb (x y : gdouble) :
  is_nan x = false -> is_nan y = false -> (x <? y)%float = false -> (y <=? x)%float = true.
Proof.
  intros Nx Ny. rewrite FloatAxioms.ltb_spec, FloatAxioms.leb_spec.
  unfold SFltb, SFleb. rewrite (SFcompare_antisym (Prim2SF x) (Prim2SF y)).
  apply is_nan_spec in Nx. apply is_nan_spec in Ny.
  destruct (Prim2SF x) as [sx | sx | | sx mx ex] eqn:Ex; try contradiction;
    destruct (Prim2SF y) as [sy | sy | | sy my ey] eqn:Ey; try contradiction;
    destruct (SFcompare _ _) as [[ | | ] |] eqn:C; simpl; try reflexivity; try discriminate;
    simpl in C; discriminate.
Qed.

(** [CLAMP] of a number lands between its bounds. *)
Lemma CLAMP_within (x low high : gdouble) :
  is_nan x = false -> is_nan low = false -> is_nan high = false ->
  (low <=? high)%float = true ->
  (low <=? CLAMP x low high)%float = true
  /\ (CLAMP x low high <=? high)%float = true.
Proof.
  intros Nx Nl Nh L. unfold CLAMP.
  destruct (high <? x)%float eqn:A.
  - split; [exact L | apply leb_refl; exact Nh].
  - destruct (x <? low)%float eqn:B.
    + split; [apply leb_refl; exact Nl | exact L].
    + split; apply ltb_false_leb; assumption.
Qed.

(** The loop of the funnel computes the power of ten of the spec. *)
Lemma power_loop_iter (n : nat) (power : gdouble) :
  power_loop n power = Nat.iter n (fun q => (q * 10)%float) power.
Proof.
  revert power. induction n as [| n IH]; intro power; simpl; [reflexivity |].
  rewrite IH. clear IH. induction n as [| n IH]; simpl; [reflexivity |].
  rewrite IH. reflexivity.
Qed.

Lemma ten_to_iter (n : nat) : Spec.ten_to n = Nat.iter n (fun q => (q * 10)%float) 1%float.
Proof. induction n as [| n IH]; simpl; [reflexivity | rewrite IH; reflexivity]. Qed.

Lemma power_loop_ten_to (n : nat) : power_loop n 1%float = Spec.ten_to n.
Proof. rewrite power_loop_iter, ten_to_iter. reflexivity. Qed.

(** Up to 22 digits the repeated product is the exact power of ten. *)
Lemma ten_to_exact (digits : Z) :
  0 <= digits <= 22 -> Spec.ten_to (Z.to_nat digits) = Spec.exact_ten_to digits.
Proof.
  intros H.
  assert (C : In digits (map Z.of_nat (seq 0 23))).
  { apply in_map_iff. exists (Z.to_nat digits). split; [lia |].
    apply in_seq. lia. }
  simpl in C.
  repeat (destruct C as [C | C]; [subst digits; vm_compute; reflexivity |]).
  contradiction.
Qed.

(** ** Effective inversion *)

(** C2: a vertical range is effectively inverted exactly when [inverted]
    is set; a horizontal range exactly in the three rows of the table
    (inverted and not flippable; inverted, flippable and left-to-right;
    not inverted, flippable and right-to-left) and in no other. *)
Theorem should_invert_table (range : GtkRange) :
  should_invert range
  = match orientation (priv range) with
    | GTK_ORIENTATION_VERTICAL => inverted (priv range)
    | GTK_ORIENTATION_HORIZONTAL =>
        Spec.horizontal_inversion (inverted (priv range)) (flippable (priv range))
          (direction range)
    end.
Proof.
  unfold should_invert, gtk_widget_get_direction.
  destruct (orientation (priv range)); [| reflexivity].
  destruct (inverted (priv range)), (flippable (priv range)), (direction range);
    reflexivity.
Qed.

(** ** The change-value funnel *)

Section Funnel.

Context {host : Host}.

Lemma trace_adjustment_call setter value r :
  trace (adjustment_call setter value r) = []
  \/ trace (adjustment_call setter value r) = [SIGNAL_VALUE_CHANGED].
Proof.
  unfold adjustment_call. autorewrite with run. simpl.
  destruct (fne _ _); simpl; [right | left]; reflexivity.
Qed.

Lemma committed_values_adjustment_call setter value r :
  committed_values (trace (adjustment_call setter value r)) = [].
Proof.
  destruct (trace_adjustment_call setter value r) as [E | E]; rewrite E; reflexivity.
Qed.

Lemma real_change_value_committed scroll v r :
  committed_values (trace (gtk_range_real_change_value scroll v r))
  = [Spec.committed_value (adjust_bounds_handlers v r) v].
Proof.
  unfold gtk_range_real_change_value. autorewrite with run.
  cbn -[adjustment_call committed_values].
  generalize (adjust_bounds_handlers v r). intro r1.
  unfold Spec.committed_value, Spec.round_half_up, Spec.cap_at_fill_level.
  rewrite power_loop_ten_to.
  destruct (in_drag (priv r1) || negb (autoscroll_id (priv r1) =? 0)%Z);
    autorewrite with run; cbn -[adjustment_call];
    rewrite committed_values_adjustment_call; reflexivity.
Qed.

End Funnel.

Import Examples.

(** C1 (as amended): for every scroll type and candidate [v] the default
    change-value handler hands the adjustment exactly one value: [v]
    capped at [max (lower, fill_level)] when [restrict_to_fill_level]
    is set, then clamped into [[lower, upper - page_size]], then, when
    [round_digits >= 0], rounded as [floor (v * 10^digits + 0.5) /
    10^digits], all in binary64 arithmetic and with the bounds as the
    adjust-bounds handlers left them; the power of ten is exact up to
    22 digits.  With two digits the tie 1.125
    commits as 1.13; the double nearest to 1.005 lies below the tie and
    commits as 1. *)
Theorem change_value_commits :
  (forall (host : Host) (range : GtkRange) (scroll : GtkScrollType) (v : gdouble),
      let run := gtk_range_real_change_value scroll v range in
      let range1 := adjust_bounds_handlers v range in
      let committed := Spec.committed_value range1 v in
      committed_values (trace run) = [committed]
      /\ In (if in_drag (priv range1) || negb (autoscroll_id (priv range1) =? 0)
             then ADJUSTMENT_SET_VALUE committed
             else ADJUSTMENT_ANIMATE_TO_VALUE committed) (trace run)
      /\ result run = FALSE)
  /\ map Spec.ten_to (seq 0 23)
     = map (fun digits => Spec.exact_ten_to (Z.of_nat digits)) (seq 0 23)
  /\ committed_values
       (trace (gtk_range_real_change_value (host := plain_host)
                 GTK_SCROLL_JUMP 1.125%float two_digit_range)) = [1.13%float]
  /\ committed_values
       (trace (gtk_range_real_change_value (host := plain_host)
                 GTK_SCROLL_JUMP 1.005%float two_digit_range)) = [1%float]
  /\ committed_values
       (trace (gtk_range_real_change_value (host := plain_host)
                 GTK_SCROLL_JUMP 10%float filled_range)) = [5%float].
Proof.
  split; [| repeat split; vm_compute; reflexivity].
  intros host range scroll v run range1 committed.
  split; [apply real_change_value_committed |].
  subst run committed range1.
  unfold gtk_range_real_change_value. autorewrite with run.
  cbn -[adjustment_call In].
  generalize (adjust_bounds_handlers v range). intro r1.
  unfold Spec.committed_value, Spec.round_half_up, Spec.cap_at_fill_level.
  rewrite power_loop_ten_to.
  destruct (in_drag (priv r1) || negb (autoscroll_id (priv r1) =? 0)%Z);
    autorewrite with run; cbn -[adjustment_call]; split;
    solve [ right; left; reflexivity | reflexivity ].
Qed.

(** Counterexample to C1 as stated: with two digits the candidate 1.005
    does not commit as 1.01. *)
Lemma candidate_1_005_does_not_commit_1_01 :
  committed_values
    (trace (gtk_range_real_change_value (host := plain_host)
              GTK_SCROLL_JUMP 1.005%float two_digit_range)) <> [1.01%float].
Proof.
  intro H.
  apply (f_equal (fun l => match l with [c] => Leibniz.eqb c 1.01%float | _ => true end)) in H.
  vm_compute in H. discriminate.
Qed.

(** Without rounding, a candidate that is a number is committed inside
    the bounds. *)
Lemma committed_value_within_bounds (range : GtkRange) (v : gdouble) :
  let p := priv range in
  let lower := gtk_adjustment_get_lower (adjustment p) in
  let top :=
    (gtk_adjustment_get_upper (adjustment p)
     - gtk_adjustment_get_page_size (adjustment p))%float in
  round_digits p < 0 ->
  is_nan v = false -> is_nan (fill_level p) = false ->
  is_nan lower = false -> is_nan top = false ->
  (lower <=? top)%float = true ->
  (lower <=? Spec.committed_value range v)%float = true
  /\ (Spec.committed_value range v <=? top)%float = true.
Proof.
  intros p lower top R Nv Nf Nl Nt L.
  unfold Spec.committed_value, Spec.round_half_up. fold p lower top.
  destruct (Z.leb_spec 0 (round_digits p)) as [C | _]; [lia |].
  apply CLAMP_within; try assumption.
  unfold Spec.cap_at_fill_level, MIN, MAX.
  destruct (restrict_to_fill_level p); [| exact Nv].
  destruct (fill_level p <? lower)%float;
    match goal with
    | |- context [(v <? ?b)%float] => destruct (v <? b)%float
    end; assumption.
Qed.

(** C10: rounding comes after clamping, so the value handed to the
    adjustment can lie above [upper - page_size]: with bounds
    [[0, 0.996]], two digits and candidate 10 the clamped value is 0.996
    and the committed value is 1.  (Without rounding the committed
    value of a number stays inside the bounds, see
    [committed_value_within_bounds].) *)
Theorem rounding_can_leave_the_interval :
  let adj := adjustment (priv tight_range) in
  let top := (gtk_adjustment_get_upper adj - gtk_adjustment_get_page_size adj)%float in
  0 <= round_digits (priv tight_range)
  /\ gtk_adjustment_get_lower adj = 0%float
  /\ top = 0.996%float
  /\ exists committed,
       committed_values
         (trace (gtk_range_real_change_value (host := plain_host)
                   GTK_SCROLL_JUMP 10%float tight_range)) = [committed]
       /\ (top <? committed)%float = true
       /\ CLAMP 10%float 0%float top = top
       /\ committed = 1%float.
Proof.
  repeat split; try (vm_compute; reflexivity); try (vm_compute; discriminate).
  exists 1%float. repeat split; vm_compute; reflexivity.
Qed.

(** ** Geometry *)

(** Adding a product with the zero span to a zero lower bound. *)
Lemma zero_plus_times_zero_span (frac : gdouble) :
  (0 + frac * (0 - 0 - 0))%float = if is_finite frac then 0%float else nan.
Proof.
  apply Prim2SF_inj.
  change (0 - 0 - 0)%float with 0%float.
  rewrite FloatAxioms.add_spec, FloatAxioms.mul_spec.
  change (Prim2SF 0%float) with (S754_zero false).
  unfold GDouble.is_finite.
  destruct (Prim2SF frac) as [s | s | | s m e]; try destruct s; reflexivity.
Qed.

(** C3 (as amended): [coord_to_value] computes
    [frac = max (0, coord - trough_start) / (trough_length - slider_length)],
    or [frac = 1] when the two lengths are equal, so that it never
    divides by zero; mirrors it to [1 - frac] under effective inversion;
    and returns [lower + frac * (upper - lower - page_size)], which is
    not clamped (it can exceed [upper] and fall below [lower]).  For
    the degenerate adjustment [lower = upper = page_size = 0] it
    returns [lower] whenever the fraction is finite (NaN otherwise), as
    it is at every pixel from -200 to 300 of a 100-pixel trough. *)
Theorem coord_to_value_formula :
  (forall (range : GtkRange) (coord : gdouble),
      let adj := adjustment (priv range) in
      coord_to_value range coord
      = Spec.coord_to_value coord
          (Spec.trough_start range) (Spec.trough_length range) (Spec.slider_length range)
          (should_invert range)
          (gtk_adjustment_get_lower adj) (gtk_adjustment_get_upper adj)
          (gtk_adjustment_get_page_size adj))
  /\ (forall trough_length slider_length : Z,
         Spec.divisor trough_length slider_length <> Some 0)
  /\ (forall (coord : gdouble) (trough_start trough_length slider_length : Z)
             (invert : bool),
         Spec.coord_to_value coord trough_start trough_length slider_length invert
           0%float 0%float 0%float
         = if is_finite
                (Spec.fraction coord trough_start trough_length slider_length invert)
           then 0%float else nan)
  /\ (forall invert : bool,
         forallb
           (fun pixel =>
              Leibniz.eqb (coord_to_value (degenerate_range invert) (of_gint pixel))
                0%float)
           (map (fun n => Z.of_nat n - 200) (seq 0 501))
         = true)
  /\ (gtk_adjustment_get_upper (adjustment (priv plain_range))
      <? coord_to_value plain_range 180%float)%float = true
  /\ (coord_to_value inverted_range 180%float
      <? gtk_adjustment_get_lower (adjustment (priv inverted_range)))%float = true.
Proof.
  split; [| split; [| split; [| split; [| split]]]].
  - intros range coord adj. subst adj.
    unfold coord_to_value, Spec.coord_to_value, Spec.fraction, Spec.divisor,
      Spec.trough_start, Spec.trough_length, Spec.slider_length.
    destruct (orientation (priv range));
      match goal with
      | |- context [(?a =? ?b)%Z] => destruct (a =? b)%Z
      end; reflexivity.
  - intros tl sl. unfold Spec.divisor.
    destruct (tl =? sl)%Z eqn:E; [discriminate |].
    apply Z.eqb_neq in E. intro H. injection H as H. lia.
  - intros. unfold Spec.coord_to_value. apply zero_plus_times_zero_span.
  - intros [|]; vm_compute; reflexivity.
  - vm_compute. reflexivity.
  - vm_compute. reflexivity.
Qed.

(** Counterexample to C3 as stated: with [lower = upper = 0] and a
    page size of 1, the middle of the trough maps to -0.5, not to
    [lower]. *)
Lemma coord_to_value_empty_paged_range :
  gtk_adjustment_get_lower (adjustment (priv empty_paged_range)) = 0%float
  /\ gtk_adjustment_get_upper (adjustment (priv empty_paged_range)) = 0%float
  /\ coord_to_value empty_paged_range 45%float = (-0.5)%float
  /\ coord_to_value empty_paged_range 45%float
     <> gtk_adjustment_get_lower (adjustment (priv empty_paged_range)).
Proof.
  repeat split; try (vm_compute; reflexivity).
  apply float_neq. vm_compute. reflexivity.
Qed.

(** ** Marks *)

Lemma apply_marks_loop_pass_through (marks : list gdouble) (oldval newval : gdouble) :
  apply_marks_loop marks oldval newval = Spec.pass_through marks oldval newval.
Proof.
  unfold Spec.pass_through.
  induction marks as [| mark rest IH]; simpl; [reflexivity |].
  unfold Spec.strictly_between at 1.
  rewrite (andb_comm (newval <? mark)%float).
  destruct (_ || _); [reflexivity | exact IH].
Qed.

Lemma snap_to_mark_loop_snap_to (marks : list gdouble) (value candidate mark_delta : gdouble) :
  snap_to_mark_loop marks value candidate mark_delta
  = Spec.snap_to marks value candidate mark_delta.
Proof.
  unfold Spec.snap_to.
  induction marks as [| mark rest IH]; simpl; [reflexivity |].
  unfold Spec.in_snap_window at 1.
  destruct (fabs (value - mark) <? 3 * mark_delta)%float; simpl; [| exact IH].
  change (MARK_SNAP_LENGTH * mark_delta)%float with (12 * mark_delta)%float.
  destruct (fabs (candidate - mark) <? 12 * mark_delta)%float; [reflexivity | exact IH].
Qed.

(** What [find] gives: a listed element that passes the test, or
    nothing when none passes. *)
Lemma find_default_cases {A : Type} (test : A -> bool) (l : list A) (default : A) :
  let found := match find test l with Some x => x | None => default end in
  (forall x, In x l -> test x = true -> In found l /\ test found = true)
  /\ ((forall x, In x l -> test x = false) -> found = default).
Proof.
  simpl. destruct (find test l) as [y |] eqn:F.
  - apply find_some in F. split; [intros; exact F |].
    intros H. destruct F as [I T]. rewrite (H y I) in T. discriminate.
  - split; [| reflexivity].
    intros x I T. rewrite (find_none _ _ F x I) in T. discriminate.
Qed.

Lemma find_first {A : Type} (test : A -> bool) (before after : list A) (x : A) :
  (forall y, In y before -> test y = false) -> test x = true ->
  find test (before ++ x :: after) = Some x.
Proof.
  intros N T. induction before as [| y before IH]; simpl.
  - rewrite T. reflexivity.
  - rewrite (N y (or_introl eq_refl)). apply IH.
    intros z I. apply N. right. exact I.
Qed.

Section Emissions.

Context {host : Host}.

Lemma change_values_real_change_value scroll v r :
  change_values (trace (gtk_range_real_change_value scroll v r)) = [].
Proof.
  unfold gtk_range_real_change_value. autorewrite with run.
  cbn -[adjustment_call change_values].
  generalize (adjust_bounds_handlers v r). intro r1.
  destruct (in_drag (priv r1) || negb (autoscroll_id (priv r1) =? 0)%Z);
    autorewrite with run; cbn -[adjustment_call];
    match goal with
    | |- context [adjustment_call ?s ?x ?y] =>
        destruct (trace_adjustment_call s x y) as [E | E]; rewrite E
    end; reflexivity.
Qed.

Lemma change_values_emit scroll v r :
  change_values (trace (emit_change_value scroll v r)) = [(scroll, v)].
Proof.
  unfold emit_change_value. autorewrite with run.
  cbn -[gtk_range_real_change_value].
  destruct (change_value_handlers scroll v r) as [handled r1].
  cbn -[gtk_range_real_change_value].
  destruct handled; [reflexivity |].
  rewrite change_values_real_change_value. reflexivity.
Qed.

Lemma change_values_action (action : Spec.Action) (r : GtkRange) :
  let adj := adjustment (priv r) in
  change_values
    (trace (match action with
            | Spec.StepBackward => step_back
            | Spec.StepForward => step_forward
            | Spec.PageBackward => page_back
            | Spec.PageForward => page_forward
            end r))
  = [(Spec.reason action,
      Spec.pass_through (marks (priv r)) (gtk_adjustment_get_value adj)
        (Spec.target adj action))].
Proof.
  destruct action; simpl;
    unfold step_back, step_forward, page_back, page_forward, apply_marks;
    autorewrite with run; cbn -[emit_change_value];
    rewrite change_values_emit, apply_marks_loop_pass_through; reflexivity.
Qed.

Lemma gtk_range_scroll_action (scroll : GtkScrollType) (action : Spec.Action)
    (r : GtkRange) :
  Spec.action_of (should_invert r) scroll = Some action ->
  change_values (trace (gtk_range_scroll scroll r))
  = change_values
      (trace (match action with
              | Spec.StepBackward => step_back
              | Spec.StepForward => step_forward
              | Spec.PageBackward => page_back
              | Spec.PageForward => page_forward
              end r)).
Proof.
  intro H. unfold gtk_range_scroll. autorewrite with run.
  cbn -[step_back step_forward page_back page_forward should_invert change_values].
  rewrite app_nil_r.
  destruct scroll; simpl in H; try discriminate;
    destruct (should_invert r); injection H as <-; reflexivity.
Qed.

End Emissions.




(** ** Dragging *)

Lemma trace_recalculate_initial_position (zoom : gdouble) (mouse_x mouse_y : Z)
    (r : GtkRange) :
  trace (recalculate_initial_position zoom mouse_x mouse_y r) = [].
Proof.
  unfold recalculate_initial_position. autorewrite with run.
  cbv [get result state fst snd when].
  destruct (slide_initial_slider_position (priv r) =? -1)%Z; [| reflexivity].
  destruct (orientation (priv r)); reflexivity.
Qed.

(** C5 (as amended): a drag update emits [change-value] once, with
    reason jump.  With [c] the synthetic slider coordinate (computed in
    32-bit integer arithmetic from the pointer position), [candidate]
    the value at [c] and [mark_delta] the distance to the value one
    pixel further, the value emitted is the first mark, in the order of
    the list of marks, with [|value - mark| < 3 * mark_delta] and
    [|candidate - mark| < 12 * mark_delta]; a later mark is not
    emitted even when it meets both conditions.  When no mark meets
    them the candidate itself is emitted. *)
Theorem drag_update_snaps_to_mark (host : Host) (range : GtkRange) (mouse_x mouse_y : Z) :
  let zoom := drag_zoom range in
  let range1 := state (recalculate_initial_position zoom mouse_x mouse_y range) in
  let c := slide_coordinate range1 zoom mouse_x mouse_y in
  let candidate := coord_to_value range1 c in
  let mark_delta := fabs (coord_to_value range1 (c + 1) - candidate) in
  let value := gtk_adjustment_get_value (adjustment (priv range1)) in
  let in_window := Spec.in_snap_window value candidate mark_delta in
  let emitted := Spec.snap_to (marks (priv range1)) value candidate mark_delta in
  change_values (trace (update_slider_position mouse_x mouse_y range))
  = [(GTK_SCROLL_JUMP, emitted)]
  /\ (forall mark,
         In mark (marks (priv range1)) -> in_window mark = true ->
         In emitted (marks (priv range1)) /\ in_window emitted = true)
  /\ (forall before mark after,
         marks (priv range1) = before ++ mark :: after ->
         (forall earlier, In earlier before -> in_window earlier = false) ->
         in_window mark = true ->
         emitted = mark)
  /\ ((forall mark, In mark (marks (priv range1)) -> in_window mark = false) ->
      emitted = candidate).
Proof.
  intros zoom range1 c candidate mark_delta value in_window emitted. split.
  - unfold update_slider_position. autorewrite with run.
    cbn -[emit_change_value recalculate_initial_position change_values
          drag_zoom slide_coordinate coord_to_value snap_to_mark_loop].
    rewrite trace_recalculate_initial_position, app_nil_r, change_values_emit.
    rewrite snap_to_mark_loop_snap_to. reflexivity.
  - destruct (find_default_cases in_window (marks (priv range1)) candidate) as [F N].
    split; [exact F | split; [| exact N]].
    intros before mark after E B T. subst emitted. unfold Spec.snap_to.
    fold in_window. rewrite E, (find_first _ before after mark B T). reflexivity.
Qed.

(** The slider of [grabbed_range], pressed at 50, dragged to 55: the
    candidate 50/9 is within 12 pixels of the mark 5 and the value 4.9
    within 3, so 5 is emitted. *)
Lemma drag_near_mark_emits_mark :
  In 5%float (marks (priv grabbed_range))
  /\ change_values (trace (update_slider_position (host := plain_host) 55 10 grabbed_range))
     = [(GTK_SCROLL_JUMP, 5%float)].
Proof.
  split; [left; reflexivity |].
  exact (proj1 (@drag_update_snaps_to_mark plain_host grabbed_range 55 10)).
Defined.

(** Counterexample to C5 as stated: with marks [5; 5.05], value 4.9
    and the slider dragged from 50 to 55, the candidate is 50/9 and one
    pixel is worth 10/90, so both marks are within 3 pixels of the
    value and within 12 of the candidate; the drag emits 5, the first
    listed, and so the candidate is not replaced by the mark 5.05
    although that one meets both conditions. *)
Lemma drag_emits_first_listed_mark_in_window :
  let range := two_marks_grabbed_range in
  let zoom := drag_zoom range in
  let range1 := state (recalculate_initial_position zoom 55 10 range) in
  let c := slide_coordinate range1 zoom 55 10 in
  let candidate := coord_to_value range1 c in
  let mark_delta := fabs (coord_to_value range1 (c + 1) - candidate) in
  let value := gtk_adjustment_get_value (adjustment (priv range1)) in
  marks (priv range1) = [5; 5.05]%float
  /\ Spec.in_snap_window value candidate mark_delta 5 = true
  /\ Spec.in_snap_window value candidate mark_delta 5.05 = true
  /\ change_values (trace (update_slider_position (host := plain_host) 55 10 range))
     = [(GTK_SCROLL_JUMP, 5%float)]
  /\ change_values (trace (update_slider_position (host := plain_host) 55 10 range))
     <> [(GTK_SCROLL_JUMP, 5.05%float)].
Proof.
  repeat split; try (vm_compute; reflexivity).
  intro H.
  apply (f_equal (fun l => match l with
                           | [(_, c)] => Leibniz.eqb c 5.05%float
                           | _ => true
                           end)) in H.
  vm_compute in H. discriminate.
Qed.

(** The integer arithmetic of the coordinate wraps around.  On
    [zoom_left_at_edge_range] the next drag update ends the autoscroll,
    which unsets the initial slider position; without zoom the
    recalculation divides by [zoom - 1 = 0] and stores [G_MININT]; the
    difference to the pointer position then wraps, the coordinate lies
    far before the trough and the lower bound is emitted. *)
Lemma drag_after_leaving_zoom_wraps :
  let run :=
    gtk_range_drag_gesture_update (host := plain_host) the_gesture (-45) 0
      zoom_left_at_edge_range in
  slide_initial_slider_position (priv (state run)) = G_MININT
  /\ gint_sub 5 (gint_add 5 G_MININT) = G_MININT
  /\ change_values (trace run) = [(GTK_SCROLL_JUMP, 0%float)].
Proof.
  repeat split; vm_compute; reflexivity.
Qed.

(** ** Autoscroll *)

(** C6 (as amended): in start/end mode a tick emits [change-value]
    with reason jump and the value moved by an increment of magnitude
    [((1 - t) * step_increment + t * page_increment) / 20], added for
    end and subtracted for start, where [t] is the off-axis drag offset
    less the 20-pixel threshold, clamped to [[0, 200]] (unless it is
    NaN) and divided by 100.  So [t] is 0 up to 20 pixels, 1 at 120
    pixels and 2 from 220 pixels on, where the speed saturates. *)
Theorem autoscroll_start_end_increment (host : Host) (range : GtkRange) :
  let mode := autoscroll_mode (priv range) in
  mode = GTK_SCROLL_START \/ mode = GTK_SCROLL_END ->
  let adj := adjustment (priv range) in
  let offset := Spec.off_axis_offset range in
  let excess := (fabs offset - 20)%float in
  let t := Spec.autoscroll_t offset in
  let speed :=
    Spec.interpolate t (gtk_adjustment_get_step_increment adj)
      (gtk_adjustment_get_page_increment adj) in
  let increment :=
    if GtkScrollType_beq mode GTK_SCROLL_END
    then (speed / 20)%float else ((- speed) / 20)%float in
  autoscroll_increment range = Some increment
  /\ (exists run,
         autoscroll_cb range = Some run
         /\ change_values (trace run)
            = [(GTK_SCROLL_JUMP, (gtk_adjustment_get_value adj + increment)%float)]
         /\ result run = G_SOURCE_CONTINUE)
  /\ t = (CLAMP excess 0 200 / 100)%float
  /\ (is_nan excess = false ->
      (0 <=? CLAMP excess 0 200)%float = true
      /\ (CLAMP excess 0 200 <=? 200)%float = true)
  /\ t = (if (200 <? excess)%float then 2%float
          else if (excess <? 0)%float then 0%float
          else (excess / 100)%float)
  /\ map Spec.autoscroll_t [0; 20; 70; 120; 220; 221; 1000; -500]%float
     = [0; 0; 0.5; 1; 2; 2; 2; 2]%float.
Proof.
  intros mode H adj offset excess t speed increment.
  assert (I : autoscroll_increment range = Some increment).
  { unfold autoscroll_increment. subst increment speed t offset mode adj.
    unfold Spec.off_axis_offset, Spec.autoscroll_t, Spec.interpolate.
    destruct H as [H | H]; rewrite H; simpl;
      destruct (drag_gesture range) as [gesture |];
      destruct (orientation (priv range)); reflexivity. }
  split; [exact I |]. split; [| split; [reflexivity | split; [| split]]].
  - unfold autoscroll_cb. rewrite I. eexists. split; [reflexivity |].
    autorewrite with run. cbn -[emit_change_value change_values].
    rewrite change_values_emit. split; reflexivity.
  - intro N. apply CLAMP_within; [exact N | reflexivity | reflexivity | reflexivity].
  - subst t excess. unfold Spec.autoscroll_t, CLAMP.
    destruct (200 <? fabs offset - 20)%float; [reflexivity |].
    destruct (fabs offset - 20 <? 0)%float; reflexivity.
  - vm_compute. reflexivity.
Qed.

(** End mode, step 1 and page 10, dragged 220 pixels off the axis:
    [t = 2] and the tick adds [(2 * 10 - 1) / 20]. *)
Lemma autoscroll_at_220_pixels :
  autoscroll_mode (priv (autoscrolling_range 220)) = GTK_SCROLL_END
  /\ autoscroll_increment (autoscrolling_range 220) = Some 0.95%float.
Proof.
  split; [reflexivity |].
  exact (proj1 (@autoscroll_start_end_increment plain_host (autoscrolling_range 220)
                  (or_intror eq_refl))).
Defined.

(** Counterexample to C6 as stated: 200 pixels past the threshold [t]
    is 2, above 1, and the increment is still larger than it is 100
    pixels past the threshold; it is smaller than [2 * page / 20]. *)
Lemma autoscroll_not_saturated_100_pixels_past_threshold :
  (1 <? Spec.autoscroll_t 220)%float = true
  /\ autoscroll_increment (autoscrolling_range 120) = Some 0.5%float
  /\ autoscroll_increment (autoscrolling_range 220) = Some 0.95%float
  /\ autoscroll_increment (autoscrolling_range 120)
     <> autoscroll_increment (autoscrolling_range 220)
  /\ (0.95 <? 2 * 10 / 20)%float = true.
Proof.
  repeat split; try (vm_compute; reflexivity).
  intro H.
  apply (f_equal (fun o => match o with Some i => Leibniz.eqb i 0.5%float | None => false end))
    in H.
  vm_compute in H. discriminate.
Qed.

(** ** Keyboard scrolling *)

Section Bell.

Context {host : Host}.

Lemma error_bells_real_change_value scroll v r :
  error_bells (trace (gtk_range_real_change_value scroll v r)) = O.
Proof.
  unfold gtk_range_real_change_value. autorewrite with run.
  cbn -[adjustment_call error_bells].
  generalize (adjust_bounds_handlers v r). intro r1.
  destruct (in_drag (priv r1) || negb (autoscroll_id (priv r1) =? 0)%Z);
    autorewrite with run; cbn -[adjustment_call];
    match goal with
    | |- context [adjustment_call ?s ?x ?y] =>
        destruct (trace_adjustment_call s x y) as [E | E]; rewrite E
    end; reflexivity.
Qed.

Lemma error_bells_emit scroll v r :
  error_bells (trace (emit_change_value scroll v r)) = O.
Proof.
  unfold emit_change_value. autorewrite with run.
  cbn -[gtk_range_real_change_value].
  destruct (change_value_handlers scroll v r) as [handled r1].
  cbn -[gtk_range_real_change_value].
  destruct handled; [reflexivity |].
  apply error_bells_real_change_value.
Qed.

Lemma error_bells_scroll scroll r :
  error_bells (trace (gtk_range_scroll scroll r)) = O.
Proof.
  unfold gtk_range_scroll. autorewrite with run.
  cbn -[step_back step_forward page_back page_forward scroll_begin scroll_end
        should_invert error_bells].
  rewrite Nat.add_0_r.
  destruct scroll; try destruct (should_invert r); try reflexivity;
    unfold step_back, step_forward, page_back, page_forward, scroll_begin, scroll_end;
    autorewrite with run; cbn -[emit_change_value];
    rewrite error_bells_emit; reflexivity.
Qed.

Lemma result_scroll scroll r :
  result (gtk_range_scroll scroll r)
  = fne (gtk_adjustment_get_value (adjustment (priv (state (gtk_range_scroll scroll r)))))
        (gtk_adjustment_get_value (adjustment (priv r))).
Proof.
  unfold gtk_range_scroll. autorewrite with run. reflexivity.
Qed.

Lemma move_slider_bells scroll r :
  let run := gtk_range_move_slider scroll r in
  error_bells (trace run)
  = if feq (gtk_adjustment_get_value (adjustment (priv (state run))))
           (gtk_adjustment_get_value (adjustment (priv r)))
    then 1%nat else 0%nat.
Proof.
  unfold gtk_range_move_slider. autorewrite with run.
  rewrite error_bells_scroll.
  pose proof (result_scroll scroll r) as R. unfold fne in R. unfold feq.
  destruct (result (gtk_range_scroll scroll r)); simpl;
    change (state (perform WIDGET_ERROR_BELL ?x)) with x;
    change (state (ret tt ?x)) with x;
    destruct (_ =? _)%float; try discriminate; reflexivity.
Qed.

End Bell.

(** C7: a keyboard move-slider action rings the error bell exactly
    when the adjustment's value after the scroll action compares equal
    to the value before it, and then once; when the value has changed
    there is no bell.  A step forward at the upper bound rings, a step
    forward from below it does not. *)
(** When the stored value is a number and the action leaves it as it
    was, the bell rings. *)
Lemma move_slider_bell_when_untouched (host : Host) (range : GtkRange)
    (scroll : GtkScrollType) :
  let run := gtk_range_move_slider scroll range in
  let before := gtk_adjustment_get_value (adjustment (priv range)) in
  let after := gtk_adjustment_get_value (adjustment (priv (state run))) in
  is_nan before = false -> after = before -> error_bells (trace run) = 1%nat.
Proof.
  intros run before after N E. subst run.
  rewrite move_slider_bells. fold after before. rewrite E.
  unfold feq. unfold is_nan in N.
  destruct (before =? before)%float; [reflexivity | discriminate].
Qed.

Theorem move_slider_error_bell :
  (forall (host : Host) (range : GtkRange) (scroll : GtkScrollType),
      let run := gtk_range_move_slider scroll range in
      let before := gtk_adjustment_get_value (adjustment (priv range)) in
      let after := gtk_adjustment_get_value (adjustment (priv (state run))) in
      error_bells (trace run) = if feq after before then 1%nat else 0%nat)
  /\ error_bells
       (trace (gtk_range_move_slider (host := plain_host)
                 GTK_SCROLL_STEP_FORWARD range_at_upper_bound)) = 1%nat
  /\ error_bells
       (trace (gtk_range_move_slider (host := plain_host)
                 GTK_SCROLL_STEP_FORWARD plain_range)) = 0%nat.
Proof.
  split; [| split; vm_compute; reflexivity].
  intros host range scroll. apply move_slider_bells.
Qed.

(** ** Autoscroll at the edges in zoom mode *)

Lemma switch_autoscroll_mode (host : Host) (mode : GtkScrollType) (r : GtkRange) :
  autoscroll_mode
    (priv (state (when (negb (GtkScrollType_beq mode (autoscroll_mode (priv r))))
                    (remove_autoscroll;;
                     modify_priv (set_autoscroll_mode mode);;
                     add_autoscroll) r)))
  = mode.
Proof.
  destruct (GtkScrollType_beq mode (autoscroll_mode (priv r))) eqn:E.
  - apply internal_GtkScrollType_dec_bl in E. simpl. symmetry. exact E.
  - unfold remove_autoscroll, add_autoscroll, new_source_id.
    destruct (autoscroll_id (priv r) =? 0) eqn:I;
      cbv [negb when get result state fst snd modify modify_priv perform ret bind];
      rewrite I; simpl; rewrite ?I; simpl;
      destruct (GtkScrollType_beq mode GTK_SCROLL_NONE); reflexivity.
Qed.

(** In zoom mode the edge the pointer is near selects the step by the
    [inverted] flag alone. *)
Lemma update_autoscroll_mode_by_inverted_flag (host : Host) (range : GtkRange) :
  zoom (priv range) = true ->
  let p := priv range in
  let pos :=
    match orientation p with
    | GTK_ORIENTATION_VERTICAL => mouse_y p
    | GTK_ORIENTATION_HORIZONTAL => mouse_x p
    end in
  let size :=
    match orientation p with
    | GTK_ORIENTATION_VERTICAL => widget_height range
    | GTK_ORIENTATION_HORIZONTAL => widget_width range
    end in
  autoscroll_mode (priv (state (update_autoscroll_mode range)))
  = if pos <? SCROLL_EDGE_SIZE
    then if inverted p then GTK_SCROLL_STEP_FORWARD else GTK_SCROLL_STEP_BACKWARD
    else if size - SCROLL_EDGE_SIZE <? pos
    then if inverted p then GTK_SCROLL_STEP_BACKWARD else GTK_SCROLL_STEP_FORWARD
    else GTK_SCROLL_NONE.
Proof.
  intros Z p pos size. subst pos size p.
  unfold update_autoscroll_mode. autorewrite with run.
  cbv [get result state fst snd]. rewrite Z.
  destruct (orientation (priv range)); exact (switch_autoscroll_mode host _ range).
Qed.

(** C8, the code at the failing input: a horizontal, flippable range
    in a right-to-left locale is effectively inverted, and its left edge
    means its upper bound; yet a zoom-mode drag from 50 to within 15
    pixels of that edge (to 5) autoscrolls by steps backward, and at the
    far edge (at 95) by steps forward, as for a range that is not
    inverted. *)
Theorem zoom_edge_autoscroll_ignores_flipping :
  let near_edge :=
    state (gtk_range_drag_gesture_update (host := plain_host) the_gesture (-45) 0
             flipped_rtl_range) in
  let far_edge :=
    state (gtk_range_drag_gesture_update (host := plain_host) the_gesture 45 0
             flipped_rtl_range) in
  should_invert flipped_rtl_range = true
  /\ inverted (priv flipped_rtl_range) = false
  /\ zoom (priv flipped_rtl_range) = true
  /\ coord_to_value flipped_rtl_range 0%float
     = gtk_adjustment_get_upper (adjustment (priv flipped_rtl_range))
  /\ mouse_x (priv near_edge) = 5
  /\ autoscroll_mode (priv near_edge) = GTK_SCROLL_STEP_BACKWARD
  /\ mouse_x (priv far_edge) = 95
  /\ autoscroll_mode (priv far_edge) = GTK_SCROLL_STEP_FORWARD.
Proof.
  repeat split; vm_compute; reflexivity.
Qed.

(** ** The end of a grab *)

Section Stop.

Context {host : Host}.

Lemma range_grab_remove_fields (r : GtkRange) :
let p' := priv (state (range_grab_remove r)) in
grab_location p' = None
/\ timer p' = timer (priv r)
/\ autoscroll_id p' = autoscroll_id (priv r)
/\ autoscroll_mode p' = autoscroll_mode (priv r)
/\ in_drag p' = in_drag (priv r)
/\ zoom p' = (if is_null (grab_location (priv r)) then zoom (priv r) else false).
Proof.
intro p'. subst p'.
unfold range_grab_remove, gtk_range_update_mouse_location,
  update_trough_state, update_slider_state, update_zoom_state.
autorewrite with run. cbv [get result state fst snd].
destruct (grab_location (priv r)) eqn:G; simpl; repeat split; assumption.
Qed.

Lemma range_grab_remove_trace (r : GtkRange) : trace (range_grab_remove r) = [].
Proof.
unfold range_grab_remove, gtk_range_update_mouse_location,
  update_trough_state, update_slider_state, update_zoom_state.
autorewrite with run. cbv [get result state fst snd].
destruct (grab_location (priv r)); reflexivity.
Qed.

Lemma remove_step_timer_fields (r : GtkRange) :
let p' := priv (state (gtk_range_remove_step_timer r)) in
timer p' = None
/\ grab_location p' = grab_location (priv r)
/\ autoscroll_id p' = autoscroll_id (priv r)
/\ autoscroll_mode p' = autoscroll_mode (priv r)
/\ in_drag p' = in_drag (priv r)
/\ zoom p' = zoom (priv r).
Proof.
intro p'. subst p'.
unfold gtk_range_remove_step_timer.
autorewrite with run. cbv [get result state fst snd].
destruct (timer (priv r)) as [tm |] eqn:T; simpl;
  [destruct (negb (timeout_id tm =? 0)) |]; simpl; repeat split; assumption.
Qed.

Lemma remove_step_timer_trace (r : GtkRange) (tm : GtkRangeStepTimer) :
timer (priv r) = Some tm -> timeout_id tm <> 0 ->
In (SOURCE_REMOVE (timeout_id tm)) (trace (gtk_range_remove_step_timer r)).
Proof.
intros T N. apply Z.eqb_neq in N.
unfold gtk_range_remove_step_timer.
autorewrite with run. cbv [get result state fst snd].
rewrite T. autorewrite with run. rewrite N. left. reflexivity.
Qed.

Lemma remove_autoscroll_fields (r : GtkRange) :
let p' := priv (state (remove_autoscroll r)) in
autoscroll_id p' = 0
/\ autoscroll_mode p' = GTK_SCROLL_NONE
/\ grab_location p' = grab_location (priv r)
/\ timer p' = timer (priv r)
/\ in_drag p' = in_drag (priv r)
/\ zoom p' = zoom (priv r).
Proof.
intro p'. subst p'.
unfold remove_autoscroll.
autorewrite with run. cbv [get result state fst snd].
destruct (autoscroll_id (priv r) =? 0) eqn:A; simpl; repeat split.
apply Z.eqb_eq. exact A.
Qed.

Lemma remove_autoscroll_trace (r : GtkRange) :
autoscroll_id (priv r) <> 0 ->
In (REMOVE_TICK_CALLBACK (autoscroll_id (priv r))) (trace (remove_autoscroll r)).
Proof.
intros N. apply Z.eqb_neq in N.
unfold remove_autoscroll.
autorewrite with run. cbv [get result state fst snd].
rewrite N. left. reflexivity.
Qed.

Lemma stop_scrolling_stops (r : GtkRange) :
Spec.scrolling_stopped r (state (stop_scrolling r)) (trace (stop_scrolling r)).
Proof.
unfold Spec.scrolling_stopped, stop_scrolling. autorewrite with run.
set (r1 := state (range_grab_remove r)).
set (r2 := state (gtk_range_remove_step_timer r1)).
destruct (range_grab_remove_fields r) as (G1 & G2 & G3 & G4 & G5 & G6).
destruct (remove_step_timer_fields r1) as (T1 & T2 & T3 & T4 & T5 & T6).
destruct (remove_autoscroll_fields r2) as (A1 & A2 & A3 & A4 & A5 & A6).
fold r1 in G1, G2, G3, G4, G5, G6. fold r2 in T1, T2, T3, T4, T5, T6.
rewrite A3, A4, A6, T1, T2, T6, G1, G6.
repeat split; try assumption.
- intros tm E N. apply in_or_app. right. apply in_or_app. left.
  apply remove_step_timer_trace; [| exact N]. rewrite G2. exact E.
- intros N. apply in_or_app. right. apply in_or_app. right.
  rewrite <- G3, <- T3. apply remove_autoscroll_trace. rewrite T3, G3. exact N.
Qed.


End Stop.




(** * More properties *)

(** ** Layout *)

Section LayoutProperties.

Variable to_border : Z -> Z.

(** The fields of a border hold at least 16 bits. *)
Hypothesis to_border_exact : forall z, - 2 ^ 15 <= z < 2 ^ 15 -> to_border z = z.





End LayoutProperties.





(** ** The slider in the trough *)

(** X4: for every value, NaN and infinities included, the slider that
    [gtk_range_compute_slider_position] places is never longer than the
    trough and never shorter than its minimum size, unless the trough
    itself is shorter; a slider of fixed size has the minimum size, cut
    to the trough.  Across the orientation it has its minimum size. *)
Theorem slider_length_bounds (range : GtkRange) (value : gdouble) :
  let rect := gtk_range_compute_slider_position range value in
  let length := along_length range rect in
  Z.min (min_slider_size range) (trough_extent range) <= length <= trough_extent range
  /\ (if slider_size_fixed (priv range)
      then length = Z.min (min_slider_size range) (trough_extent range)
      else True)
  /\ match orientation (priv range) with
     | GTK_ORIENTATION_VERTICAL => alloc_width rect = slider_min_width range
     | GTK_ORIENTATION_HORIZONTAL => alloc_height rect = slider_min_height range
     end.
Proof.
  unfold gtk_range_compute_slider_position, along_length, min_slider_size, trough_extent.
  destruct (orientation (priv range)); cbn [alloc_width alloc_height];
    (split; [| split; [| reflexivity]]);
    destruct (fne _ 0); destruct (slider_size_fixed (priv range));
    rewrite ?orb_true_r, ?orb_false_r;
    try match goal with
        | |- context [(?a <? ?b)%Z] => destruct (Z.ltb_spec a b)
        end; try exact I; lia.
Qed.

(** X5: when the travel is not empty, the low-value end of the slider
    (its start, or its end when the range is effectively inverted)
    stays within the travel, for every value, NaN and infinities
    included. *)
Theorem slider_position_within_travel (range : GtkRange) (value : gdouble) :
  travel_start range <= travel_end range ->
  let rect := gtk_range_compute_slider_position range value in
  let low_value_end :=
    if should_invert range
    then along_position range rect + along_length range rect
    else along_position range rect in
  travel_start range <= low_value_end <= travel_end range.
Proof.
  unfold travel_start, travel_end, gtk_range_compute_slider_position, along_length,
    along_position, min_slider_size, trough_extent.
  destruct (orientation (priv range)); cbn [alloc_x alloc_y alloc_width alloc_height];
    intro T;
    match goal with
    | |- context [Z.min ?h ?t] => generalize (Z.min h t); intro len
    end;
    match goal with
    | |- context [if fne ?a 0 then to_gint ?b else ?c] =>
        generalize (if fne a 0 then to_gint b else c); intro pos
    end;
    destruct (is_scale range); destruct (should_invert range);
    repeat match goal with
           | |- context [(?a <? ?b)%Z] => destruct (Z.ltb_spec a b)
           end; lia.
Qed.

Lemma slider_position_within_travel_plain_range :
  travel_start plain_range <= travel_end plain_range
  /\ gtk_range_compute_slider_position plain_range 3
     = {| alloc_x := 27; alloc_y := 0; alloc_width := 10; alloc_height := 20 |}
  /\ 0 <= 27 <= 100.
Proof.
  assert (T : travel_start plain_range <= travel_end plain_range).
  { vm_compute. discriminate. }
  split; [exact T |]. split; [vm_compute; reflexivity |].
  exact (slider_position_within_travel plain_range 3 T).
Defined.

Lemma should_invert_set_inverted (range : GtkRange) :
  direction range <> GTK_TEXT_DIR_NONE ->
  should_invert (set_priv (set_inverted (negb (inverted (priv range))) (priv range)) range)
  = negb (should_invert range).
Proof.
  intro D. unfold should_invert, gtk_widget_get_direction. simpl.
  destruct (orientation (priv range)); [| reflexivity].
  destruct (inverted (priv range)), (flippable (priv range)), (direction range);
    try reflexivity; contradiction.
Qed.

(** X6: switching [inverted], in a widget whose text direction is
    resolved, switches the effective inversion and mirrors the slider
    in its travel: it keeps its size, and its start in the one range
    is as far from the start of the travel as its end in the other is
    from the end of the travel. *)
Theorem inversion_mirrors_slider (range : GtkRange) (value : gdouble) :
  direction range <> GTK_TEXT_DIR_NONE ->
  let range' :=
    set_priv (set_inverted (negb (inverted (priv range))) (priv range)) range in
  let rect := gtk_range_compute_slider_position range value in
  let rect' := gtk_range_compute_slider_position range' value in
  should_invert range' = negb (should_invert range)
  /\ alloc_width rect' = alloc_width rect
  /\ alloc_height rect' = alloc_height rect
  /\ along_position range' rect' - travel_start range
     = travel_end range - (along_position range rect + along_length range rect).
Proof.
  intros D range' rect rect'.
  pose proof (should_invert_set_inverted range D) as S. fold range' in S.
  split; [exact S |].
  subst rect rect'.
  unfold gtk_range_compute_slider_position, along_position, along_length,
    travel_start, travel_end, min_slider_size, trough_extent.
  rewrite S. subst range'. cbn -[should_invert].
  destruct (orientation (priv range)); cbn [alloc_x alloc_y alloc_width alloc_height];
    (split; [reflexivity | split; [reflexivity |]]);
    match goal with
    | |- context [Z.min ?h ?t] => generalize (Z.min h t); intro len
    end;
    match goal with
    | |- context [if fne ?a 0 then to_gint ?b else ?c] =>
        generalize (if fne a 0 then to_gint b else c); intro pos
    end;
    destruct (is_scale range); destruct (should_invert range); cbn [negb];
    repeat match goal with
           | |- context [(?a <? ?b)%Z] => destruct (Z.ltb_spec a b)
           end; lia.
Qed.

Lemma inversion_mirrors_slider_plain_range :
  direction plain_range <> GTK_TEXT_DIR_NONE
  /\ gtk_range_compute_slider_position plain_range 3
     = {| alloc_x := 27; alloc_y := 0; alloc_width := 10; alloc_height := 20 |}
  /\ gtk_range_compute_slider_position inverted_range 3
     = {| alloc_x := 63; alloc_y := 0; alloc_width := 10; alloc_height := 20 |}
  /\ 63 - 0 = 100 - (27 + 10).
Proof.
  assert (D : direction plain_range <> GTK_TEXT_DIR_NONE) by discriminate.
  split; [exact D |]. split; [vm_compute; reflexivity |].
  split; [vm_compute; reflexivity |].
  exact (proj2 (proj2 (proj2 (inversion_mirrors_slider plain_range 3 D)))).
Defined.

(** ** The allocation of the fill level *)

Lemma gint_wrap_exact (z : Z) : G_MININT <= z <= G_MAXINT -> gint_wrap z = z.
Proof.
  unfold G_MININT, G_MAXINT, gint_wrap. intro H.
  rewrite Z.mod_small by lia. lia.
Qed.

(** X7: the fill level is allocated only when it is shown and
    [upper - page_size - lower] is not zero; it keeps the trough's
    extent across the orientation.  When the range is not effectively
    inverted it starts where the trough starts.  When the range is
    effectively inverted it ends where the trough ends, provided that
    the length computed for it lies between 0 and the length of the
    trough and that the trough's allocation fits 32-bit integers.  The
    highlight is allocated exactly when the range has an origin; it
    keeps the trough's extent across the orientation too and, unless
    the range is effectively inverted, starts where the trough starts.
    The test before the division is not on the divisor, which is
    [upper - lower - page_size]: for the bounds [0.1, 1.0] and the page
    size 0.9 the tested difference is not zero and the divisor is, and
    in 200 pixels the fill level gets the length [G_MININT] and, the
    range being inverted, a start that has wrapped around. *)
Theorem fill_level_at_low_value_end (range : GtkRange) (allocation : GtkAllocation)
    (highlight_min : Z) :
  let tested (r : GtkRange) :=
    let adj := adjustment (priv r) in
    (gtk_adjustment_get_upper adj - gtk_adjustment_get_page_size adj
     - gtk_adjustment_get_lower adj)%float in
  let divisor (r : GtkRange) :=
    let adj := adjustment (priv r) in
    (gtk_adjustment_get_upper adj - gtk_adjustment_get_lower adj
     - gtk_adjustment_get_page_size adj)%float in
  let layout := gtk_range_allocate_trough range allocation highlight_min in
  let across (rect : GtkAllocation) :=
    match orientation (priv range) with
    | GTK_ORIENTATION_VERTICAL =>
        alloc_x rect = alloc_x allocation /\ alloc_width rect = alloc_width allocation
    | GTK_ORIENTATION_HORIZONTAL =>
        alloc_y rect = alloc_y allocation /\ alloc_height rect = alloc_height allocation
    end in
  match fill_allocation layout with
  | Some fill =>
      show_fill_level (priv range) = true /\ fne (tested range) 0 = true
      /\ across fill
      /\ (if should_invert range
          then 0 <= along_length range fill <= along_length range allocation ->
               along_length range allocation <= G_MAXINT ->
               G_MININT <= along_position range allocation ->
               along_position range allocation + along_length range allocation
               <= G_MAXINT ->
               along_position range fill + along_length range fill
               = along_position range allocation + along_length range allocation
          else along_position range fill = along_position range allocation)
  | None => show_fill_level (priv range) = false \/ fne (tested range) 0 = false
  end
  /\ match highlight_allocation layout with
     | Some highlight =>
         has_origin (priv range) = true
         /\ across highlight
         /\ (if should_invert range then True
             else along_position range highlight = along_position range allocation)
     | None => has_origin (priv range) = false
     end
  /\ (fne (tested Cases.cancelling_range) 0 = true
      /\ feq (divisor Cases.cancelling_range) 0 = true
      /\ should_invert Cases.cancelling_range = true
      /\ fill_allocation
           (gtk_range_allocate_trough Cases.cancelling_range Cases.wide_allocation 0)
         = Some {| alloc_x := 200 - 2 ^ 31; alloc_y := 0;
                   alloc_width := G_MININT; alloc_height := 30 |}).
Proof.
  unfold gtk_range_allocate_trough, along_position, along_length.
  cbn [fill_allocation highlight_allocation]. split; [| split].
  - destruct (show_fill_level (priv range)); cbn [andb]; [| left; reflexivity].
    destruct (fne _ 0); [| right; reflexivity].
    destruct (orientation (priv range)); cbn [alloc_x alloc_y alloc_width alloc_height];
      (split; [reflexivity |]); (split; [reflexivity |]); (split; [split; reflexivity |]);
      (destruct (should_invert range); [| reflexivity]);
      match goal with
      | |- context [to_gint ?e] => generalize (to_gint e); intro length
      end;
      intros L W X E; unfold gint_add, gint_sub;
      rewrite (gint_wrap_exact (_ - length)) by (unfold G_MININT, G_MAXINT in *; lia);
      rewrite gint_wrap_exact by (unfold G_MININT, G_MAXINT in *; lia); lia.
  - destruct (has_origin (priv range)); [| reflexivity].
    destruct (orientation (priv range)); cbn [alloc_x alloc_y alloc_width alloc_height];
      (split; [reflexivity |]); (split; [split; reflexivity |]);
      destruct (should_invert range); cbn [negb]; [exact I | reflexivity | exact I | reflexivity].
  - repeat split; vm_compute; reflexivity.
Qed.

(** [half_filled_range], inverted, with fill level 5 on the bounds
    [0, 10], in 200 pixels: the fill level takes the 100 pixels that
    end where the trough ends. *)
Lemma fill_level_of_half_filled_range :
  should_invert Cases.half_filled_range = true
  /\ fill_allocation
       (gtk_range_allocate_trough Cases.half_filled_range Cases.wide_allocation 0)
     = Some {| alloc_x := 100; alloc_y := 0; alloc_width := 100; alloc_height := 30 |}
  /\ 0 <= 100 <= 200
  /\ 100 + 100 = 0 + 200.
Proof.
  assert (L : 0 <= 100 <= 200) by lia.
  assert (W : 200 <= G_MAXINT) by (unfold G_MAXINT; lia).
  assert (X : G_MININT <= 0) by (unfold G_MININT; lia).
  assert (E : 0 + 200 <= G_MAXINT) by (unfold G_MAXINT; lia).
  split; [reflexivity |]. split; [vm_compute; reflexivity |]. split; [exact L |].
  exact (proj2 (proj2 (proj2
           (proj1 (fill_level_at_low_value_end Cases.half_filled_range
                     Cases.wide_allocation 0)))) L W X E).
Defined.

(** ** The value, set by the program *)

Lemma ltb_leb (x y : gdouble) : (x <? y)%float = true -> (x <=? y)%float = true.
Proof.
  rewrite FloatAxioms.ltb_spec, FloatAxioms.leb_spec. unfold SFltb, SFleb.
  destruct (SFcompare _ _) as [[ | | ] |]; intro H; try reflexivity; discriminate.
Qed.

Lemma MAX_is_number (a b : gdouble) :
  is_nan a = false -> is_nan b = false -> is_nan (MAX a b) = false.
Proof. intros A B. unfold MAX. destruct (b <? a)%float; assumption. Qed.

Lemma MIN_at_most (a b : gdouble) :
  is_nan b = false -> (MIN a b <=? b)%float = true.
Proof.
  intros B. unfold MIN. destruct (a <? b)%float eqn:L.
  - apply ltb_leb. exact L.
  - apply leb_refl. exact B.
Qed.

(** X8: [gtk_range_set_value] hands the adjustment one value: the
    requested one, capped at [max (lower, fill_level)] when
    [restrict_to_fill_level] is set.  It does not go through
    [change-value]: no handler can veto it, the range neither clamps
    nor rounds it, and it is never animated.  When lower bound and fill
    level are numbers the value handed over is at most their maximum. *)
Theorem gtk_range_set_value_caps (host : Host) (range : GtkRange) (value : gdouble) :
  let p := priv range in
  let lower := gtk_adjustment_get_lower (adjustment p) in
  let handed :=
    Spec.cap_at_fill_level (restrict_to_fill_level p) lower (fill_level p) value in
  let run := gtk_range_set_value value range in
  (trace run = [ADJUSTMENT_SET_VALUE handed]
   \/ trace run = [ADJUSTMENT_SET_VALUE handed; SIGNAL_VALUE_CHANGED])
  /\ (restrict_to_fill_level p = true ->
      is_nan lower = false -> is_nan (fill_level p) = false ->
      (handed <=? MAX lower (fill_level p))%float = true).
Proof.
  intros p lower handed run. split.
  - subst run. unfold gtk_range_set_value. autorewrite with run.
    cbn -[adjustment_call].
    fold p. fold lower. unfold Spec.cap_at_fill_level in handed. fold handed.
    destruct (trace_adjustment_call gtk_adjustment_set_value handed range) as [E | E];
      rewrite E; [left | right]; reflexivity.
  - intros R L F. subst handed. unfold Spec.cap_at_fill_level. rewrite R.
    apply MIN_at_most. apply MAX_is_number; assumption.
Qed.

(** On [filled_range], with fill level 5 on bounds [0, 10], setting
    the value 7 hands 5 to the adjustment. *)
Lemma gtk_range_set_value_caps_at_5 :
  restrict_to_fill_level (priv filled_range) = true
  /\ committed_values (trace (gtk_range_set_value (host := plain_host) 7 filled_range))
     = [5%float]
  /\ (5 <=? MAX 0 5)%float = true.
Proof.
  split; [reflexivity |]. split; [vm_compute; reflexivity |].
  exact (proj2 (gtk_range_set_value_caps plain_host filled_range 7)
           eq_refl eq_refl eq_refl).
Defined.

(** ** Scroll types without an action *)

(** X9: [GTK_SCROLL_JUMP] and [GTK_SCROLL_NONE] have no scroll action:
    [gtk_range_scroll] emits nothing, leaves the range as it is and
    reports no change, so as a keyboard binding they ring the error
    bell, once.  Only a value that is NaN compares unequal to itself:
    then a change is reported and the bell stays silent. *)
Theorem move_slider_without_action_rings (host : Host) (range : GtkRange) :
  let value := gtk_adjustment_get_value (adjustment (priv range)) in
  let rings := if is_nan value then [] else [WIDGET_ERROR_BELL] in
  gtk_range_move_slider GTK_SCROLL_JUMP range = (tt, range, rings)
  /\ gtk_range_move_slider GTK_SCROLL_NONE range = (tt, range, rings)
  /\ gtk_range_scroll GTK_SCROLL_JUMP range = (is_nan value, range, [])
  /\ gtk_range_scroll GTK_SCROLL_NONE range = (is_nan value, range, []).
Proof.
  intros value rings. subst rings.
  unfold gtk_range_move_slider, gtk_range_scroll, bind, get, ret, perform, fne, is_nan.
  fold value. simpl. fold value.
  destruct (value =? value)%float; simpl; repeat split; reflexivity.
Qed.

(** ** After the grab *)

Section AfterGrab.

Context {host : Host}.

Lemma drag_update_without_slider_grab (gesture : GtkGestureDrag)
    (offset_x offset_y : gdouble) (r : GtkRange) :
  is_part (grab_location (priv r)) SLIDER_WIDGET = false ->
  gtk_range_drag_gesture_update gesture offset_x offset_y r = (tt, r, []).
Proof.
  intro G. unfold gtk_range_drag_gesture_update, bind, get, when.
  rewrite G. reflexivity.
Qed.

Lemma remove_autoscroll_slide_position (r : GtkRange) :
  slide_initial_slider_position (priv (state (remove_autoscroll r))) = -1.
Proof.
  unfold remove_autoscroll.
  autorewrite with run. cbv [get result state fst snd].
  destruct (autoscroll_id (priv r) =? 0); reflexivity.
Qed.

Lemma stop_scrolling_when_stopped (r : GtkRange) :
  grab_location (priv r) = None -> timer (priv r) = None ->
  autoscroll_id (priv r) = 0 -> autoscroll_mode (priv r) = GTK_SCROLL_NONE ->
  slide_initial_slider_position (priv r) = -1 ->
  stop_scrolling r = (tt, r, []).
Proof.
  destruct r as [p d ww wh sa ta smw smh tw th sc pw dg sl tr cd cf ns].
  destruct p as [ml mx my gl tm adj o fl mk rd sp sd fp iv sf tc ho zm sh rs dr am ai].
  simpl. intros -> -> -> -> ->. reflexivity.
Qed.

End AfterGrab.

(** X10: a drag update changes the range only while the slider is
    grabbed.  After a button release and after an unmap nothing is
    grabbed, so drag updates that still arrive are ignored: they emit
    nothing and leave the range as it is. *)
Theorem drag_update_ignored_after_release (host : Host) (range : GtkRange)
    (gesture : GtkGestureDrag) (offset_x offset_y : gdouble) :
  (forall x y : gdouble,
      let released := state (gtk_range_multipress_gesture_released x y range) in
      gtk_range_drag_gesture_update gesture offset_x offset_y released
      = (tt, released, []))
  /\ (let unmapped := state (gtk_range_unmap range) in
      gtk_range_drag_gesture_update gesture offset_x offset_y unmapped
      = (tt, unmapped, [])).
Proof.
  split.
  - intros x y released. apply drag_update_without_slider_grab.
    subst released. unfold gtk_range_multipress_gesture_released.
    autorewrite with run. cbn -[stop_scrolling].
    match goal with
    | |- context [stop_scrolling ?r0] =>
        destruct (stop_scrolling_stops r0) as (G & _)
    end.
    rewrite G. reflexivity.
  - intros unmapped. apply drag_update_without_slider_grab.
    subst unmapped. unfold gtk_range_unmap. autorewrite with run.
    cbn -[stop_scrolling].
    destruct (stop_scrolling_stops range) as (G & _).
    rewrite G. reflexivity.
Qed.

(** X11: stopping is idempotent.  Once [stop_scrolling] has run,
    running it again removes no source, emits nothing and leaves the
    range as it is. *)
Theorem stop_scrolling_idempotent (host : Host) (range : GtkRange) :
  let stopped := state (stop_scrolling range) in
  stop_scrolling stopped = (tt, stopped, []).
Proof.
  intro stopped.
  destruct (stop_scrolling_stops range) as (G & T & A & Md & _).
  fold stopped in G, T, A, Md.
  apply stop_scrolling_when_stopped; try assumption.
  subst stopped. unfold stop_scrolling. autorewrite with run.
  apply remove_autoscroll_slide_position.
Qed.

(** ** Autoscroll callbacks *)

Lemma start_autoscroll_registers (range : GtkRange) (scroll_type : GtkScrollType) :
  scroll_type <> GTK_SCROLL_NONE ->
  let run := gtk_range_start_autoscroll scroll_type range in
  In (ADD_TICK_CALLBACK (next_source_id range)) (trace run)
  /\ autoscroll_mode (priv (state run)) = scroll_type.
Proof.
  intros N run. subst run.
  assert (B : GtkScrollType_beq scroll_type GTK_SCROLL_NONE = false).
  { destruct (GtkScrollType_beq scroll_type GTK_SCROLL_NONE) eqn:B; [| reflexivity].
    apply internal_GtkScrollType_dec_bl in B. contradiction. }
  unfold gtk_range_start_autoscroll, remove_autoscroll, add_autoscroll, new_source_id.
  destruct (autoscroll_id (priv range) =? 0) eqn:I;
    cbv [negb when get result state trace fst snd modify modify_priv perform ret bind app];
    rewrite I; simpl; rewrite ?I; simpl; rewrite B; simpl; split;
    try reflexivity; auto.
Qed.

(** X12: [gtk_range_start_autoscroll] leaves at most one tick callback
    registered: it first removes the one that is registered, if any,
    and then registers a fresh one, unless the scroll type is none.
    The range remembers the callback it registered and the mode. *)
Theorem start_autoscroll_replaces_callback (range : GtkRange)
    (scroll_type : GtkScrollType) :
  let run := gtk_range_start_autoscroll scroll_type range in
  let old := autoscroll_id (priv range) in
  let fresh := next_source_id range in
  let none := GtkScrollType_beq scroll_type GTK_SCROLL_NONE in
  trace run
  = (if old =? 0 then [] else [REMOVE_TICK_CALLBACK old])
    ++ (if none then [] else [ADD_TICK_CALLBACK fresh])
  /\ autoscroll_id (priv (state run)) = (if none then 0 else fresh)
  /\ autoscroll_mode (priv (state run)) = scroll_type.
Proof.
  intros run old fresh none. subst run old fresh none.
  unfold gtk_range_start_autoscroll, remove_autoscroll, add_autoscroll, new_source_id.
  destruct (autoscroll_id (priv range) =? 0) eqn:I;
    cbv [negb when get result state trace fst snd modify modify_priv perform ret bind app];
    rewrite I; simpl; rewrite ?I; simpl;
    destruct (GtkScrollType_beq scroll_type GTK_SCROLL_NONE) eqn:N; simpl;
    repeat split; try reflexivity;
    try (apply Z.eqb_eq; exact I);
    try (symmetry; apply internal_GtkScrollType_dec_bl; exact N).
Qed.

(** X13: a tick of the autoscroll callback has a case for six scroll
    types only: the steps and pages forward and backward, start and
    end.  For these it emits [change-value] once, with reason jump, and
    keeps the callback.  [gtk_range_start_autoscroll] registers the
    callback for every scroll type but none; for the directional types
    (up, down, left, right) and for jump the first tick then runs into
    [g_assert_not_reached]. *)
Theorem autoscroll_tick_by_mode (host : Host) (range : GtkRange)
    (scroll_type : GtkScrollType) :
  (autoscroll_handles (autoscroll_mode (priv range)) = true ->
   exists run value,
     autoscroll_cb range = Some run
     /\ change_values (trace run) = [(GTK_SCROLL_JUMP, value)]
     /\ result run = G_SOURCE_CONTINUE)
  /\ (autoscroll_handles (autoscroll_mode (priv range)) = false ->
      autoscroll_cb range = None)
  /\ (autoscroll_handles scroll_type = false ->
      scroll_type <> GTK_SCROLL_NONE ->
      let started := gtk_range_start_autoscroll scroll_type range in
      In (ADD_TICK_CALLBACK (next_source_id range)) (trace started)
      /\ autoscroll_cb (state started) = None).
Proof.
  split; [| split].
  - intro H. unfold autoscroll_cb.
    destruct (autoscroll_increment range) as [increment |] eqn:I.
    + eexists. eexists. split; [reflexivity |].
      autorewrite with run. cbn -[emit_change_value change_values].
      rewrite change_values_emit. split; reflexivity.
    + unfold autoscroll_increment in I.
      destruct (autoscroll_mode (priv range)); try discriminate;
        destruct (drag_gesture range); destruct (orientation (priv range));
        discriminate.
  - intro H. unfold autoscroll_cb, autoscroll_increment.
    destruct (autoscroll_mode (priv range)); try discriminate; reflexivity.
  - intros H N started.
    destruct (start_autoscroll_registers range scroll_type N) as (T & Md).
    fold started in T, Md. split; [exact T |].
    unfold autoscroll_cb, autoscroll_increment. rewrite Md.
    destruct scroll_type; try discriminate; reflexivity.
Qed.

(** In the end mode of [autoscrolling_range] a tick runs; started with
    [GTK_SCROLL_STEP_UP] on [plain_range], the callback is registered
    and its tick fails. *)
Lemma autoscroll_tick_by_mode_cases :
  autoscroll_handles (autoscroll_mode (priv (autoscrolling_range 0))) = true
  /\ autoscroll_cb (host := plain_host) (autoscrolling_range 0) <> None
  /\ autoscroll_handles GTK_SCROLL_STEP_UP = false
  /\ GTK_SCROLL_STEP_UP <> GTK_SCROLL_NONE
  /\ autoscroll_cb (host := plain_host)
       (state (gtk_range_start_autoscroll GTK_SCROLL_STEP_UP plain_range)) = None.
Proof.
  assert (N : GTK_SCROLL_STEP_UP <> GTK_SCROLL_NONE) by discriminate.
  split; [reflexivity |]. split.
  - destruct (proj1 (autoscroll_tick_by_mode plain_host (autoscrolling_range 0)
                       GTK_SCROLL_STEP_UP) eq_refl) as (run & value & E & _).
    rewrite E. discriminate.
  - split; [reflexivity |]. split; [exact N |].
    exact (proj2 (proj2 (proj2 (autoscroll_tick_by_mode plain_host plain_range
                                  GTK_SCROLL_STEP_UP)) eq_refl N)).
Defined.

(** ** The repeat timer *)

(** X14: [gtk_range_add_step_timer] refuses to start a second timer,
    and a timer for no scroll type: it reports the failed check and
    does nothing else; in particular it does not scroll. *)
Theorem add_step_timer_refused (host : Host) (range : GtkRange) (step : GtkScrollType) :
  timer (priv range) <> None \/ step = GTK_SCROLL_NONE ->
  gtk_range_add_step_timer step range = (tt, range, [RETURN_IF_FAIL]).
Proof.
  intro H. unfold gtk_range_add_step_timer, bind, get.
  destruct (timer (priv range)) as [t |] eqn:T; [reflexivity |].
  destruct H as [H | H]; [contradiction |]. subst step. reflexivity.
Qed.

Lemma add_step_timer_refused_while_paging :
  timer (priv Cases.paging_range) <> None
  /\ gtk_range_add_step_timer (host := plain_host) GTK_SCROLL_PAGE_FORWARD Cases.paging_range
     = (tt, Cases.paging_range, [RETURN_IF_FAIL]).
Proof.
  assert (T : timer (priv Cases.paging_range) <> None).
  { vm_compute. discriminate. }
  split; [exact T |].
  exact (add_step_timer_refused plain_host Cases.paging_range GTK_SCROLL_PAGE_FORWARD
           (or_introl T)).
Defined.

(** X15: when the initial delay of the repeat timer expires,
    [initial_timeout] registers the repeating timeout of 250 ms, hands
    its id to the timer, keeps the timer's scroll type and returns
    [G_SOURCE_REMOVE], ending the initial timeout.  Removing the step
    timer afterwards removes the repeating source and no other.
    Without a timer both callbacks dereference a null pointer. *)
Theorem initial_timeout_hands_over (host : Host) (range : GtkRange) :
  match timer (priv range) with
  | Some t =>
      exists run,
        initial_timeout range = Some run
        /\ result run = G_SOURCE_REMOVE
        /\ trace run = [ADD_TIMEOUT TIMEOUT_REPEAT (next_source_id range)]
        /\ timer (priv (state run))
           = Some {| timeout_id := next_source_id range; step := step t |}
        /\ trace (gtk_range_remove_step_timer (state run))
           = (if next_source_id range =? 0 then []
              else [SOURCE_REMOVE (next_source_id range)])
        /\ timer (priv (state (gtk_range_remove_step_timer (state run)))) = None
  | None => initial_timeout range = None /\ second_timeout range = None
  end.
Proof.
  unfold initial_timeout, second_timeout.
  destruct (timer (priv range)) as [t |] eqn:T; [| split; reflexivity].
  eexists. split; [reflexivity |].
  unfold new_source_id, gtk_range_remove_step_timer.
  cbv [negb when get result state trace fst snd modify modify_priv perform ret bind app].
  simpl.
  destruct (next_source_id range =? 0); simpl; repeat split; reflexivity.
Qed.

(** X16: every tick of the repeating timeout pages once more in the
    direction chosen at the press, whatever the effective inversion and
    wherever the slider has got to: it emits [change-value] once, for a
    page forward or backward, with the value one page increment away
    (or the first mark passed on the way), and keeps the timeout. *)
Theorem repeat_tick_pages (host : Host) (range : GtkRange) (t : GtkRangeStepTimer) :
  timer (priv range) = Some t ->
  step t = GTK_SCROLL_PAGE_FORWARD \/ step t = GTK_SCROLL_PAGE_BACKWARD ->
  let adj := adjustment (priv range) in
  let value := gtk_adjustment_get_value adj in
  let page := gtk_adjustment_get_page_increment adj in
  let target :=
    if GtkScrollType_beq (step t) GTK_SCROLL_PAGE_FORWARD
    then (value + page)%float else (value - page)%float in
  exists run,
    second_timeout range = Some run
    /\ result run = G_SOURCE_CONTINUE
    /\ change_values (trace run)
       = [(step t, Spec.pass_through (marks (priv range)) value target)].
Proof.
  intros T S adj value page target. unfold second_timeout. rewrite T.
  eexists. split; [reflexivity |].
  split; [autorewrite with run; reflexivity |].
  autorewrite with run. cbn -[gtk_range_scroll change_values]. rewrite app_nil_r.
  subst target.
  destruct S as [S | S]; rewrite S.
  - rewrite gtk_range_scroll_action with (action := Spec.PageForward) by reflexivity.
    exact (change_values_action Spec.PageForward range).
  - rewrite gtk_range_scroll_action with (action := Spec.PageBackward) by reflexivity.
    exact (change_values_action Spec.PageBackward range).
Qed.

(** The press on the trough behind the slider of [plain_range], value 3
    and page increment 5, pages backward and starts the timer; a tick
    of the repeating timeout pages backward again. *)
Lemma repeat_tick_pages_backward :
  timer (priv Cases.paging_range)
  = Some {| timeout_id := 1; step := GTK_SCROLL_PAGE_BACKWARD |}
  /\ gtk_adjustment_get_value (adjustment (priv Cases.paging_range)) = 0%float
  /\ exists run,
       second_timeout (host := plain_host) Cases.paging_range = Some run
       /\ result run = G_SOURCE_CONTINUE
       /\ change_values (trace run) = [(GTK_SCROLL_PAGE_BACKWARD, (0 - 5)%float)].
Proof.
  assert (T : timer (priv Cases.paging_range)
              = Some {| timeout_id := 1; step := GTK_SCROLL_PAGE_BACKWARD |}).
  { vm_compute. reflexivity. }
  split; [exact T |]. split; [vm_compute; reflexivity |].
  exact (repeat_tick_pages plain_host Cases.paging_range
           {| timeout_id := 1; step := GTK_SCROLL_PAGE_BACKWARD |} T
           (or_intror eq_refl)).
Defined.

(** ** Drag updates *)

Section DragUpdates.

Context {host : Host}.

Lemma update_autoscroll_mode_run (r : GtkRange) :
  let run := update_autoscroll_mode r in
  change_values (trace run) = []
  /\ committed_values (trace run) = []
  /\ in_drag (priv (state run)) = in_drag (priv r)
  /\ animated_values (trace run) = [].
Proof.
  unfold update_autoscroll_mode. autorewrite with run.
  cbv [get result state trace fst snd].
  match goal with
  | |- context [negb (GtkScrollType_beq ?m (autoscroll_mode (priv r)))] =>
      generalize m; intro mode
  end.
  destruct (negb (GtkScrollType_beq mode (autoscroll_mode (priv r))));
    [| repeat split].
  unfold remove_autoscroll, add_autoscroll, new_source_id.
  destruct (autoscroll_id (priv r) =? 0) eqn:A;
    cbv [negb when get result state trace fst snd modify modify_priv perform ret bind app];
    rewrite A; simpl; rewrite ?A; simpl;
    destruct (GtkScrollType_beq mode GTK_SCROLL_NONE); simpl; repeat split.
Qed.

End DragUpdates.

(** X17: in zoom mode, a drag update that brings the pointer within 15
    pixels of an end of the range does not position the slider: it
    emits no [change-value] and hands the adjustment nothing, and
    leaves the range in drag, autoscrolling by steps. *)
Theorem zoom_drag_at_edge_autoscrolls (host : Host) (range : GtkRange)
    (gesture : GtkGestureDrag) (offset_x offset_y : gdouble) :
  is_part (grab_location (priv range)) SLIDER_WIDGET = true ->
  zoom (priv range) = true ->
  let pos :=
    match orientation (priv range) with
    | GTK_ORIENTATION_VERTICAL => to_gint (drag_start_y gesture + offset_y)
    | GTK_ORIENTATION_HORIZONTAL => to_gint (drag_start_x gesture + offset_x)
    end in
  let size :=
    match orientation (priv range) with
    | GTK_ORIENTATION_VERTICAL => widget_height range
    | GTK_ORIENTATION_HORIZONTAL => widget_width range
    end in
  pos < SCROLL_EDGE_SIZE \/ size - SCROLL_EDGE_SIZE < pos ->
  let run := gtk_range_drag_gesture_update gesture offset_x offset_y range in
  change_values (trace run) = []
  /\ committed_values (trace run) = []
  /\ in_drag (priv (state run)) = true
  /\ autoscroll_mode (priv (state run))
     = (if pos <? SCROLL_EDGE_SIZE
        then if inverted (priv range)
             then GTK_SCROLL_STEP_FORWARD else GTK_SCROLL_STEP_BACKWARD
        else if inverted (priv range)
             then GTK_SCROLL_STEP_BACKWARD else GTK_SCROLL_STEP_FORWARD).
Proof.
  intros G Z pos size E run. subst run.
  unfold gtk_range_drag_gesture_update. autorewrite with run prims.
  rewrite G. cbn [when]. autorewrite with run prims.
  cbn -[update_autoscroll_mode update_slider_position change_values committed_values
        to_gint].
  match goal with
  | |- context [update_autoscroll_mode ?r0] => set (r3 := r0)
  end.
  pose proof (update_autoscroll_mode_by_inverted_flag host r3 Z) as M.
  destruct (update_autoscroll_mode_run r3) as (C1 & C2 & D & _).
  assert (M0 : autoscroll_mode (priv (state (update_autoscroll_mode r3)))
               = (if pos <? SCROLL_EDGE_SIZE
                  then if inverted (priv range)
                       then GTK_SCROLL_STEP_FORWARD else GTK_SCROLL_STEP_BACKWARD
                  else if size - SCROLL_EDGE_SIZE <? pos
                  then if inverted (priv range)
                       then GTK_SCROLL_STEP_BACKWARD else GTK_SCROLL_STEP_FORWARD
                  else GTK_SCROLL_NONE)) by exact M.
  clear M. rename M0 into M.
  assert (M' : autoscroll_mode (priv (state (update_autoscroll_mode r3)))
               = (if pos <? SCROLL_EDGE_SIZE
                  then if inverted (priv range)
                       then GTK_SCROLL_STEP_FORWARD else GTK_SCROLL_STEP_BACKWARD
                  else if inverted (priv range)
                       then GTK_SCROLL_STEP_BACKWARD else GTK_SCROLL_STEP_FORWARD)).
  { rewrite M. destruct (Z.ltb_spec pos SCROLL_EDGE_SIZE) as [L | L]; [reflexivity |].
    destruct (Z.ltb_spec (size - SCROLL_EDGE_SIZE) pos) as [L' | L']; [reflexivity |].
    lia. }
  clear M. rewrite C1, C2.
  assert (N : GtkScrollType_beq (autoscroll_mode (priv (state (update_autoscroll_mode r3))))
                GTK_SCROLL_NONE = false).
  { rewrite M'. destruct (pos <? SCROLL_EDGE_SIZE), (inverted (priv range)); reflexivity. }
  rewrite N. cbn [when]. autorewrite with prims.
  repeat split; [exact D | exact M'].
Qed.

(** The zoom-mode drag of [flipped_rtl_range] from 50 to 5. *)
Lemma zoom_drag_at_edge_autoscrolls_at_5 :
  is_part (grab_location (priv flipped_rtl_range)) SLIDER_WIDGET = true
  /\ zoom (priv flipped_rtl_range) = true
  /\ to_gint (50 + -45) = 5
  /\ change_values
       (trace (gtk_range_drag_gesture_update (host := plain_host) the_gesture (-45) 0
                 flipped_rtl_range)) = [].
Proof.
  split; [reflexivity |]. split; [reflexivity |]. split; [vm_compute; reflexivity |].
  refine (proj1 (zoom_drag_at_edge_autoscrolls plain_host flipped_rtl_range the_gesture
                   (-45) 0 eq_refl eq_refl (or_introl _))).
  vm_compute. reflexivity.
Defined.

(** ** Animation *)

Lemma animated_values_app (t1 t2 : list Event) :
  animated_values (t1 ++ t2) = animated_values t1 ++ animated_values t2.
Proof.
  induction t1 as [| e t1 IH]; simpl; [reflexivity |].
  destruct e; simpl; rewrite IH; reflexivity.
Qed.

#[local] Hint Rewrite animated_values_app : run.

Section Animation.

Context {host : Host}.

Hypothesis quiet : no_handler_connected host.

Lemma animated_values_adjustment_call setter value r :
  animated_values (trace (adjustment_call setter value r)) = [].
Proof.
  destruct (trace_adjustment_call setter value r) as [E | E]; rewrite E; reflexivity.
Qed.

Lemma animated_values_emit (scroll : GtkScrollType) (value : gdouble) (r : GtkRange) :
  animated_values (trace (emit_change_value scroll value r))
  = (if in_drag (priv r) || negb (autoscroll_id (priv r) =? 0) then []
     else [Spec.committed_value r value]).
Proof.
  destruct quiet as [QA QC].
  unfold emit_change_value. autorewrite with run.
  cbn -[gtk_range_real_change_value]. rewrite QC.
  cbn -[gtk_range_real_change_value].
  unfold gtk_range_real_change_value. autorewrite with run.
  cbn -[adjustment_call animated_values]. rewrite QA.
  unfold Spec.committed_value, Spec.round_half_up, Spec.cap_at_fill_level.
  rewrite power_loop_ten_to.
  destruct (in_drag (priv r) || negb (autoscroll_id (priv r) =? 0)%Z);
    autorewrite with run; cbn -[adjustment_call];
    rewrite animated_values_adjustment_call; reflexivity.
Qed.

Lemma recalculate_initial_position_in_drag (zoom : gdouble) (mouse_x mouse_y : Z)
    (r : GtkRange) :
  in_drag (priv (state (recalculate_initial_position zoom mouse_x mouse_y r)))
  = in_drag (priv r).
Proof.
  unfold recalculate_initial_position. autorewrite with run.
  cbv [get result state fst snd when].
  destruct (slide_initial_slider_position (priv r) =? -1)%Z; [| reflexivity].
  destruct (orientation (priv r)); reflexivity.
Qed.

Lemma animated_values_update_slider_position (mouse_x mouse_y : Z) (r : GtkRange) :
  in_drag (priv r) = true ->
  animated_values (trace (update_slider_position mouse_x mouse_y r)) = [].
Proof.
  intro D. unfold update_slider_position. autorewrite with run.
  cbn -[emit_change_value recalculate_initial_position animated_values
        drag_zoom slide_coordinate coord_to_value snap_to_mark_loop].
  rewrite trace_recalculate_initial_position, animated_values_emit.
  rewrite recalculate_initial_position_in_drag, D. reflexivity.
Qed.

Lemma animated_values_drag_gesture_update (gesture : GtkGestureDrag)
    (offset_x offset_y : gdouble) (r : GtkRange) :
  animated_values (trace (gtk_range_drag_gesture_update gesture offset_x offset_y r)) = [].
Proof.
  unfold gtk_range_drag_gesture_update. autorewrite with run prims.
  destruct (is_part (grab_location (priv r)) SLIDER_WIDGET); [| reflexivity].
  cbn [when]. autorewrite with run prims.
  cbn -[update_autoscroll_mode update_slider_position animated_values to_gint].
  match goal with
  | |- context [update_autoscroll_mode ?r0] => set (r3 := r0)
  end.
  destruct (update_autoscroll_mode_run r3) as (_ & _ & D & A).
  rewrite A.
  destruct (GtkScrollType_beq _ GTK_SCROLL_NONE); [| reflexivity].
  cbn [when]. rewrite animated_values_update_slider_position; [reflexivity |].
  rewrite D. reflexivity.
Qed.

End Animation.

(** X18: when no handler is connected to [change-value] and
    [adjust-bounds], what the user drives directly is never animated:
    a drag update and a tick of the autoscroll callback hand their
    value to [gtk_adjustment_set_value].  A value that arrives while
    the range is neither in drag nor autoscrolling, as a keyboard
    scroll does, is handed to [gtk_adjustment_animate_to_value]. *)
Theorem interactive_changes_are_not_animated (host : Host) :
  no_handler_connected host ->
  (forall range gesture offset_x offset_y,
      animated_values
        (trace (gtk_range_drag_gesture_update gesture offset_x offset_y range)) = [])
  /\ (forall range run,
         autoscroll_id (priv range) <> 0 ->
         autoscroll_cb range = Some run ->
         animated_values (trace run) = []
         /\ exists value, committed_values (trace run) = [value])
  /\ (forall range scroll value,
         in_drag (priv range) = false ->
         autoscroll_id (priv range) = 0 ->
         animated_values (trace (emit_change_value scroll value range))
         = [Spec.committed_value range value]).
Proof.
  intro Q. split; [| split].
  - intros range gesture offset_x offset_y.
    apply animated_values_drag_gesture_update. exact Q.
  - intros range run A C. unfold autoscroll_cb in C.
    destruct (autoscroll_increment range) as [increment |]; [| discriminate].
    injection C as <-. autorewrite with run.
    cbn -[emit_change_value animated_values committed_values].
    rewrite !app_nil_r. rewrite animated_values_emit by exact Q.
    apply Z.eqb_neq in A. rewrite A, orb_true_r. split; [reflexivity |].
    destruct Q as [QA QC].
    unfold emit_change_value. autorewrite with run.
    cbn -[gtk_range_real_change_value]. rewrite QC.
    cbn -[gtk_range_real_change_value committed_values].
    rewrite real_change_value_committed. eexists. reflexivity.
  - intros range scroll value D A.
    rewrite animated_values_emit by exact Q. rewrite D, A. reflexivity.
Qed.

Lemma interactive_changes_are_not_animated_plain_host :
  no_handler_connected plain_host
  /\ committed_values
       (trace (gtk_range_drag_gesture_update (host := plain_host) the_gesture 5 0
                 pressed_range)) <> []
  /\ animated_values
       (trace (gtk_range_drag_gesture_update (host := plain_host) the_gesture 5 0
                 pressed_range)) = [].
Proof.
  assert (Q : no_handler_connected plain_host).
  { split; intros; reflexivity. }
  split; [exact Q |]. split; [vm_compute; discriminate |].
  exact (proj1 (interactive_changes_are_not_animated plain_host Q)
           pressed_range the_gesture 5%float 0%float).
Defined.

(** ** Keys and pointer events *)

(** X19: during a drag each press of a Shift key toggles zoom mode (and
    the fine-tune style class with it) and is consumed, without
    emitting anything; a second press restores the mode.  The grab is
    kept. *)
Theorem shift_toggles_zoom (host : Host) (range : GtkRange) (keyval : GdkKey)
    (device : Z) :
  in_drag (priv range) = true ->
  is_shift keyval = true ->
  let event := {| event_keyval := Some keyval; event_device := device |} in
  let once := gtk_range_key_press event range in
  let twice := gtk_range_key_press event (state once) in
  result once = GDK_EVENT_STOP
  /\ trace once = []
  /\ zoom (priv (state once)) = negb (zoom (priv range))
  /\ class_fine_tune (state once) = negb (zoom (priv range))
  /\ grab_location (priv (state once)) = grab_location (priv range)
  /\ result twice = GDK_EVENT_STOP
  /\ zoom (priv (state twice)) = zoom (priv range).
Proof.
  intros D S event once twice. subst twice once event.
  assert (E : is_escape keyval = false) by (destruct keyval; try reflexivity; discriminate).
  unfold gtk_range_key_press, update_zoom_state.
  cbv [event_keyval bind get ret modify modify_priv result state trace fst snd].
  rewrite E, S, D, !andb_false_r. cbn [andb].
  destruct (orientation (priv range)) eqn:O; cbn; rewrite ?E, ?S, ?D, ?O, ?andb_false_r;
    cbn; rewrite ?O; cbn; rewrite negb_involutive; repeat split; reflexivity.
Qed.

Lemma shift_toggles_zoom_while_dragging :
  in_drag (priv dragging_range) = true
  /\ is_shift GDK_KEY_Shift_L = true
  /\ zoom (priv dragging_range) = false
  /\ zoom (priv (state (gtk_range_key_press (host := plain_host) Cases.shift_key
                          dragging_range))) = true.
Proof.
  split; [reflexivity |]. split; [reflexivity |]. split; [reflexivity |].
  exact (proj1 (proj2 (proj2 (shift_toggles_zoom plain_host dragging_range
                                GDK_KEY_Shift_L 1 eq_refl eq_refl)))).
Defined.

(** X20: [gtk_range_event] only tracks the pointer: it lets every
    event propagate, emits nothing and keeps the grab.  While a widget
    is grabbed the pointer counts as being on it, wherever it is; a
    leave notification sets both coordinates to [G_MININT], and an
    event without coordinates keeps them. *)
Theorem gtk_range_event_tracks_pointer (host : Host) (range : GtkRange)
    (event : GdkEvent) :
  let run := gtk_range_event event range in
  let p := priv range in
  let p' := priv (state run) in
  result run = GDK_EVENT_PROPAGATE
  /\ trace run = []
  /\ grab_location p' = grab_location p
  /\ mouse_location p'
     = (if is_null (grab_location p)
        then gtk_widget_pick
               (set_priv (set_mouse_y (mouse_y p') (set_mouse_x (mouse_x p') p)) range)
               (mouse_x p') (mouse_y p')
        else grab_location p)
  /\ (mouse_x p', mouse_y p')
     = (if event_is_leave_notify event then (G_MININT, G_MININT)
        else match event_coords event with
             | Some (x, y) => (to_gint x, to_gint y)
             | None => (mouse_x p, mouse_y p)
             end).
Proof.
  intros run p p'. subst run p p'.
  unfold gtk_range_event, gtk_range_update_mouse_location.
  destruct range as [p d ww wh sa ta smw smh tw th sc pw dg sl tr cd cf ns].
  destruct p as [ml mx my gl tm adj o fl mk rd sp sd fp iv sf tc ho zm sh rs dr am ai].
  destruct (event_is_leave_notify event); [| destruct (event_coords event) as [[x y] |]];
    destruct gl; repeat split.
Qed.

(** ** Scrolling to the bounds *)

Lemma ltb_irrefl (x : gdouble) : (x <? x)%float = false.
Proof.
  rewrite FloatAxioms.ltb_spec. unfold SFltb.
  destruct (Prim2SF x) as [s | s | | s m e] eqn:E;
    try (rewrite SFcompare_refl by discriminate; reflexivity).
  reflexivity.
Qed.

Lemma leb_not_gt (x y : gdouble) : (x <=? y)%float = true -> (y <? x)%float = false.
Proof.
  rewrite FloatAxioms.ltb_spec, FloatAxioms.leb_spec. unfold SFltb, SFleb.
  rewrite (SFcompare_antisym (Prim2SF x) (Prim2SF y)).
  destruct (SFcompare (Prim2SF x) (Prim2SF y)) as [[ | | ] |]; simpl; intro H;
    try reflexivity; discriminate.
Qed.

(** Doubles that compare equal compare alike with any third. *)
Lemma SFcompare_Eq_compat (x y z : spec_float) :
  SFcompare x y = Some Eq -> SFcompare z x = SFcompare z y.
Proof.
  destruct x as [sx | sx | | sx mx ex], y as [sy | sy | | sy my ey]; simpl;
    try discriminate; try (destruct sx; discriminate); try (destruct sy; discriminate).
  - intros _. destruct z; reflexivity.
  - destruct sx, sy; try discriminate; intros _; reflexivity.
  - destruct sx, sy; try discriminate;
      destruct (ex ?= ey)%Z eqn:Ce; try discriminate;
      try (destruct (CompOpp _); discriminate);
      apply Z.compare_eq in Ce; subst ey; intro Cm.
    + assert (Cm' : (mx ?= my)%positive = Eq).
      { fold (Pos.compare mx my) in Cm.
        destruct (mx ?= my)%positive; try discriminate; reflexivity. }
      apply Pos.compare_eq in Cm'. subst my. reflexivity.
    + assert (Cm' : (mx ?= my)%positive = Eq).
      { fold (Pos.compare mx my) in Cm.
        destruct (mx ?= my)%positive; try discriminate; reflexivity. }
      apply Pos.compare_eq in Cm'. subst my. reflexivity.
Qed.

Lemma not_ltb_eqb (x y : gdouble) :
  is_nan x = false -> is_nan y = false ->
  (x <? y)%float = false -> (y <? x)%float = false -> (x =? y)%float = true.
Proof.
  intros Nx Ny. rewrite !FloatAxioms.ltb_spec, FloatAxioms.eqb_spec.
  unfold SFltb, SFeqb. rewrite (SFcompare_antisym (Prim2SF x) (Prim2SF y)).
  apply is_nan_spec in Nx. apply is_nan_spec in Ny.
  destruct (Prim2SF x) as [sx | sx | | sx mx ex] eqn:Ex; try contradiction;
    destruct (Prim2SF y) as [sy | sy | | sy my ey] eqn:Ey; try contradiction;
    destruct (SFcompare _ _) as [[ | | ] |] eqn:C; simpl; try reflexivity; try discriminate;
    simpl in C; discriminate.
Qed.

Lemma eqb_ltb_compat (x y z : gdouble) :
  (x =? y)%float = true -> (z <? x)%float = (z <? y)%float.
Proof.
  rewrite FloatAxioms.eqb_spec, !FloatAxioms.ltb_spec. unfold SFeqb, SFltb.
  destruct (SFcompare (Prim2SF x) (Prim2SF y)) as [[ | | ] |] eqn:C; try discriminate.
  intros _. rewrite (SFcompare_Eq_compat _ _ (Prim2SF z) C). reflexivity.
Qed.

Lemma eqb_refl_number (x : gdouble) : is_nan x = false -> (x =? x)%float = true.
Proof.
  unfold is_nan. destruct (x =? x)%float; [reflexivity | discriminate].
Qed.

(** The lower bound passes the cap and the clamp as itself, up to the
    sign of a zero. *)
Lemma committed_value_of_lower (range : GtkRange) :
  let p := priv range in
  let lower := gtk_adjustment_get_lower (adjustment p) in
  let top :=
    (gtk_adjustment_get_upper (adjustment p)
     - gtk_adjustment_get_page_size (adjustment p))%float in
  is_nan lower = false -> is_nan (fill_level p) = false ->
  (lower <=? top)%float = true -> round_digits p < 0 ->
  feq (Spec.committed_value range lower) lower = true.
Proof.
  intros p lower top Nl Nf L R.
  unfold Spec.committed_value, Spec.round_half_up, Spec.cap_at_fill_level.
  fold p. fold lower. fold top.
  destruct (Z.leb_spec 0 (round_digits p)) as [R' | _]; [lia |].
  pose proof (leb_not_gt _ _ L) as G.
  pose proof (ltb_irrefl lower) as Il.
  pose proof (eqb_refl_number lower Nl) as El.
  unfold feq, CLAMP, MIN, MAX.
  destruct (restrict_to_fill_level p).
  - destruct (fill_level p <? lower)%float eqn:A.
    + rewrite Il, G, Il. exact El.
    + destruct (lower <? fill_level p)%float eqn:B.
      * rewrite G, Il. exact El.
      * pose proof (not_ltb_eqb _ _ Nf Nl A B) as Ef.
        rewrite (eqb_ltb_compat _ _ top Ef), G, A. exact Ef.
  - rewrite G, Il. exact El.
Qed.

Section Bounds.

Context {host : Host}.

Hypothesis quiet : no_handler_connected host.

Lemma committed_values_emit (scroll : GtkScrollType) (value : gdouble) (r : GtkRange) :
  committed_values (trace (emit_change_value scroll value r))
  = [Spec.committed_value r value].
Proof.
  destruct quiet as [QA QC].
  unfold emit_change_value. autorewrite with run.
  cbn -[gtk_range_real_change_value]. rewrite QC.
  cbn -[gtk_range_real_change_value committed_values].
  rewrite real_change_value_committed, QA. reflexivity.
Qed.

Lemma committed_values_scroll_begin (r : GtkRange) :
  committed_values (trace (gtk_range_scroll GTK_SCROLL_START r))
  = [Spec.committed_value r (gtk_adjustment_get_lower (adjustment (priv r)))].
Proof.
  unfold gtk_range_scroll, scroll_begin. autorewrite with run.
  cbn -[emit_change_value committed_values].
  rewrite committed_values_emit. reflexivity.
Qed.

Lemma committed_values_scroll_end (r : GtkRange) :
  committed_values (trace (gtk_range_scroll GTK_SCROLL_END r))
  = [Spec.committed_value r
       (gtk_adjustment_get_upper (adjustment (priv r))
        - gtk_adjustment_get_page_size (adjustment (priv r)))%float].
Proof.
  unfold gtk_range_scroll, scroll_end. autorewrite with run.
  cbn -[emit_change_value committed_values].
  rewrite committed_values_emit. reflexivity.
Qed.

End Bounds.

(** X21: with no handler connected, rounding off, and bounds and fill
    level that are numbers with [lower <= upper - page_size], scrolling
    to the start hands the adjustment one value, equal to [lower]
    whether or not the value is restricted to the fill level; scrolling
    to the end of a range that is not restricted hands it
    [upper - page_size]. *)
Theorem scroll_to_bounds (host : Host) (range : GtkRange) :
  no_handler_connected host ->
  let p := priv range in
  let lower := gtk_adjustment_get_lower (adjustment p) in
  let top :=
    (gtk_adjustment_get_upper (adjustment p)
     - gtk_adjustment_get_page_size (adjustment p))%float in
  is_nan lower = false -> is_nan (fill_level p) = false ->
  (lower <=? top)%float = true -> round_digits p < 0 ->
  (exists value,
      committed_values (trace (gtk_range_scroll GTK_SCROLL_START range)) = [value]
      /\ feq value lower = true)
  /\ (restrict_to_fill_level p = false ->
      committed_values (trace (gtk_range_scroll GTK_SCROLL_END range)) = [top]).
Proof.
  intros Q p lower top Nl Nf L R. split.
  - eexists. split; [apply committed_values_scroll_begin; exact Q |].
    apply committed_value_of_lower; assumption.
  - intro F. rewrite committed_values_scroll_end by exact Q.
    unfold Spec.committed_value, Spec.round_half_up, Spec.cap_at_fill_level.
    fold p. fold lower. fold top. rewrite F.
    destruct (Z.leb_spec 0 (round_digits p)) as [R' | _]; [lia |].
    unfold CLAMP. rewrite ltb_irrefl, (leb_not_gt _ _ L). reflexivity.
Qed.

(** [filled_range] has bounds [0, 10], fill level 5 and value 0: the
    scroll to the start hands over 0. *)
Lemma scroll_to_start_of_filled_range :
  no_handler_connected plain_host
  /\ committed_values
       (trace (gtk_range_scroll (host := plain_host) GTK_SCROLL_START filled_range))
     = [0%float]
  /\ exists value,
       committed_values
         (trace (gtk_range_scroll (host := plain_host) GTK_SCROLL_START filled_range))
       = [value]
       /\ feq value 0 = true.
Proof.
  assert (Q : no_handler_connected plain_host).
  { split; intros; reflexivity. }
  split; [exact Q |]. split; [vm_compute; reflexivity |].
  refine (proj1 (scroll_to_bounds plain_host filled_range Q eq_refl eq_refl eq_refl _)).
  vm_compute. reflexivity.
Defined.

(** ** Button presses *)

Section Presses.

Context {host : Host}.

Lemma trace_update_initial_slider_position (x y : gdouble) (slider : GtkAllocation)
    (r : GtkRange) :
  trace (update_initial_slider_position x y slider r) = [].
Proof.
  unfold update_initial_slider_position, bind, get.
  destruct (orientation (priv r)); reflexivity.
Qed.

Lemma trace_range_grab_add (location : RangePart) (r : GtkRange) :
  trace (range_grab_add location r) = [].
Proof. reflexivity. Qed.

Lemma trace_update_zoom_state (enabled : gboolean) (r : GtkRange) :
  trace (update_zoom_state enabled r) = [].
Proof. reflexivity. Qed.

Lemma trace_modify_priv (f : GtkRangePrivate -> GtkRangePrivate) (r : GtkRange) :
  trace (modify_priv f r) = [].
Proof. reflexivity. Qed.

Lemma trace_update_mouse_location (r : GtkRange) :
  trace (gtk_range_update_mouse_location r) = [].
Proof. reflexivity. Qed.

(** X22: a press changes the value only on the trough.  Anywhere else
    it emits no [change-value] and hands the adjustment nothing,
    whatever the button and the modifiers. *)
Theorem press_off_trough_keeps_value (event : GdkEventButton) (x y : gdouble)
    (range : GtkRange) :
  is_part (pointer_location x y range) TROUGH_WIDGET = false ->
  let run := gtk_range_multipress_gesture_pressed event x y range in
  change_values (trace run) = [] /\ committed_values (trace run) = [].
Proof.
  intros H run. subst run. unfold pointer_location in H.
  unfold gtk_range_multipress_gesture_pressed.
  autorewrite with run prims.
  autorewrite with run prims in H.
  rewrite !trace_modify_priv, trace_update_mouse_location.
  match type of H with
  | is_part (mouse_location (priv ?s)) _ = _ => set (r0 := s) in *
  end.
  rewrite H. cbn [andb].
  destruct (is_part (mouse_location (priv r0)) SLIDER_WIDGET);
    [destruct (event_triggers_context_menu event) |]; cbn [andb].
  - split; reflexivity.
  - autorewrite with run prims.
    rewrite trace_update_initial_slider_position, trace_range_grab_add.
    destruct (event_shift_pressed event); cbn [when];
      (destruct (is_part _ SLIDER_WIDGET); [| destruct (negb _)]); split; reflexivity.
  - autorewrite with run prims.
    (destruct (is_part _ SLIDER_WIDGET); [| destruct (negb _)]); split; reflexivity.
Qed.

Lemma update_mouse_location_fields (r : GtkRange) :
  let r' := state (gtk_range_update_mouse_location r) in
  grab_location (priv r') = grab_location (priv r)
  /\ zoom (priv r') = zoom (priv r)
  /\ timer (priv r') = timer (priv r)
  /\ adjustment (priv r') = adjustment (priv r)
  /\ marks (priv r') = marks (priv r)
  /\ next_source_id r' = next_source_id r.
Proof.
  unfold gtk_range_update_mouse_location, modify, state. cbn.
  destruct (negb (is_null (grab_location (priv r)))); repeat split; reflexivity.
Qed.

(** X23: a press on the slider grabs the slider and marks it active
    and dragging, without emitting anything; it starts zoom mode when
    Shift is held.  When the event is the one that opens context
    menus, the press claims the sequence and emits [popup-menu]
    instead, and grabs nothing. *)
Theorem press_on_slider_grabs (event : GdkEventButton) (x y : gdouble)
    (range : GtkRange) :
  pointer_location x y range = Some SLIDER_WIDGET ->
  let run := gtk_range_multipress_gesture_pressed event x y range in
  if event_triggers_context_menu event
  then trace run = [SEQUENCE_CLAIMED; SIGNAL_POPUP_MENU]
       /\ grab_location (priv (state run)) = grab_location (priv range)
       /\ zoom (priv (state run)) = zoom (priv range)
  else trace run = []
       /\ grab_location (priv (state run)) = Some SLIDER_WIDGET
       /\ zoom (priv (state run)) = event_shift_pressed event || zoom (priv range)
       /\ slider_active (state run) = true
       /\ class_dragging (state run) = true.
Proof.
  intros H run. subst run. unfold pointer_location in H.
  unfold gtk_range_multipress_gesture_pressed.
  autorewrite with run prims.
  autorewrite with run prims in H.
  rewrite !trace_modify_priv, trace_update_mouse_location.
  match type of H with
  | mouse_location (priv ?s) = _ => set (r0 := s) in *
  end.
  rewrite H. cbn [is_part andb].
  assert (G0 : grab_location (priv r0) = grab_location (priv range)).
  { subst r0. rewrite (proj1 (update_mouse_location_fields _)). reflexivity. }
  assert (Z0 : zoom (priv r0) = zoom (priv range)).
  { subst r0. rewrite (proj1 (proj2 (update_mouse_location_fields _))). reflexivity. }
  clearbody r0.
  destruct (event_triggers_context_menu event).
  - split; [reflexivity |]. split; [exact G0 | exact Z0].
  - autorewrite with run prims.
    rewrite trace_update_initial_slider_position, trace_range_grab_add.
    unfold update_initial_slider_position, range_grab_add, update_zoom_state,
      update_trough_state, update_slider_state.
    destruct (event_shift_pressed event); cbn [when orb];
      autorewrite with run prims;
      destruct (orientation (priv _)); cbn; rewrite ?Z0; repeat split; reflexivity.
Qed.

Lemma located_fields (mx my : Z) (range : GtkRange) :
  let r0 :=
    state (gtk_range_update_mouse_location
             (state (modify_priv (set_mouse_y my)
                       (state (modify_priv (set_mouse_x mx) range))))) in
  timer (priv r0) = timer (priv range)
  /\ adjustment (priv r0) = adjustment (priv range)
  /\ marks (priv r0) = marks (priv range)
  /\ orientation (priv r0) = orientation (priv range)
  /\ next_source_id r0 = next_source_id range
  /\ primary_button_warps_slider r0 = primary_button_warps_slider range
  /\ (forall c, coord_to_value r0 c = coord_to_value range c)
  /\ autoscroll_id (priv r0) = autoscroll_id (priv range).
Proof.
  unfold gtk_range_update_mouse_location, modify_priv, modify, state. cbn.
  destruct (negb (is_null (grab_location (priv range)))); repeat split; reflexivity.
Qed.

Lemma add_step_timer_pages (forward : bool) (r : GtkRange) :
  timer (priv r) = None ->
  let step := if forward then GTK_SCROLL_PAGE_FORWARD else GTK_SCROLL_PAGE_BACKWARD in
  let adj := adjustment (priv r) in
  let value := gtk_adjustment_get_value adj in
  let page := gtk_adjustment_get_page_increment adj in
  let run := gtk_range_add_step_timer step r in
  (exists rest, trace run = ADD_TIMEOUT TIMEOUT_INITIAL (next_source_id r) :: rest)
  /\ change_values (trace run)
     = [(step,
         Spec.pass_through (marks (priv r)) value
           (if forward then (value + page)%float else (value - page)%float))].
Proof.
  intros T step adj value page run. subst run.
  unfold gtk_range_add_step_timer, new_source_id.
  autorewrite with run prims. rewrite T. cbn [is_null negb].
  assert (S : GtkScrollType_beq step GTK_SCROLL_NONE = false)
    by (subst step; destruct forward; reflexivity).
  rewrite S. autorewrite with run prims.
  cbn -[gtk_range_scroll change_values].
  split; [eexists; reflexivity |].
  cbn [change_values app]. rewrite app_nil_r.
  match goal with
  | |- context [gtk_range_scroll step ?r1] => set (r3 := r1)
  end.
  subst step. destruct forward.
  - rewrite gtk_range_scroll_action with (action := Spec.PageForward) by reflexivity.
    exact (change_values_action Spec.PageForward r3).
  - rewrite gtk_range_scroll_action with (action := Spec.PageBackward) by reflexivity.
    exact (change_values_action Spec.PageBackward r3).
Qed.

Lemma paging_branch (forward : bool) (r0 : GtkRange) :
  timer (priv r0) = None ->
  let adj := adjustment (priv r0) in
  let value := gtk_adjustment_get_value adj in
  let page := gtk_adjustment_get_page_increment adj in
  let run :=
    (modify_priv (set_trough_click_forward forward);;
     range_grab_add TROUGH_WIDGET;;
     r <- get;;
     gtk_range_add_step_timer (range_get_scroll_for_grab r)) r0 in
  (exists rest, trace run = ADD_TIMEOUT TIMEOUT_INITIAL (next_source_id r0) :: rest)
  /\ change_values (trace run)
     = [(if forward then GTK_SCROLL_PAGE_FORWARD else GTK_SCROLL_PAGE_BACKWARD,
         Spec.pass_through (marks (priv r0)) value
           (if forward then (value + page)%float else (value - page)%float))].
Proof.
  intros T adj value page run. subst run.
  autorewrite with run prims.
  rewrite trace_modify_priv, trace_range_grab_add.
  set (r2 := state (range_grab_add TROUGH_WIDGET
                      (state (modify_priv (set_trough_click_forward forward) r0)))).
  assert (S : range_get_scroll_for_grab r2
              = if forward then GTK_SCROLL_PAGE_FORWARD else GTK_SCROLL_PAGE_BACKWARD)
    by reflexivity.
  assert (T2 : timer (priv r2) = None) by exact T.
  assert (F : adjustment (priv r2) = adjustment (priv r0)
              /\ marks (priv r2) = marks (priv r0)
              /\ next_source_id r2 = next_source_id r0) by (repeat split).
  destruct F as (F1 & F2 & F3).
  clearbody r2. rewrite S.
  destruct (add_step_timer_pages forward r2 T2) as ((rest & E) & C).
  rewrite F1, F2 in C. rewrite F3 in E.
  split.
  - rewrite E. eexists. reflexivity.
  - cbn [app change_values]. exact C.
Qed.

(** X24: a press on the trough with the button and modifiers that
    page, while no repeat timer runs, registers the initial timeout of
    500 ms and at once pages toward the pointer: it emits
    [change-value] once, for a page forward when the value under the
    pointer lies above the current value and for a page backward
    otherwise, with the value one page increment away (or the first
    mark passed on the way). *)
Theorem press_on_trough_pages (event : GdkEventButton) (x y : gdouble)
    (range : GtkRange) :
  pointer_location x y range = Some TROUGH_WIDGET ->
  press_warps event (primary_button_warps_slider range) = false ->
  press_pages event (primary_button_warps_slider range) = true ->
  timer (priv range) = None ->
  let adj := adjustment (priv range) in
  let value := gtk_adjustment_get_value adj in
  let page := gtk_adjustment_get_page_increment adj in
  let coord :=
    match orientation (priv range) with
    | GTK_ORIENTATION_VERTICAL => y
    | GTK_ORIENTATION_HORIZONTAL => x
    end in
  let forward := (value <? coord_to_value range coord)%float in
  let run := gtk_range_multipress_gesture_pressed event x y range in
  (exists rest, trace run = ADD_TIMEOUT TIMEOUT_INITIAL (next_source_id range) :: rest)
  /\ change_values (trace run)
     = [(if forward then GTK_SCROLL_PAGE_FORWARD else GTK_SCROLL_PAGE_BACKWARD,
         Spec.pass_through (marks (priv range)) value
           (if forward then (value + page)%float else (value - page)%float))].
Proof.
  intros H W P T adj value page coord forward run.
  subst run. unfold pointer_location in H.
  unfold gtk_range_multipress_gesture_pressed.
  autorewrite with run prims.
  autorewrite with run prims in H.
  rewrite !trace_modify_priv, trace_update_mouse_location.
  destruct (located_fields (to_gint x) (to_gint y) range)
    as (T0 & A0 & M0 & O0 & N0 & W0 & C0 & _).
  match type of H with
  | mouse_location (priv ?s) = _ => set (r0 := s) in *
  end.
  clearbody r0.
  rewrite H. cbn [is_part andb].
  rewrite W0. fold (press_warps event (primary_button_warps_slider range)).
  fold (press_pages event (primary_button_warps_slider range)).
  rewrite W, P.
  rewrite C0, A0, O0.
  replace (if match orientation (priv range) with
              | GTK_ORIENTATION_HORIZONTAL => false
              | GTK_ORIENTATION_VERTICAL => true
              end then y else x) with coord
    by (subst coord; destruct (orientation (priv range)); reflexivity).
  fold adj. fold value. fold forward. clearbody forward.
  rewrite trace_bind.
  rewrite <- T0 in T.
  destruct (paging_branch forward r0 T) as ((rest & E) & C).
  rewrite A0, M0 in C. rewrite N0 in E. fold adj in C. fold value in C. fold page in C.
  split.
  - rewrite E. cbn [app]. eexists. reflexivity.
  - rewrite change_values_app, C. rewrite trace_bind. autorewrite with prims.
    cbn [app].
    (destruct (is_part _ SLIDER_WIDGET); [| destruct (negb _)]); reflexivity.
Qed.

(** X25: a press with the secondary button on the trough (when that
    button neither warps nor pages) starts autoscrolling toward the
    pointer: to the end when the value under the pointer lies above the
    current value, to the start otherwise.  It grabs the trough,
    replaces the tick callback that may be registered by a fresh one
    and claims the sequence; it does not change the value itself. *)
Theorem press_on_trough_autoscrolls (event : GdkEventButton) (x y : gdouble)
    (range : GtkRange) :
  pointer_location x y range = Some TROUGH_WIDGET ->
  press_warps event (primary_button_warps_slider range) = false ->
  press_pages event (primary_button_warps_slider range) = false ->
  (event_button event =? GDK_BUTTON_SECONDARY) = true ->
  let adj := adjustment (priv range) in
  let value := gtk_adjustment_get_value adj in
  let coord :=
    match orientation (priv range) with
    | GTK_ORIENTATION_VERTICAL => y
    | GTK_ORIENTATION_HORIZONTAL => x
    end in
  let forward := (value <? coord_to_value range coord)%float in
  let old := autoscroll_id (priv range) in
  let run := gtk_range_multipress_gesture_pressed event x y range in
  trace run
  = (if old =? 0 then [] else [REMOVE_TICK_CALLBACK old])
    ++ [ADD_TICK_CALLBACK (next_source_id range); SEQUENCE_CLAIMED]
  /\ autoscroll_mode (priv (state run))
     = (if forward then GTK_SCROLL_END else GTK_SCROLL_START)
  /\ autoscroll_id (priv (state run)) = next_source_id range
  /\ grab_location (priv (state run)) = Some TROUGH_WIDGET.
Proof.
  intros H W P B adj value coord forward old run.
  subst run. unfold pointer_location in H.
  unfold gtk_range_multipress_gesture_pressed.
  autorewrite with run prims.
  autorewrite with run prims in H.
  rewrite !trace_modify_priv, trace_update_mouse_location.
  destruct (located_fields (to_gint x) (to_gint y) range)
    as (T0 & A0 & M0 & O0 & N0 & W0 & C0 & I0).
  match type of H with
  | mouse_location (priv ?s) = _ => set (r0 := s) in *
  end.
  clearbody r0.
  rewrite H. cbn [is_part andb].
  rewrite W0. fold (press_warps event (primary_button_warps_slider range)).
  fold (press_pages event (primary_button_warps_slider range)).
  rewrite W, P, B.
  rewrite C0, A0, O0.
  replace (if match orientation (priv range) with
              | GTK_ORIENTATION_HORIZONTAL => false
              | GTK_ORIENTATION_VERTICAL => true
              end then y else x) with coord
    by (subst coord; destruct (orientation (priv range)); reflexivity).
  fold adj. fold value. fold forward. clearbody forward.
  subst old. rewrite <- I0, <- N0.
  unfold remove_autoscroll, add_autoscroll, new_source_id, range_grab_add,
    update_trough_state, update_slider_state.
  destruct (autoscroll_id (priv r0) =? 0) eqn:I;
    cbv [negb when get result state trace fst snd modify modify_priv perform ret bind app];
    cbn; rewrite I; cbn; rewrite ?I; cbn;
    destruct forward; cbn; repeat split; reflexivity.
Qed.

End Presses.

(** A shift-press at 80 on the trough of [plain_range], whose primary
    button warps: the value under the pointer is above the value 3, so
    the press pages forward, to 8. *)
Lemma press_on_trough_pages_forward :
  pointer_location (host := plain_host) 80 10 plain_range = Some TROUGH_WIDGET
  /\ press_warps shift_press (primary_button_warps_slider plain_range) = false
  /\ press_pages shift_press (primary_button_warps_slider plain_range) = true
  /\ timer (priv plain_range) = None
  /\ change_values
       (trace (gtk_range_multipress_gesture_pressed (host := plain_host) shift_press
                 80 10 plain_range))
     = [(GTK_SCROLL_PAGE_FORWARD, 8%float)].
Proof.
  assert (L : pointer_location (host := plain_host) 80 10 plain_range
              = Some TROUGH_WIDGET) by (vm_compute; reflexivity).
  split; [exact L |]. split; [reflexivity |]. split; [reflexivity |].
  split; [reflexivity |].
  exact (proj2 (@press_on_trough_pages plain_host shift_press 80 10 plain_range
                  L eq_refl eq_refl eq_refl)).
Defined.

(** The secondary press at 80 on the trough of [plain_range], value 3. *)
Lemma press_on_trough_autoscrolls_to_end :
  pointer_location (host := plain_host) 80 10 plain_range = Some TROUGH_WIDGET
  /\ autoscroll_mode
       (priv (state (gtk_range_multipress_gesture_pressed (host := plain_host)
                       secondary_press 80 10 plain_range)))
     = GTK_SCROLL_END.
Proof.
  assert (L : pointer_location (host := plain_host) 80 10 plain_range
              = Some TROUGH_WIDGET) by (vm_compute; reflexivity).
  split; [exact L |].
  exact (proj1 (proj2 (@press_on_trough_autoscrolls plain_host secondary_press 80 10
                         plain_range L eq_refl eq_refl eq_refl))).
Defined.

(** The press on the slider of [pressed_range]. *)
Lemma press_off_trough_keeps_value_on_slider :
  is_part (pointer_location (host := plain_host) 50 10
             (horizontal_range (-1) [] (new_adjustment 5 0 10 1 5 0)))
    TROUGH_WIDGET = false
  /\ committed_values
       (trace (gtk_range_multipress_gesture_pressed (host := plain_host) primary_press
                 50 10 (horizontal_range (-1) [] (new_adjustment 5 0 10 1 5 0)))) = [].
Proof.
  split; [vm_compute; reflexivity |].
  refine (proj2 (@press_off_trough_keeps_value plain_host primary_press 50 10 _ _)).
  vm_compute. reflexivity.
Defined.

Lemma press_on_slider_grabs_with_shift :
  pointer_location (host := plain_host) 50 10
    (horizontal_range (-1) [] (new_adjustment 5 0 10 1 5 0)) = Some SLIDER_WIDGET
  /\ grab_location
       (priv (state (gtk_range_multipress_gesture_pressed (host := plain_host)
                       shift_press 50 10
                       (horizontal_range (-1) [] (new_adjustment 5 0 10 1 5 0)))))
     = Some SLIDER_WIDGET.
Proof.
  split; [vm_compute; reflexivity |].
  refine (proj1 (proj2 (@press_on_slider_grabs plain_host shift_press 50 10 _ _))).
  vm_compute. reflexivity.
Defined.

(** ** The scroll wheel *)

(** X26: a scroll of the wheel emits [change-value] once, with reason
    jump and the value moved by the page increment times a wheel delta.
    A vertical range takes the vertical delta and ignores the
    horizontal one; a horizontal range takes the horizontal delta, and
    the vertical one reversed when the horizontal one is zero.  The
    [inverted] flag alone reverses the move: the text direction of the
    widget has no part in it, even for a flippable range, whose
    keyboard steps it does reverse. *)
Theorem wheel_scroll_emits_jump (host : Host) (range : GtkRange) (dx dy : gdouble) :
  let p := priv range in
  let value := gtk_adjustment_get_value (adjustment p) in
  let page := gtk_adjustment_get_page_increment (adjustment p) in
  let wheel :=
    match orientation p with
    | GTK_ORIENTATION_VERTICAL => dy
    | GTK_ORIENTATION_HORIZONTAL => if feq dx 0 then (- dy)%float else dx
    end in
  let delta := if inverted p then (- (wheel * page))%float else (wheel * page)%float in
  change_values (trace (gtk_range_scroll_controller_scroll dx dy range))
  = [(GTK_SCROLL_JUMP, (value + delta)%float)]
  /\ forall dir : GtkTextDirection,
       change_values
         (trace (gtk_range_scroll_controller_scroll dx dy (set_direction dir range)))
       = change_values (trace (gtk_range_scroll_controller_scroll dx dy range)).
Proof.
  intros p value page wheel delta.
  assert (E : forall r,
             priv r = p ->
             change_values (trace (gtk_range_scroll_controller_scroll dx dy r))
             = [(GTK_SCROLL_JUMP, (value + delta)%float)]).
  { intros r R. unfold gtk_range_scroll_controller_scroll. autorewrite with run prims.
    cbn -[emit_change_value change_values]. rewrite change_values_emit, R.
    subst delta wheel value page. unfold fne, feq.
    destruct (orientation p); [destruct (dx =? 0)%float |]; reflexivity. }
  split; [apply E; reflexivity |].
  intro dir. rewrite (E range eq_refl). apply E. reflexivity.
Qed.
